(** * Daily task assignment and reward ledger

    A shallow embedding of the request handlers of the task and reward
    server (server/_backup_20260118_230749/src/index.js) and of the SQLite
    schema they run against, of the seeding of the catalog
    (server/src/db.js) and of the countdown of the task page, followed by
    the properties of the ledger that hold, or fail, on that code. *)

From Stdlib Require Import ZArith List String Ascii Bool Lia.
From Stdlib Require Import QArith Qround.
From Stdlib Require Import Permutation.
From Stdlib Require SpecFloat.
Import ListNotations.

Local Open Scope string_scope.
Local Open Scope list_scope.
Local Open Scope Z_scope.

(** ** Clock: JavaScript [Date] and the SQLite date functions

    An instant is a JavaScript time value: milliseconds since
    1970-01-01T00:00:00Z, as [new Date().getTime()] gives it. *)

Module Clock.

Definition msPerDay : Z := 86400000.

(** ECMAScript [Day(t)]: the number of the UTC day an instant falls in. *)
Definition Day (t : Z) : Z := t / msPerDay.

(** The proleptic Gregorian date of a day number, as [(year, month, day)].
    The computation runs over 400-year eras that start on 1 March. *)
Definition civil_of_doe (era doe : Z) : Z * Z * Z :=
  let yoe := (doe - doe / 1460 + doe / 36524 - doe / 146096) / 365 in
  let doy := doe - (365 * yoe + yoe / 4 - yoe / 100) in
  let mp := (5 * doy + 2) / 153 in
  let d := doy - (153 * mp + 2) / 5 + 1 in
  let m := if mp <? 10 then mp + 3 else mp - 9 in
  let y := yoe + era * 400 in
  (if m <=? 2 then y + 1 else y, m, d).

Definition civil_from_days (z : Z) : Z * Z * Z :=
  let z' := z + 719468 in
  civil_of_doe (z' / 146097) (z' mod 146097).

(** One decimal digit as a character. *)
Definition digit (n : Z) : ascii := ascii_of_nat (48 + Z.to_nat (n mod 10)).

Definition pad2 (n : Z) : string :=
  String (digit (n / 10)) (String (digit n) EmptyString).

Definition pad4 (n : Z) : string := (pad2 (n / 100) ++ pad2 n)%string.

Definition pad6 (n : Z) : string := (pad2 (n / 10000) ++ pad4 n)%string.

(** [toISOString()] writes years 0..9999 with four digits and any other
    year with a sign and six digits. *)
Definition iso_year (y : Z) : string :=
  if (0 <=? y) && (y <=? 9999) then pad4 y
  else String.append (if y <? 0 then "-" else "+") (pad6 (Z.abs y)).

(** The calendar date an instant has in UTC. *)
Definition utc_date (t : Z) : Z * Z * Z := civil_from_days (Day t).

(** The date part of [toISOString()], up to the [T]. *)
Definition iso_date (t : Z) : string :=
  let '(y, m, d) := utc_date t in
  (iso_year y ++ "-" ++ pad2 m ++ "-" ++ pad2 d)%string.

(** [s.slice(0, n)] for [0 <= n]. *)
Fixpoint slice0 (n : nat) (s : string) : string :=
  match n, s with
  | S n', String c s' => String c (slice0 n' s')
  | _, _ => EmptyString
  end.

(** [function dayUTC() { return new Date().toISOString().slice(0, 10); }]
    with the instant read by [new Date()] made a parameter. *)
Definition dayUTC (now : Z) : string := slice0 10 (iso_date now).

(** [plusDaysISO(days)]: [setUTCDate(getUTCDate() + days)] moves the
    instant by whole UTC days. *)
Definition plusDaysISO (now days : Z) : Z := now + days * msPerDay.

(** SQLite [datetime(x)] keeps whole seconds; two such texts compare as
    their second counts do. *)
Definition sql_datetime (t : Z) : Z := t / 1000.

(** SQLite [date(x)] of a [datetime] value given in seconds. *)
Definition sql_date (secs : Z) : Z := secs / 86400.

(** The wall clock of the reference timezone of the client countdown
    ([utc + 3 * 3600000] in Tasks/untilMidnight). *)
Definition nairobi (t : Z) : Z := t + 3 * 3600000.

(** The calendar date an instant has in Nairobi. *)
Definition nairobi_date (t : Z) : Z * Z * Z := civil_from_days (Day (nairobi t)).

(** The time of day, in milliseconds, an instant has in Nairobi. *)
Definition nairobi_time_of_day (t : Z) : Z := nairobi t mod msPerDay.

End Clock.

(** ** Schema

    The tables the handlers read or write, one record per table, as the
    [initDb] that goes with these handlers creates them: the one whose
    [daily_tasks] has the column [day] and which has [referral_rewards].
    A table is the list of its rows in insertion order.  Columns that the
    handlers below never read are left out: the surrogate [id] of the
    tables other than [users] and [tasks], the profile columns of [users]
    (name, email, password hash, referral code, phone) and the display
    columns of [tasks] (title, description, media).  That [initDb] does not
    switch foreign keys on, so SQLite does not enforce them. *)

Module Users.
Record row : Type := mk
  { id : Z;
    referred_by : option Z;
    balance_ksh : Z;
    bonus_ksh : Z;
    delete_requested_at : option Z;
    delete_effective_at : option Z }.
End Users.

Module Tasks.
Record row : Type := mk
  { id : Z;
    category : string;
    reward_ksh : Z;
    active : Z }.
End Tasks.

Module DailyTasks.
(** [UNIQUE(user_id, day, task_id)] *)
Record row : Type := mk
  { user_id : Z;
    day : string;
    task_id : Z }.
End DailyTasks.

Module TaskCompletions.
(** [created_at] defaults to [datetime("now")], kept here in seconds;
    [UNIQUE(user_id, task_id, created_at)] *)
Record row : Type := mk
  { user_id : Z;
    task_id : Z;
    reward_ksh : Z;
    answer_text : string;
    created_at : Z }.
End TaskCompletions.

Module Withdrawals.
Record row : Type := mk
  { user_id : Z;
    amount_ksh : Z;
    phone_number : string;
    method : string;
    status : string }.
End Withdrawals.

Module ReferralRewards.
(** [UNIQUE(referrer_id, referred_user_id)] *)
Record row : Type := mk
  { referrer_id : Z;
    referred_user_id : Z }.
End ReferralRewards.

Record db : Type := mkDb
  { users : list Users.row;
    tasks : list Tasks.row;
    daily_tasks : list DailyTasks.row;
    task_completions : list TaskCompletions.row;
    withdrawals : list Withdrawals.row;
    referral_rewards : list ReferralRewards.row }.

Definition empty_db : db := mkDb [] [] [] [] [] [].

Definition set_users (f : list Users.row -> list Users.row) (s : db) : db :=
  mkDb (f (users s)) (tasks s) (daily_tasks s) (task_completions s)
       (withdrawals s) (referral_rewards s).

Definition set_daily_tasks (f : list DailyTasks.row -> list DailyTasks.row)
    (s : db) : db :=
  mkDb (users s) (tasks s) (f (daily_tasks s)) (task_completions s)
       (withdrawals s) (referral_rewards s).

Definition set_task_completions
    (f : list TaskCompletions.row -> list TaskCompletions.row) (s : db) : db :=
  mkDb (users s) (tasks s) (daily_tasks s) (f (task_completions s))
       (withdrawals s) (referral_rewards s).

Definition set_withdrawals (f : list Withdrawals.row -> list Withdrawals.row)
    (s : db) : db :=
  mkDb (users s) (tasks s) (daily_tasks s) (task_completions s)
       (f (withdrawals s)) (referral_rewards s).

Definition set_referral_rewards
    (f : list ReferralRewards.row -> list ReferralRewards.row) (s : db) : db :=
  mkDb (users s) (tasks s) (daily_tasks s) (task_completions s)
       (withdrawals s) (f (referral_rewards s)).

(** [UPDATE t SET ... WHERE p] and [DELETE FROM t WHERE p] on one table. *)
Definition update_where {A : Type} (p : A -> bool) (f : A -> A) (l : list A)
    : list A :=
  map (fun r => if p r then f r else r) l.

Definition delete_where {A : Type} (p : A -> bool) (l : list A) : list A :=
  filter (fun r => negb (p r)) l.

(** ** Handlers as programs over the store

    Every [await run(...)] is one autocommitted statement: the handlers
    open no transaction.  A handler is a program that threads the store
    and a fault plan: [Some k] stops the handler before write number
    [k + 1], as when the process dies there; [None] lets it run to its
    end. *)

Inductive outcome (A : Type) : Type :=
| Returned (a : A)   (* ran on, with a value *)
| Rejected           (* a statement failed and its exception propagates *)
| Interrupted.       (* the process stopped before a write *)

Arguments Returned {A} a.
Arguments Rejected {A}.
Arguments Interrupted {A}.

Definition fault : Type := option nat.

Definition M (A : Type) : Type := fault -> db -> outcome A * fault * db.

Definition ret {A : Type} (a : A) : M A := fun f s => (Returned a, f, s).

Definition bind {A B : Type} (m : M A) (k : A -> M B) : M B :=
  fun f s =>
    match m f s with
    | (Returned a, f', s') => k a f' s'
    | (Rejected, f', s') => (Rejected, f', s')
    | (Interrupted, f', s') => (Interrupted, f', s')
    end.

Notation "x <- m ;; k" := (bind m (fun x => k))
  (at level 61, m at next level, right associativity).
Notation "m ;;; k" := (bind m (fun _ => k))
  (at level 61, right associativity).

(** [await get(...)] / [await all(...)]: a read. *)
Definition query {A : Type} (q : db -> A) : M A := fun f s => (Returned (q s), f, s).

(** [await run(...)] of a statement that a constraint may refuse: one write. *)
Definition run_checked (stmt : db -> option db) : M unit :=
  fun f s =>
    match f with
    | Some O => (Interrupted, f, s)
    | _ =>
        match stmt s with
        | Some s' => (Returned tt, option_map Nat.pred f, s')
        | None => (Rejected, f, s)
        end
    end.

(** [await run(...)] of a statement that cannot fail. *)
Definition run (stmt : db -> db) : M unit :=
  run_checked (fun s => Some (stmt s)).

(** [throw]: an exception raised by the handler's own code. *)
Definition throw {A : Type} : M A := fun f s => (Rejected, f, s).

(** [try { m } catch (e) { h }] *)
Definition try_catch {A : Type} (m h : M A) : M A :=
  fun f s =>
    match m f s with
    | (Rejected, f', s') => h f' s'
    | r => r
    end.

(** [for (const x of l) { await body(x) }] *)
Fixpoint for_of {A : Type} (l : list A) (body : A -> M unit) : M unit :=
  match l with
  | [] => ret tt
  | x :: l' => body x ;;; for_of l' body
  end.

(** What a handler sends back: [res.json(a)] or
    [res.status(code).json({ error })]. *)
Inductive reply (A : Type) : Type :=
| Json (a : A)
| Error (code : Z) (error : string).

Arguments Json {A} a.
Arguments Error {A} code error.

(** The store a handler leaves, and what it answered, with no fault. *)
Definition run_store {A : Type} (m : M A) (s : db) : db := snd (m None s).
Definition run_outcome {A : Type} (m : M A) (s : db) : outcome A :=
  fst (fst (m None s)).

(** The store left when the process stops before write [k + 1]. *)
Definition run_store_upto {A : Type} (k : nat) (m : M A) (s : db) : db :=
  snd (m (Some k) s).

(** ** Statements *)

Definition lookup_user (uid : Z) (s : db) : option Users.row :=
  find (fun u => Users.id u =? uid) (users s).

(** [SELECT id FROM users WHERE delete_effective_at IS NOT NULL AND
    datetime(delete_effective_at) <= datetime("now")] *)
Definition is_doomed (now : Z) (u : Users.row) : bool :=
  match Users.delete_effective_at u with
  | Some e => Clock.sql_datetime e <=? Clock.sql_datetime now
  | None => false
  end.

Definition doomed (now : Z) (s : db) : list Z :=
  map Users.id (filter (is_doomed now) (users s)).

(** [DELETE FROM task_completions WHERE user_id = ?] *)
Definition delete_task_completions_of (uid : Z) : db -> db :=
  fun s => set_task_completions
    (delete_where (fun c => TaskCompletions.user_id c =? uid)) s.

(** [DELETE FROM withdrawals WHERE user_id = ?] *)
Definition delete_withdrawals_of (uid : Z) : db -> db :=
  fun s => set_withdrawals
    (delete_where (fun w => Withdrawals.user_id w =? uid)) s.

(** [DELETE FROM daily_tasks WHERE user_id = ?] *)
Definition delete_daily_tasks_of (uid : Z) : db -> db :=
  fun s => set_daily_tasks
    (delete_where (fun d => DailyTasks.user_id d =? uid)) s.

(** [DELETE FROM referral_rewards WHERE referrer_id = ? OR
    referred_user_id = ?] *)
Definition delete_referral_rewards_of (uid : Z) : db -> db :=
  fun s => set_referral_rewards
    (delete_where (fun r => (ReferralRewards.referrer_id r =? uid)
                            || (ReferralRewards.referred_user_id r =? uid))) s.

(** [DELETE FROM users WHERE id = ?] *)
Definition delete_user (uid : Z) : db -> db :=
  fun s => set_users (delete_where (fun u => Users.id u =? uid)) s.

(** The body of the loop of [purgeDeletedAccounts]. *)
Definition purge_account (uid : Z) : M unit :=
  run (delete_task_completions_of uid) ;;;
  run (delete_withdrawals_of uid) ;;;
  run (delete_daily_tasks_of uid) ;;;
  run (delete_referral_rewards_of uid) ;;;
  run (delete_user uid).

(** [async function purgeDeletedAccounts()] *)
Definition purgeDeletedAccounts (now : Z) : M unit :=
  ids <- query (doomed now) ;;
  for_of ids purge_account.

(** [UPDATE users SET delete_requested_at = ?, delete_effective_at = ?
    WHERE id = ?] *)
Definition set_delete_request (uid requested effective : Z) : db -> db :=
  fun s => set_users
    (update_where (fun u => Users.id u =? uid)
       (fun u => Users.mk (Users.id u) (Users.referred_by u)
                   (Users.balance_ksh u) (Users.bonus_ksh u)
                   (Some requested) (Some effective))) s.

(** [POST /api/me/delete-request] *)
Definition post_me_delete_request (now uid : Z) : M (reply Z) :=
  let effective := Clock.plusDaysISO now 7 in
  run (set_delete_request uid now effective) ;;;
  ret (Json effective).

(** *** Daily tasks *)

Definition is_assignment (uid : Z) (today : string) (d : DailyTasks.row) : bool :=
  (DailyTasks.user_id d =? uid) && String.eqb (DailyTasks.day d) today.

(** [SELECT t.* FROM daily_tasks d JOIN tasks t ON t.id = d.task_id
    WHERE d.user_id = ? AND d.day = ?] *)
Definition existing_tasks (uid : Z) (today : string) (s : db) : list Tasks.row :=
  flat_map
    (fun d => filter (fun t => Tasks.id t =? DailyTasks.task_id d) (tasks s))
    (filter (is_assignment uid today) (daily_tasks s)).

Definition is_active (t : Tasks.row) : bool := Tasks.active t =? 1.

(** [SELECT * FROM tasks WHERE active = 1 ORDER BY RANDOM() LIMIT 5]; the
    random order is the parameter [shuffle]. *)
Definition pick_tasks (shuffle : list Tasks.row -> list Tasks.row) (s : db)
    : list Tasks.row :=
  firstn 5 (shuffle (filter is_active (tasks s))).

(** [DELETE FROM daily_tasks WHERE user_id = ? AND day = ?] *)
Definition delete_daily_tasks_on (uid : Z) (today : string) : db -> db :=
  fun s => set_daily_tasks (delete_where (is_assignment uid today)) s.

(** [INSERT OR IGNORE INTO daily_tasks (user_id, day, task_id)] *)
Definition insert_or_ignore_daily_task (uid : Z) (today : string) (tid : Z)
    : db -> db :=
  fun s =>
    if existsb (fun d => is_assignment uid today d && (DailyTasks.task_id d =? tid))
         (daily_tasks s)
    then s
    else set_daily_tasks (fun l => l ++ [DailyTasks.mk uid today tid]) s.

(** [async function ensureDailyTasks(userId)] *)
Definition ensureDailyTasks (shuffle : list Tasks.row -> list Tasks.row)
    (now userId : Z) : M (list Tasks.row) :=
  let today := Clock.dayUTC now in
  existing <- query (existing_tasks userId today) ;;
  if (5 <=? List.length existing)%nat then ret (firstn 5 existing)
  else
    run (delete_daily_tasks_on userId today) ;;;
    picked <- query (pick_tasks shuffle) ;;
    for_of picked (fun t =>
      run (insert_or_ignore_daily_task userId today (Tasks.id t))) ;;;
    ret picked.

(** [SELECT ... FROM task_completions WHERE user_id = ? AND
    date(created_at) = date("now")] *)
Definition completed_today (uid now : Z) (s : db) : list TaskCompletions.row :=
  filter (fun c => (TaskCompletions.user_id c =? uid)
                   && (Clock.sql_date (TaskCompletions.created_at c)
                       =? Clock.sql_date (Clock.sql_datetime now)))
         (task_completions s).

(** [GET /api/tasks]: each task with its [completed] mark. *)
Definition get_tasks (shuffle : list Tasks.row -> list Tasks.row)
    (now uid : Z) : M (reply (list (Tasks.row * bool))) :=
  purgeDeletedAccounts now ;;;
  tasks <- ensureDailyTasks shuffle now uid ;;
  completedToday <- query (completed_today uid now) ;;
  let done := map TaskCompletions.task_id completedToday in
  ret (Json (map (fun t => (t, existsb (Z.eqb (Tasks.id t)) done)) tasks)).

(** *** Completing a task *)

(** The JSON body of a completion request. *)
Record complete_body : Type := mkBody
  { answer : option string;
    text : option string;
    transcript : option string }.

(** [a || b]: the first operand that is truthy (a non-empty string). *)
Definition js_or (a b : option string) : option string :=
  match a with
  | Some (String _ _) => a
  | _ => b
  end.

(** [String(req.body.answer || req.body.text || req.body.transcript)] when
    one of the three is truthy, the empty string otherwise. *)
Definition answer_of (b : complete_body) : string :=
  match js_or (js_or (answer b) (text b)) (transcript b) with
  | Some (String c r) => String c r
  | _ => EmptyString
  end.

(** [SELECT id, reward_ksh FROM tasks WHERE id = ? AND active = 1] *)
Definition active_task (tid : Z) (s : db) : option Tasks.row :=
  find (fun t => (Tasks.id t =? tid) && is_active t) (tasks s).

(** [SELECT id FROM daily_tasks WHERE user_id = ? AND day = ? AND task_id = ?] *)
Definition assigned_today (uid : Z) (today : string) (tid : Z) (s : db)
    : option DailyTasks.row :=
  find (fun d => is_assignment uid today d && (DailyTasks.task_id d =? tid))
       (daily_tasks s).

(** [SELECT COUNT( * ) FROM task_completions WHERE user_id = ?] *)
Definition completions_of (uid : Z) (s : db) : list TaskCompletions.row :=
  filter (fun c => TaskCompletions.user_id c =? uid) (task_completions s).

(** [INSERT INTO task_completions (user_id, task_id, reward_ksh, answer_text)];
    [created_at] takes its default, and the insert fails on a row with the
    same user, task and second. *)
Definition insert_task_completion (uid tid reward : Z) (ans : string) (now : Z)
    : db -> option db :=
  fun s =>
    let at_ := Clock.sql_datetime now in
    if existsb (fun c => (TaskCompletions.user_id c =? uid)
                         && (TaskCompletions.task_id c =? tid)
                         && (TaskCompletions.created_at c =? at_))
         (task_completions s)
    then None
    else Some (set_task_completions
                 (fun l => l ++ [TaskCompletions.mk uid tid reward ans at_]) s).

Definition add_balance (amount : Z) (u : Users.row) : Users.row :=
  Users.mk (Users.id u) (Users.referred_by u) (Users.balance_ksh u + amount)
    (Users.bonus_ksh u) (Users.delete_requested_at u)
    (Users.delete_effective_at u).

Definition add_bonus (amount : Z) (u : Users.row) : Users.row :=
  Users.mk (Users.id u) (Users.referred_by u) (Users.balance_ksh u)
    (Users.bonus_ksh u + amount) (Users.delete_requested_at u)
    (Users.delete_effective_at u).

(** [UPDATE users SET balance_ksh = balance_ksh + ? WHERE id = ?] *)
Definition credit_balance (uid amount : Z) : db -> db :=
  fun s => set_users
    (update_where (fun u => Users.id u =? uid) (add_balance amount)) s.

(** [UPDATE users SET bonus_ksh = bonus_ksh + 100 WHERE id = ?] *)
Definition credit_bonus (uid amount : Z) : db -> db :=
  fun s => set_users
    (update_where (fun u => Users.id u =? uid) (add_bonus amount)) s.

(** [SELECT id FROM referral_rewards WHERE referrer_id = ? AND
    referred_user_id = ?] *)
Definition is_reward (referrer referred : Z) (r : ReferralRewards.row) : bool :=
  (ReferralRewards.referrer_id r =? referrer)
  && (ReferralRewards.referred_user_id r =? referred).

Definition reward_row (referrer referred : Z) (s : db)
    : option ReferralRewards.row :=
  find (is_reward referrer referred) (referral_rewards s).

(** [INSERT INTO referral_rewards (referrer_id, referred_user_id)] *)
Definition insert_referral_reward (referrer referred : Z) : db -> option db :=
  fun s =>
    if existsb (is_reward referrer referred) (referral_rewards s) then None
    else Some (set_referral_rewards
                 (fun l => l ++ [ReferralRewards.mk referrer referred]) s).

Definition referral_bonus : Z := 100.
Definition daily_limit : nat := 5.

(** The referral step of the completion handler: [if (me && me.referred_by)]
    and what it guards. *)
Definition referral_step (uid : Z) : M unit :=
  me <- query (lookup_user uid) ;;
  match me with
  | Some me =>
      match Users.referred_by me with
      | Some referrer =>
          if referrer =? 0 then ret tt
          else
            anyCompletion <- query (completions_of (Users.id me)) ;;
            if (List.length anyCompletion =? 1)%nat then
              already <- query (reward_row referrer (Users.id me)) ;;
              match already with
              | Some _ => ret tt
              | None =>
                  run_checked (insert_referral_reward referrer (Users.id me)) ;;;
                  run (credit_bonus referrer referral_bonus)
              end
            else ret tt
      | None => ret tt
      end
  | None => ret tt
  end.

(** [POST /api/tasks/:id/complete] *)
Definition post_tasks_complete (now uid taskId : Z) (body : complete_body)
    : M (reply Z) :=
  purgeDeletedAccounts now ;;;
  task <- query (active_task taskId) ;;
  match task with
  | None => ret (Error 404 "Task not found")
  | Some task =>
      let today := Clock.dayUTC now in
      assigned <- query (assigned_today uid today taskId) ;;
      match assigned with
      | None => ret (Error 400 "Task not assigned for today")
      | Some _ =>
          cnt <- query (completed_today uid now) ;;
          if (daily_limit <=? List.length cnt)%nat
          then ret (Error 400 "Daily limit reached (5 tasks/day)")
          else
            run_checked (insert_task_completion uid taskId (Tasks.reward_ksh task)
                     (answer_of body) now) ;;;
            run (credit_balance uid (Tasks.reward_ksh task)) ;;;
            referral_step uid ;;;
            updated <- query (lookup_user uid) ;;
            match updated with
            | Some u => ret (Json (Users.balance_ksh u))
            | None => throw
            end
      end
  end.

(** *** Referral bonus redemption *)

Definition redeem_block : Z := 1000.

(** [UPDATE users SET bonus_ksh = bonus_ksh - 1000,
    balance_ksh = balance_ksh + 1000 WHERE id = ?] *)
Definition move_bonus (uid : Z) : db -> db :=
  fun s => set_users
    (update_where (fun u => Users.id u =? uid)
       (fun u => add_balance redeem_block (add_bonus (- redeem_block) u))) s.

(** [POST /api/referrals/redeem]: answers [{ ok: true, ...updated }], the
    balance and bonus read back. *)
Definition post_referrals_redeem (uid : Z) : M (reply (option (Z * Z))) :=
  u <- query (lookup_user uid) ;;
  match u with
  | None => ret (Error 400 "User not found")
  | Some u =>
      if Users.bonus_ksh u <? redeem_block
      then ret (Error 400 "Bonus must reach KSH 1000 to redeem")
      else
        run (move_bonus uid) ;;;
        updated <- query (lookup_user uid) ;;
        ret (Json (option_map
                     (fun u' => (Users.balance_ksh u', Users.bonus_ksh u'))
                     updated))
  end.

(** *** Withdrawals *)

(** The JSON body of a withdrawal request; [amount] is a JSON number. *)
Record withdrawal_body : Type := mkWithdrawal
  { amount : Q;
    phone : string;
    method : string }.

(** [z.object({ amount: z.number().positive(), phone: z.string().min(6),
    method: z.string().min(2) })] *)
Definition schema_ok (b : withdrawal_body) : bool :=
  negb (Qle_bool (amount b) 0)
  && (6 <=? String.length (phone b))%nat
  && (2 <=? String.length (method b))%nat.

(** [INSERT INTO withdrawals (user_id, amount_ksh, phone_number, method, status)] *)
Definition insert_withdrawal (uid amount_ksh : Z) (phone method status : string)
    : db -> db :=
  fun s => set_withdrawals
    (fun l => l ++ [Withdrawals.mk uid amount_ksh phone method status]) s.

(** [POST /api/withdrawals]; the [catch] answers 400 with the message of
    whatever was thrown. *)
Definition post_withdrawals (uid : Z) (body : withdrawal_body) : M (reply unit) :=
  try_catch
    (if negb (schema_ok body) then throw
     else
       u <- query (lookup_user uid) ;;
       match u with
       | None => ret (Error 400 "User not found")
       | Some u =>
           if negb (Qle_bool (amount body) (inject_Z (Users.balance_ksh u)))
           then ret (Error 400 "Insufficient balance")
           else
             run (insert_withdrawal uid (Qfloor (amount body)) (phone body)
                      (method body) "pending") ;;;
             run (credit_balance uid (- Qfloor (amount body))) ;;;
             ret (Json tt)
       end)
    (ret (Error 400 "Bad request")).

(** [GET /api/health], and the hourly [setInterval(purgeDeletedAccounts)]. *)
Definition get_health (now : Z) : M (reply unit) :=
  purgeDeletedAccounts now ;;;
  ret (Json tt).

(** ** Requests and traces *)

Inductive request : Type :=
| GetHealth (now : Z)
| GetTasks (shuffle : list Tasks.row -> list Tasks.row) (now uid : Z)
| PostComplete (now uid taskId : Z) (body : complete_body)
| PostRedeem (uid : Z)
| PostWithdrawal (uid : Z) (body : withdrawal_body)
| PostDeleteRequest (now uid : Z).

(** The store after a request has been served, one request at a time. *)
Definition serve (r : request) (s : db) : db :=
  match r with
  | GetHealth now => run_store (get_health now) s
  | GetTasks shuffle now uid => run_store (get_tasks shuffle now uid) s
  | PostComplete now uid taskId body =>
      run_store (post_tasks_complete now uid taskId body) s
  | PostRedeem uid => run_store (post_referrals_redeem uid) s
  | PostWithdrawal uid body => run_store (post_withdrawals uid body) s
  | PostDeleteRequest now uid => run_store (post_me_delete_request now uid) s
  end.

Definition serve_all (rs : list request) (s : db) : db :=
  fold_left (fun s r => serve r s) rs s.

(** The store a request leaves under a fault plan: the handler may stop
    before any of its writes. *)
Definition serve_with (f : fault) (r : request) (s : db) : db :=
  match r with
  | GetHealth now => snd (get_health now f s)
  | GetTasks shuffle now uid => snd (get_tasks shuffle now uid f s)
  | PostComplete now uid taskId body =>
      snd (post_tasks_complete now uid taskId body f s)
  | PostRedeem uid => snd (post_referrals_redeem uid f s)
  | PostWithdrawal uid body => snd (post_withdrawals uid body f s)
  | PostDeleteRequest now uid => snd (post_me_delete_request now uid f s)
  end.

Definition serve_all_with (rs : list (fault * request)) (s : db) : db :=
  fold_left (fun s fr => serve_with (fst fr) (snd fr) s) rs s.

(** ** Vocabulary of the properties *)

Definition memZ (x : Z) (l : list Z) : bool := existsb (Z.eqb x) l.

(** The store with every row owned by one of [ids] removed. *)
Definition purged (ids : list Z) (s : db) : db :=
  mkDb
    (filter (fun u => negb (memZ (Users.id u) ids)) (users s))
    (tasks s)
    (filter (fun d => negb (memZ (DailyTasks.user_id d) ids)) (daily_tasks s))
    (filter (fun c => negb (memZ (TaskCompletions.user_id c) ids))
            (task_completions s))
    (filter (fun w => negb (memZ (Withdrawals.user_id w) ids)) (withdrawals s))
    (filter (fun r => negb (memZ (ReferralRewards.referrer_id r) ids
                            || memZ (ReferralRewards.referred_user_id r) ids))
            (referral_rewards s)).

(** The store a sweep of the reaper leaves. *)
Definition sweep (now : Z) (s : db) : db := purged (doomed now s) s.

(** A program keeps the invariant [I] of the store at every point where it
    may stop; started under [P], it hands its value [a] on with [Q a]. *)
Definition keeps (I : db -> Prop) {A : Type} (P : db -> Prop) (m : M A)
    (Q : A -> db -> Prop) : Prop :=
  forall f s, I s -> P s ->
    I (snd (m f s))
    /\ forall a f', fst (m f s) = (Returned a, f') -> Q a (snd (m f s)).

(** [PRIMARY KEY] of [users] and of [tasks]. *)
Definition users_unique (s : db) : Prop := NoDup (map Users.id (users s)).
Definition tasks_unique (s : db) : Prop := NoDup (map Tasks.id (tasks s)).

Definition balance_of (uid : Z) (s : db) : option Z :=
  option_map Users.balance_ksh (lookup_user uid s).

Definition bonus_of (uid : Z) (s : db) : option Z :=
  option_map Users.bonus_ksh (lookup_user uid s).

Definition balances_nonneg (s : db) : Prop :=
  forall u, In u (users s) -> 0 <= Users.balance_ksh u /\ 0 <= Users.bonus_ksh u.

Definition rewards_nonneg (s : db) : Prop :=
  forall t, In t (tasks s) -> 0 <= Tasks.reward_ksh t.

(** No duplicate user, no negative reward in the catalog, no negative
    balance. *)
Definition ledger_ok (s : db) : Prop :=
  users_unique s /\ rewards_nonneg s /\ balances_nonneg s.


(** The completion records of a user dated a given UTC day. *)
Definition completions_on (uid day : Z) (s : db) : list TaskCompletions.row :=
  filter (fun c => (TaskCompletions.user_id c =? uid)
                   && (Clock.sql_date (TaskCompletions.created_at c) =? day))
         (task_completions s).

Definition within_daily_limit (s : db) : Prop :=
  forall uid day, (List.length (completions_on uid day s) <= daily_limit)%nat.

(** The reward rows of one (referrer, referred user) pair. *)
Definition rewards_for (referrer referred : Z) (s : db)
    : list ReferralRewards.row :=
  filter (is_reward referrer referred) (referral_rewards s).

(** [UNIQUE(referrer_id, referred_user_id)] of [referral_rewards]. *)
Definition rewards_unique (s : db) : Prop :=
  forall referrer referred,
    (List.length (rewards_for referrer referred s) <= 1)%nat.

Definition not_leaving (u : Users.row) : Prop :=
  Users.delete_effective_at u = None.

(** A run of completion requests of one user. *)
Definition completions_by (uid : Z) (rs : list (Z * Z * complete_body))
    : list request :=
  map (fun r => let '(now, taskId, body) := r in PostComplete now uid taskId body)
      rs.

(** [UNIQUE(user_id, day, task_id)] of [daily_tasks]. *)
Definition assignment_key (d : DailyTasks.row) : Z * string * Z :=
  (DailyTasks.user_id d, DailyTasks.day d, DailyTasks.task_id d).

Definition daily_tasks_unique (s : db) : Prop :=
  NoDup (map assignment_key (daily_tasks s)).

(** The daily-task rows of a user on a day. *)
Definition assignments_of (uid : Z) (today : string) (s : db)
    : list DailyTasks.row :=
  filter (is_assignment uid today) (daily_tasks s).

(** The catalog replaced from outside (the handlers never write [tasks]). *)
Definition with_catalog (catalog : list Tasks.row) (s : db) : db :=
  mkDb (users s) catalog (daily_tasks s) (task_completions s)
       (withdrawals s) (referral_rewards s).

Module Calendar.
(** The day number of a date: the inverse of [civil_from_days]. *)
Definition days_from_civil (c : Z * Z * Z) : Z :=
  let '(y, m, d) := c in
  let y' := if m <=? 2 then y - 1 else y in
  let era := y' / 400 in
  let yoe := y' - era * 400 in
  let mp := if 2 <? m then m - 3 else m + 9 in
  let doy := (153 * mp + 2) / 5 + d - 1 in
  era * 146097 + (yoe * 365 + yoe / 4 - yoe / 100 + doy) - 719468.

(** The instants whose year [toISOString()] writes with four digits. *)
Definition in_four_digit_years (t : Z) : Prop :=
  -62167219200000 <= t < 253402300800000.
End Calendar.

(** The store the referral step leaves when nothing interrupts it. *)
Definition referral_effect (uid : Z) (s : db) : db :=
  match lookup_user uid s with
  | Some me =>
      match Users.referred_by me with
      | Some referrer =>
          if referrer =? 0 then s
          else if (List.length (completions_of (Users.id me) s) =? 1)%nat then
            match reward_row referrer (Users.id me) s with
            | Some _ => s
            | None =>
                credit_bonus referrer referral_bonus
                  (set_referral_rewards
                     (fun l => l ++ [ReferralRewards.mk referrer (Users.id me)]) s)
            end
          else s
      | None => s
      end
  | None => s
  end.

(** The completion record a request inserts. *)
Definition completion_row (now uid taskId reward : Z) (body : complete_body)
    : TaskCompletions.row :=
  TaskCompletions.mk uid taskId reward (answer_of body) (Clock.sql_datetime now).

(** The store after the daily tasks of a user have been drawn afresh. *)
Definition allocate (uid : Z) (today : string) (picked : list Tasks.row) (s : db)
    : db :=
  fold_left (fun s t => insert_or_ignore_daily_task uid today (Tasks.id t) s)
            picked (delete_daily_tasks_on uid today s).

(** Whether a user has completed anything yet, as 0 or 1. *)
Definition paid (uid : Z) (s : db) : Z :=
  match completions_of uid s with
  | [] => 0
  | _ :: _ => 1
  end.

(** A referred user [uid] and the referrer [r], both staying, in a store
    where the referrer's bonus stands at [b0] plus one referral bonus if
    [uid] has completed something, with as many reward rows for the pair. *)
Definition referral_state (uid r b0 : Z) (s : db) : Prop :=
  users_unique s
  /\ (exists me, lookup_user uid s = Some me
                 /\ Users.referred_by me = Some r /\ not_leaving me)
  /\ (exists referrer, lookup_user r s = Some referrer /\ not_leaving referrer
                       /\ Users.bonus_ksh referrer
                          = b0 + referral_bonus * paid uid s)
  /\ Z.of_nat (List.length (rewards_for r uid s)) = paid uid s.

(** What a completion request leaves of the reward rows and of the bonus
    balances when the referral step pays nothing. *)
Definition pays_nothing (now uid tid : Z) (body : complete_body) (s : db) : Prop :=
  let s' := serve (PostComplete now uid tid body) s in
  referral_rewards s' = referral_rewards (sweep now s)
  /\ forall v, bonus_of v s' = bonus_of v (sweep now s).

(** ** Example stores *)

Module Demo.
Definition task7 : Tasks.row := Tasks.mk 7 "audio_transcription" 10 1.

(** One user, one task assigned to the user on 2026-01-18. *)
Definition store : db :=
  mkDb [Users.mk 1 None 0 0 None None] [task7]
       [DailyTasks.mk 1 "2026-01-18" 7] [] [] [].

Definition body : complete_body := mkBody (Some "hello world") None None.

(** 2026-01-18T23:07:49Z and one second later. *)
Definition t1 : Z := 1768777669000.
Definition t2 : Z := 1768777670000.

Definition after_first : db :=
  run_store (post_tasks_complete t1 1 7 body) store.
Definition after_second : db :=
  run_store (post_tasks_complete t2 1 7 body) after_first.

(** User 2 was referred by user 1 and has task 7 assigned on 2026-01-18. *)
Definition referred_store : db :=
  mkDb [Users.mk 1 None 0 0 None None; Users.mk 2 (Some 1) 0 0 None None]
       [task7] [DailyTasks.mk 2 "2026-01-18" 7] [] [] [].

(** A user with a balance of 2, and a request to withdraw 1.5. *)
Definition funded_store : db :=
  mkDb [Users.mk 1 None 2 0 None None] [] [] [] [] [].

Definition one_and_a_half : withdrawal_body :=
  mkWithdrawal (3 # 2) "0700000000" "mpesa".

(** A catalog of two active tasks of one category, as the seed gives audio
    and video transcriptions, and nothing assigned yet. *)
Definition audio1 : Tasks.row := Tasks.mk 1 "transcription" 10 1.
Definition video2 : Tasks.row := Tasks.mk 2 "transcription" 30 1.

Definition transcription_store : db :=
  mkDb [Users.mk 1 None 0 0 None None] [audio1; video2] [] [] [] [].

(** The order [ORDER BY RANDOM()] happens to give: the table order, or
    its reverse. *)
Definition in_order (l : list Tasks.row) : list Tasks.row := l.
Definition reversed (l : list Tasks.row) : list Tasks.row := rev l.

(** A catalog of three active tasks, later grown to six. *)
Definition caption (i : Z) : Tasks.row := Tasks.mk i "image_caption" 12 1.

Definition small_catalog_store : db :=
  mkDb [Users.mk 1 None 0 0 None None] [caption 1; caption 2; caption 3]
       [] [] [] [].

Definition after_allocation : db :=
  run_store (ensureDailyTasks in_order t1 1) small_catalog_store.

Definition after_catalog_change : db :=
  with_catalog [caption 1; caption 2; caption 3; caption 4; caption 5; caption 6]
    after_allocation.

(** Balances of 100 and of 500, for the withdrawals of 150 and of 200. *)
Definition store_100 : db := mkDb [Users.mk 1 None 100 0 None None] [] [] [] [] [].
Definition store_500 : db := mkDb [Users.mk 1 None 500 0 None None] [] [] [] [] [].

Definition withdraw_150 : withdrawal_body :=
  mkWithdrawal (inject_Z 150) "0700000000" "mpesa".
Definition withdraw_200 : withdrawal_body :=
  mkWithdrawal (inject_Z 200) "0700000000" "mpesa".

(** User 2, referred by user 1, with three tasks assigned on 2026-01-18. *)
Definition three_tasks_store : db :=
  mkDb [Users.mk 1 None 0 0 None None; Users.mk 2 (Some 1) 0 0 None None]
       [caption 1; caption 2; caption 3]
       [DailyTasks.mk 2 "2026-01-18" 1; DailyTasks.mk 2 "2026-01-18" 2;
        DailyTasks.mk 2 "2026-01-18" 3] [] [] [].
End Demo.

(** ** The handlers that only read, and the account page *)

(** [GET /api/me]: the row of the caller; when there is none the handler
    sends [{ error: "User not found" }] with the default status. *)
Definition get_me (now uid : Z) : M (reply Users.row) :=
  purgeDeletedAccounts now ;;;
  u <- query (lookup_user uid) ;;
  ret (match u with
       | Some u => Json u
       | None => Error 200 "User not found"
       end).

(** [SELECT ... FROM task_completions tc JOIN tasks t ON t.id = tc.task_id
    WHERE tc.user_id = ? ORDER BY tc.id DESC LIMIT 50] *)
Definition history_rows (uid : Z) (s : db)
    : list (TaskCompletions.row * Tasks.row) :=
  firstn 50
    (rev (flat_map
            (fun c => map (pair c)
                        (filter (fun t => Tasks.id t =? TaskCompletions.task_id c)
                                (tasks s)))
            (completions_of uid s))).

(** [GET /api/history] *)
Definition get_history (uid : Z)
    : M (reply (list (TaskCompletions.row * Tasks.row))) :=
  rows <- query (history_rows uid) ;;
  ret (Json rows).

(** [SELECT ... FROM withdrawals WHERE user_id = ? ORDER BY id DESC LIMIT 50] *)
Definition withdrawal_rows (uid : Z) (s : db) : list Withdrawals.row :=
  firstn 50 (rev (filter (fun w => Withdrawals.user_id w =? uid) (withdrawals s))).

(** [GET /api/withdrawals] *)
Definition get_withdrawals (uid : Z) : M (reply (list Withdrawals.row)) :=
  rows <- query (withdrawal_rows uid) ;;
  ret (Json rows).

(** ** Numbers (IEEE 754 binary64)

    A Number of JavaScript that is finite is [mant * 2 ^ expo], or its
    opposite, with [mant] below [2 ^ 53] and [expo] from -1074 to 971.
    [Math.random()], the products and sums made of it and [Math.floor]
    work on such numbers: every operation gives the Number nearest to the
    exact result, the one with an even [mant] when two are as near.  The
    operations below are those of numbers under [2 ^ 1024]; the handlers
    use them under [2 ^ 53]. *)

Module Binary64.

Record t : Type := mk { negative : bool; mant : Z; expo : Z }.

Definition finite (d : t) : Prop :=
  0 <= mant d < 2 ^ 53 /\ -1074 <= expo d <= 971.

(** The Number nearest to [m * 2 ^ e], for [0 <= m], with the sign
    [sign]: [drop] is the number of low bits of [m] that do not fit, [rest]
    their value and [half] the half of the last place kept. *)
Definition round (sign : bool) (m e : Z) : t :=
  let drop := Z.max (Z.log2 m + 1 - 53) (-1074 - e) in
  if drop <=? 0 then mk sign m e
  else
    let q := m / 2 ^ drop in
    let rest := m mod 2 ^ drop in
    let half := 2 ^ (drop - 1) in
    let up := (half <? rest) || ((rest =? half) && Z.odd q) in
    let q' := if up then q + 1 else q in
    if q' =? 2 ^ 53 then mk sign (2 ^ 52) (e + drop + 1) else mk sign q' (e + drop).

(** A whole number as a Number: a literal such as [9000], or [t.max -
    t.base + 1]. *)
Definition of_Z (n : Z) : t := round (n <? 0) (Z.abs n) 0.

Definition signed (d : t) : Z := if negative d then - mant d else mant d.

(** [a * b] *)
Definition mul (a b : t) : t :=
  round (xorb (negative a) (negative b)) (mant a * mant b) (expo a + expo b).

(** [a + b] *)
Definition add (a b : t) : t :=
  let e := Z.min (expo a) (expo b) in
  let sum := signed a * 2 ^ (expo a - e) + signed b * 2 ^ (expo b - e) in
  round (sum <? 0) (Z.abs sum) e.

(** [Math.floor(d)], as an integer. *)
Definition floor (d : t) : Z :=
  if 0 <=? expo d then signed d * 2 ^ expo d else signed d / 2 ^ (- expo d).

(** The number in units of [2 ^ -1074], the least positive Number: a whole
    number when [-1074 <= expo d]. *)
Definition scaled (d : t) : Z := signed d * 2 ^ (expo d + 1074).

(** What [Math.random()] returns: a Number [d] with [0 <= d < 1]. *)
Definition unit_interval (d : t) : Prop :=
  finite d /\ negative d = false /\ scaled d < 2 ^ 1074.

(** The largest Number under the whole number [k], for [0 < k]. *)
Definition below (k : Z) : t :=
  mk false (k * 2 ^ (53 - Z.log2_up k) - 1) (Z.log2_up k - 53).

(** [below k] has 53 bits, and [k] times the largest Number under 1 is
    nearer to it than to the Number above it, which is [k]. *)
Definition fits (k : Z) : bool :=
  let c := below k in
  (2 ^ 52 <=? mant c) && (mant c <? 2 ^ 53) && (-1074 <=? expo c)
  && (2 * (k * (2 ^ 1074 - 2 ^ 1021)) <? (2 * mant c + 1) * 2 ^ (expo c + 1074))
  && (scaled c <? k * 2 ^ 1074).

(** The same number in the format of the library of floating-point
    numbers, whose operations are those of IEEE 754. *)
Definition as_SpecFloat (d : t) : SpecFloat.spec_float :=
  SpecFloat.binary_normalize 53 1024 (signed d) (expo d) (negative d).

Definition same_number (d : t) (x : SpecFloat.spec_float) : bool :=
  match x with
  | SpecFloat.S754_zero sign => (mant d =? 0) && Bool.eqb sign (negative d)
  | SpecFloat.S754_finite sign m e =>
      Bool.eqb sign (negative d) && (-1074 <=? e) && (-1074 <=? expo d)
      && (Z.pos m * 2 ^ (e + 1074) =? mant d * 2 ^ (expo d + 1074))
  | _ => false
  end.

End Binary64.

(** ** Referral codes *)

Module Js.

(** The decimal digits of a natural number, most significant first. *)
Fixpoint digits (fuel : nat) (n : Z) : string :=
  match fuel with
  | O => EmptyString
  | S fuel' =>
      if n <? 10 then String (Clock.digit n) EmptyString
      else String.append (digits fuel' (n / 10)) (String (Clock.digit n) EmptyString)
  end.

(** [String(n)] of an integer [n]: what [base + rand] and a template
    literal append for a number. *)
Definition number_to_string (n : Z) : string :=
  if n <? 0 then String "-" (digits (S (Z.to_nat (Z.log2 (- n)))) (- n))
  else digits (S (Z.to_nat (Z.log2 n))) n.

(** A character the class [[a-z0-9]] matches under the flag [i]. *)
Definition is_alnum (c : ascii) : bool :=
  let n := nat_of_ascii c in
  ((48 <=? n) && (n <=? 57) || (65 <=? n) && (n <=? 90)
   || (97 <=? n) && (n <=? 122))%nat.

(** [toUpperCase()] on a letter or digit of ASCII. *)
Definition to_upper (c : ascii) : ascii :=
  let n := nat_of_ascii c in
  if ((97 <=? n) && (n <=? 122))%nat then ascii_of_nat (n - 32) else c.

(** A capital letter or a digit of ASCII. *)
Definition is_upper_or_digit (c : ascii) : bool :=
  let n := nat_of_ascii c in
  ((48 <=? n) && (n <=? 57) || (65 <=? n) && (n <=? 90))%nat.

Fixpoint keep (p : ascii -> bool) (s : string) : string :=
  match s with
  | EmptyString => EmptyString
  | String c s' => if p c then String c (keep p s') else keep p s'
  end.

Fixpoint map_chars (f : ascii -> ascii) (s : string) : string :=
  match s with
  | EmptyString => EmptyString
  | String c s' => String (f c) (map_chars f s')
  end.

Fixpoint all_chars (p : ascii -> bool) (s : string) : bool :=
  match s with
  | EmptyString => true
  | String c s' => p c && all_chars p s'
  end.

End Js.

(** The first part of a referral code:
    [username] without the characters that [/[^a-z0-9]/gi] matches, then
    [.slice(0, 6).toUpperCase() || "USER"].  A string is the sequence of its bytes in UTF-8; every byte of a
    character outside ASCII is outside the class and is dropped with it. *)
Definition referral_base (username : string) : string :=
  match Js.map_chars Js.to_upper (Clock.slice0 6 (Js.keep Js.is_alnum username)) with
  | EmptyString => "USER"
  | base => base
  end.

(** [function makeReferralCode(username)], with the value [Math.random()]
    returns made a parameter:
    [rand = Math.floor(1000 + Math.random() * 9000)]. *)
Definition makeReferralCode (username : string) (random : Binary64.t) : string :=
  let base := referral_base username in
  let rand :=
    Binary64.floor
      (Binary64.add (Binary64.of_Z 1000)
                    (Binary64.mul random (Binary64.of_Z 9000))) in
  String.append base (Js.number_to_string rand).

(** The loop of the registration handler that looks for a code no user has:
    [taken] is [SELECT id FROM users WHERE referral_code = ?], [random i]
    the value the call number [i] of [Math.random()] returns, and [code]
    the code made by call number [i]. *)
Fixpoint retry_referral_code (tries : nat) (taken : string -> bool)
    (username : string) (random : nat -> Binary64.t) (i : nat) (code : string)
    : string :=
  match tries with
  | O => code
  | S tries' =>
      if taken code
      then retry_referral_code tries' taken username random (S i)
             (makeReferralCode username (random (S i)))
      else code
  end.

(** [let referral_code = makeReferralCode(data.username);
     for (let i = 0; i < 8; i++) { ... }] *)
Definition fresh_referral_code (taken : string -> bool) (username : string)
    (random : nat -> Binary64.t) : string :=
  retry_referral_code 8 taken username random 0
    (makeReferralCode username (random 0%nat)).

(** ** Seeding the catalog (server/src/db.js) *)

Module Seed.

Record task_type : Type := mkType
  { type : string;
    media : option string;
    base : Z;
    max : Z }.

Definition TYPES : list task_type :=
  [ mkType "audio_transcription" (Some "audio") 10 18;
    mkType "video_transcription" (Some "video") 18 30;
    mkType "image_caption" (Some "image") 12 22;
    mkType "image_tagging" (Some "image") 10 18;
    mkType "text_cleanup" None 10 16 ].

(** [function rewardFor(t)], with the value [Math.random()] returns made a
    parameter:
    [r = t.base + Math.floor(Math.random() * (t.max - t.base + 1))], then
    [Math.max(10, Math.min(30, r))]. *)
Definition rewardFor (t : task_type) (random : Binary64.t) : Z :=
  let r :=
    base t
    + Binary64.floor (Binary64.mul random (Binary64.of_Z (max t - base t + 1))) in
  Z.max 10 (Z.min 30 r).

(** A draw that lands in the middle of block [j] of [k] blocks. *)
Definition draw_for (k j : Z) : Binary64.t :=
  Binary64.mk false ((2 * j + 1) * 2 ^ 52 / k) (-53).

(** [draw_for k j] is a value of [Math.random()] whose product with [k] has
    the floor [j]. *)
Definition lands (k j : Z) : bool :=
  let d := draw_for k j in
  (0 <=? Binary64.mant d) && (Binary64.mant d <? 2 ^ 53)
  && (Binary64.scaled d <? 2 ^ 1074)
  && (Binary64.floor (Binary64.mul d (Binary64.of_Z k)) =? j).

(** [TYPES[i % TYPES.length]] *)
Definition type_of_index (i : nat) : task_type :=
  nth (i mod List.length TYPES) TYPES (mkType EmptyString None 0 0).

(** The row the loop inserts at index [i], in the columns of [Tasks.row];
    [last_id] is the largest id the table has ever given out and
    [random i] the value [Math.random()] returns at that iteration. *)
Definition seed_row (last_id : Z) (random : nat -> Binary64.t) (i : nat)
    : Tasks.row :=
  let t := type_of_index i in
  Tasks.mk (last_id + Z.of_nat i) (type t) (rewardFor t (random i)) 1.

Definition TOTAL : nat := 2500.

(** The end of [initDb]: [if ((c?.n || 0) > 0) return;] and the loop
    [for (let i = 1; i <= TOTAL; i++)] inside one transaction. *)
Definition seed_tasks (last_id : Z) (random : nat -> Binary64.t) (s : db) : db :=
  if (0 <? List.length (tasks s))%nat then s
  else with_catalog (map (seed_row last_id random) (seq 1 TOTAL)) s.

End Seed.

(** ** The client's countdown (Tasks/untilMidnight) *)

Module Client.

(** A browser whose zone keeps one offset from UTC: [offset] is what
    [getTimezoneOffset()] returns, in minutes, and the local reading of
    an instant is [t - offset * 60000]. *)
Definition local_time (offset t : Z) : Z := t - offset * 60000.

(** [d.setHours(24, 0, 0, 0)]: the instant whose local reading is the
    midnight that ends the local day of [t]. *)
Definition setHours24 (offset t : Z) : Z :=
  Clock.Day (local_time offset t) * Clock.msPerDay + 24 * 3600000
  + offset * 60000.

(** [diff] in [untilMidnight]. *)
Definition diff_to_midnight (offset now : Z) : Z :=
  let utc := now + offset * 60000 in
  let nairobi := utc + 3 * 3600000 in
  let mid := setHours24 offset nairobi in
  Z.max 0 (mid - nairobi).

(** [untilMidnight]: the text [`${h}h ${m}m`]. *)
Definition untilMidnight (offset now : Z) : string :=
  let diff := diff_to_midnight offset now in
  let h := diff / 3600000 in
  let m := (diff mod 3600000) / 60000 in
  (Js.number_to_string h ++ "h " ++ Js.number_to_string m ++ "m")%string.

End Client.

(** ** More example stores *)

Module Cases.
(** One account with a completion record, and the instant a week after
    [Demo.t1]. *)
Definition account : Users.row := Users.mk 1 None 40 0 None None.

Definition account_store : db :=
  mkDb [account] [] [] [TaskCompletions.mk 1 7 10 "hello" 1768777669] [] [].

Definition week_later : Z := Demo.t1 + 7 * Clock.msPerDay.

(** The referred user completes a task and withdraws 3.5; the referrer
    tries to redeem. *)
Definition quiet_trace : list request :=
  [PostComplete Demo.t1 2 7 Demo.body;
   PostWithdrawal 2 (mkWithdrawal (7 # 2) "0700000000" "mpesa");
   PostRedeem 1; GetHealth Demo.t2].

(** Values of [Math.random()]: 0.5, 0.3444444444444444, 0.1111111111111111
    and the largest, [1 - 2 ^ -53]. *)
Definition half : Binary64.t := Binary64.mk false 1 (-1).
Definition draw_0_3444444444444444 : Binary64.t :=
  Binary64.mk false 6204959486599349 (-54).
Definition draw_0_1111111111111111 : Binary64.t :=
  Binary64.mk false 8006399337547548 (-56).
Definition largest_draw : Binary64.t := Binary64.mk false (2 ^ 53 - 1) (-53).

(** Draws and whole factors on which the operations of [Binary64] are
    compared with those of the library: the draws above, zero, the least
    positive Number and its multiples, and numbers that fall half way
    between two Numbers when multiplied. *)
Definition draws : list Binary64.t :=
  [ half; draw_0_3444444444444444; draw_0_1111111111111111; largest_draw;
    Binary64.mk false 0 0; Binary64.mk false 1 (-1074);
    Binary64.mk false 3 (-1074); Binary64.mk false 4503599627370497 (-53);
    Binary64.mk false 6004799503160661 (-54);
    Binary64.mk false 9007199254740991 (-60) ].

Definition factors : list Z := [1; 3; 5; 7; 9; 11; 13; 21; 9000].

(** Exact values [m * 2 ^ e] to round: ties, a carry into the next
    binade, and values under the least positive Number. *)
Definition exact_values : list (Z * Z) :=
  [ (2 ^ 53 + 1, 0); (2 ^ 53 + 2, 0); (2 ^ 53 + 3, 0); (2 ^ 54 - 1, 0);
    (3, -1075); (1, -1075); (5, -1076); (7, -1077); (0, -2000);
    (2 ^ 60 + 2 ^ 7, -1080); (2 ^ 60 + 2 ^ 7 + 1, -30);
    (2 ^ 60 + 3 * 2 ^ 7, -30) ].

(** A withdrawal of the 10 shillings that the completion of [Demo.task7]
    pays, and an account whose bonus has reached one block. *)
Definition withdraw_10 : withdrawal_body :=
  mkWithdrawal (inject_Z 10) "0700000000" "mpesa".

Definition bonus_store : db :=
  mkDb [Users.mk 1 None 0 1000 None None] [] [] [] [] [].
End Cases.

(** ** Handlers that overlap

    A handler runs until its next [await]; while it waits for the
    statement it sent, the event loop runs the other handlers.  The
    handlers open no transaction, so every statement takes effect at once,
    and between two statements of one handler those of another may run.
    [steps] is a handler as the event loop sees it: it has answered, or it
    awaits a statement and goes on from its result. *)

Inductive steps (A : Type) : Type :=
| Sent (a : A)                                      (* [res.json(...)] *)
| Get {B : Type} (q : db -> B) (k : B -> steps A)   (* [await get(...)] *)
| Run (stmt : db -> db) (k : steps A).              (* [await run(...)] *)

Arguments Sent {A} a.
Arguments Get {A B} q k.
Arguments Run {A} stmt k.

(** The handler when no other runs between its statements: the program
    over the store that the statements make, one after the other. *)
Fixpoint alone {A : Type} (p : steps A) : M A :=
  match p with
  | Sent a => ret a
  | Get q k => b <- query q ;; alone (k b)
  | Run stmt k => run stmt ;;; alone k
  end.

(** [POST /api/withdrawals], statement by statement. *)
Definition withdrawal_steps (uid : Z) (body : withdrawal_body)
    : steps (reply unit) :=
  if negb (schema_ok body) then Sent (Error 400 "Bad request")
  else
    Get (lookup_user uid) (fun u =>
      match u with
      | None => Sent (Error 400 "User not found")
      | Some u =>
          if negb (Qle_bool (amount body) (inject_Z (Users.balance_ksh u)))
          then Sent (Error 400 "Insufficient balance")
          else
            Run (insert_withdrawal uid (Qfloor (amount body)) (phone body)
                   (method body) "pending")
              (Run (credit_balance uid (- Qfloor (amount body)))
                 (Sent (Json tt)))
      end).

(** [POST /api/referrals/redeem], statement by statement. *)
Definition redeem_steps (uid : Z) : steps (reply (option (Z * Z))) :=
  Get (lookup_user uid) (fun u =>
    match u with
    | None => Sent (Error 400 "User not found")
    | Some u =>
        if Users.bonus_ksh u <? redeem_block
        then Sent (Error 400 "Bonus must reach KSH 1000 to redeem")
        else
          Run (move_bonus uid)
            (Get (lookup_user uid) (fun updated =>
               Sent (Json (option_map
                             (fun u' => (Users.balance_ksh u', Users.bonus_ksh u'))
                             updated))))
    end).

(** One turn of a handler: the statement it awaits runs on the store and
    the handler goes on to its next [await]. *)
Definition advance {A : Type} (p : steps A) (s : db) : steps A * db :=
  match p with
  | Sent a => (Sent a, s)
  | Get q k => (k (q s), s)
  | Run stmt k => (k, stmt s)
  end.

(** The handlers in flight and the store, after handler number [i] has had
    a turn. *)
Fixpoint turn {A : Type} (i : nat) (pool : list (steps A)) (s : db)
    : list (steps A) * db :=
  match pool, i with
  | [], _ => ([], s)
  | p :: rest, O => let (p', s') := advance p s in (p' :: rest, s')
  | p :: rest, S j => let (rest', s') := turn j rest s in (p :: rest', s')
  end.

(** The event loop: [schedule] names, turn after turn, the handler whose
    statement runs next. *)
Definition event_loop {A : Type} (schedule : list nat) (pool : list (steps A))
    (s : db) : list (steps A) * db :=
  fold_left (fun ps i => turn i (fst ps) (snd ps)) schedule (pool, s).

(** ** More vocabulary *)

(** What [k] redemptions make of a row. *)
Definition redeem_blocks (k : Z) (u : Users.row) : Users.row :=
  add_balance (redeem_block * k) (add_bonus (- (redeem_block * k)) u).

Definition sumZ (l : list Z) : Z := fold_right Z.add 0 l.

(** What the tables say of a user's money: the amounts of the withdrawal
    requests, the rewards of the completion records, and one referral
    bonus for each reward row that names the user as referrer. *)
Definition withdrawn (uid : Z) (s : db) : Z :=
  sumZ (map Withdrawals.amount_ksh
          (filter (fun w => Withdrawals.user_id w =? uid) (withdrawals s))).

Definition earned (uid : Z) (s : db) : Z :=
  sumZ (map TaskCompletions.reward_ksh (completions_of uid s)).

Definition granted (uid : Z) (s : db) : Z :=
  referral_bonus
  * Z.of_nat (List.length
                (filter (fun r => ReferralRewards.referrer_id r =? uid)
                        (referral_rewards s))).

(** What a user holds or has withdrawn beyond what the tables say the
    user earned. *)
Definition unaccounted (uid : Z) (s : db) : option Z :=
  option_map
    (fun u => Users.balance_ksh u + Users.bonus_ksh u + withdrawn uid s
              - earned uid s - granted uid s)
    (lookup_user uid s).

Definition nobody_leaving (s : db) : Prop :=
  forall u, In u (users s) -> not_leaving u.

Definition is_delete_request (r : request) : bool :=
  match r with
  | PostDeleteRequest _ _ => true
  | _ => false
  end.

(** The tasks of a reply of [GET /api/tasks] with their [completed] marks,
    read off the completion records of [s]. *)
Definition marked (uid now : Z) (s : db) (l : list Tasks.row)
    : list (Tasks.row * bool) :=
  map (fun t => (t, existsb (Z.eqb (Tasks.id t))
                      (map TaskCompletions.task_id (completed_today uid now s))))
      l.

(** A program that keeps [I] wherever it stops. *)
Definition preserves (I : db -> Prop) {A : Type} (m : M A) : Prop :=
  keeps I (fun _ => True) m (fun _ _ => True).

(** One statement of the handlers, the insert of [ensureDailyTasks] apart:
    the store before it and the store after it. *)
Inductive write_step : db -> db -> Prop :=
| step_delete_task_completions_of uid s :
    write_step s (delete_task_completions_of uid s)
| step_delete_withdrawals_of uid s :
    write_step s (delete_withdrawals_of uid s)
| step_delete_daily_tasks_of uid s :
    write_step s (delete_daily_tasks_of uid s)
| step_delete_referral_rewards_of uid s :
    write_step s (delete_referral_rewards_of uid s)
| step_delete_user uid s :
    write_step s (delete_user uid s)
| step_set_delete_request uid requested effective s :
    write_step s (set_delete_request uid requested effective s)
| step_delete_daily_tasks_on uid today s :
    write_step s (delete_daily_tasks_on uid today s)
| step_insert_task_completion uid tid reward ans now s s' :
    insert_task_completion uid tid reward ans now s = Some s' ->
    write_step s s'
| step_credit_balance uid amount s :
    write_step s (credit_balance uid amount s)
| step_credit_bonus uid s :
    write_step s (credit_bonus uid referral_bonus s)
| step_insert_referral_reward referrer referred s s' :
    insert_referral_reward referrer referred s = Some s' ->
    write_step s s'
| step_move_bonus uid s :
    write_step s (move_bonus uid s)
| step_insert_withdrawal uid amount_ksh phone method s :
    write_step s (insert_withdrawal uid amount_ksh phone method "pending" s).

(** No user has more than five tasks assigned on a day. *)
Definition assignments_within_five (s : db) : Prop :=
  forall uid day, (List.length (assignments_of uid day s) <= 5)%nat.

(** The accounts of [s'] are accounts of [s], referred by whom they were,
    and the catalog of [s'] is that of [s]. *)
Definition same_accounts (s s' : db) : Prop :=
  tasks s' = tasks s
  /\ forall u', In u' (users s') ->
       exists u, In u (users s) /\ Users.id u' = Users.id u
                 /\ Users.referred_by u' = Users.referred_by u.

(** The rows of [daily_tasks] other than those of a user on a day. *)
Definition other_assignments (uid : Z) (today : string) (s : db)
    : list DailyTasks.row :=
  filter (fun d => negb (is_assignment uid today d)) (daily_tasks s).

(** The store [s'] differs from [s] at most in the daily tasks of [uid] on
    [today]. *)
Definition same_but_assignments (uid : Z) (today : string) (s s' : db) : Prop :=
  users s' = users s /\ tasks s' = tasks s
  /\ task_completions s' = task_completions s
  /\ withdrawals s' = withdrawals s
  /\ referral_rewards s' = referral_rewards s
  /\ other_assignments uid today s' = other_assignments uid today s.

(** No task of the catalog and no completion record carries more than [cap]. *)
Definition rewards_capped (cap : Z) (s : db) : Prop :=
  (forall t, In t (tasks s) -> Tasks.reward_ksh t <= cap)
  /\ (forall c, In c (task_completions s) -> TaskCompletions.reward_ksh c <= cap).

(** What the completion records say a user earned on a UTC day. *)
Definition earned_on (uid day : Z) (s : db) : Z :=
  sumZ (map TaskCompletions.reward_ksh (completions_on uid day s)).

(** The store after the first [k] of the five statements that purge the
    account [uid]. *)
Definition purge_prefix (k : nat) (uid : Z) (s : db) : db :=
  match k with
  | 0%nat => s
  | 1%nat => delete_task_completions_of uid s
  | 2%nat => delete_withdrawals_of uid (delete_task_completions_of uid s)
  | 3%nat =>
      delete_daily_tasks_of uid
        (delete_withdrawals_of uid (delete_task_completions_of uid s))
  | 4%nat =>
      delete_referral_rewards_of uid
        (delete_daily_tasks_of uid
           (delete_withdrawals_of uid (delete_task_completions_of uid s)))
  | _ => purged [uid] s
  end.

(** The store has no row of the account [uid], in any table. *)
Definition gone (uid : Z) (s : db) : Prop := purged [uid] s = s.

(** Every account of [ids] is either due at [now] or gone. *)
Definition due_or_gone (now : Z) (ids : list Z) (s : db) : Prop :=
  forall id, In id ids -> memZ id (doomed now s) = true \/ gone id s.

(** Linear arithmetic with division and remainder by constants. *)
Ltac div_lia := Z.div_mod_to_equations; lia.

(** * Properties *)

(** ** The day key *)

Example dayUTC_epoch : Clock.dayUTC 0 = "1970-01-01".
Proof. reflexivity. Qed.

Example dayUTC_2026 : Clock.dayUTC 1768777669000 = "2026-01-18".
Proof. reflexivity. Qed.

Example dayUTC_leap_day : Clock.dayUTC 1709164800000 = "2024-02-29".
Proof. reflexivity. Qed.

Example dayUTC_before_epoch : Clock.dayUTC (-1) = "1969-12-31".
Proof. reflexivity. Qed.

Example dayUTC_year_10000 : Clock.dayUTC 253402300800000 = "+010000-01".
Proof. reflexivity. Qed.

Module CalendarFacts.
Import Clock Calendar.

Lemma days_of_civil_of_doe era doe :
  0 <= doe < 146097 ->
  days_from_civil (civil_of_doe era doe) = era * 146097 + doe - 719468.
Proof.
  intros H. unfold civil_of_doe, days_from_civil. cbv zeta.
  set (yoe := (doe - doe / 1460 + doe / 36524 - doe / 146096) / 365).
  set (doy := doe - (365 * yoe + yoe / 4 - yoe / 100)).
  set (mp := (5 * doy + 2) / 153).
  assert (Hy : 0 <= yoe <= 399) by (subst yoe; div_lia).
  assert (Hd : 0 <= doy <= 365) by (subst doy yoe; div_lia).
  assert (Hm : 0 <= mp <= 11) by (subst mp; div_lia).
  destruct (mp <? 10) eqn:E.
  - apply Z.ltb_lt in E.
    replace (mp + 3 <=? 2) with false by (symmetry; apply Z.leb_gt; lia).
    replace (2 <? mp + 3) with true by (symmetry; apply Z.ltb_lt; lia).
    replace ((yoe + era * 400) / 400) with era by div_lia.
    replace (yoe + era * 400 - era * 400) with yoe by lia.
    replace (mp + 3 - 3) with mp by lia.
    subst doy. lia.
  - apply Z.ltb_ge in E.
    replace (mp - 9 <=? 2) with true by (symmetry; apply Z.leb_le; lia).
    replace (2 <? mp - 9) with false by (symmetry; apply Z.ltb_ge; lia).
    replace (yoe + era * 400 + 1 - 1) with (yoe + era * 400) by lia.
    replace ((yoe + era * 400) / 400) with era by div_lia.
    replace (yoe + era * 400 - era * 400) with yoe by lia.
    replace (mp - 9 + 9) with mp by lia.
    subst doy. lia.
Qed.

Lemma days_from_civil_from_days z : days_from_civil (civil_from_days z) = z.
Proof.
  unfold civil_from_days. cbv zeta.
  rewrite days_of_civil_of_doe by (apply Z.mod_pos_bound; lia).
  pose proof (Z.div_mod (z + 719468) 146097 ltac:(lia)). lia.
Qed.

Lemma civil_from_days_inj z1 z2 :
  civil_from_days z1 = civil_from_days z2 -> z1 = z2.
Proof.
  intros H. rewrite <- (days_from_civil_from_days z1), H.
  apply days_from_civil_from_days.
Qed.

Lemma utc_date_eq_iff t1 t2 : utc_date t1 = utc_date t2 <-> Day t1 = Day t2.
Proof.
  unfold utc_date. split; [apply civil_from_days_inj | congruence].
Qed.

Lemma civil_month_day z :
  let '(y, m, d) := civil_from_days z in 1 <= m <= 12 /\ 1 <= d <= 31.
Proof.
  unfold civil_from_days, civil_of_doe. cbv zeta.
  pose proof (Z.mod_pos_bound (z + 719468) 146097 ltac:(lia)) as H.
  set (doe := (z + 719468) mod 146097) in *.
  set (yoe := (doe - doe / 1460 + doe / 36524 - doe / 146096) / 365).
  set (doy := doe - (365 * yoe + yoe / 4 - yoe / 100)).
  set (mp := (5 * doy + 2) / 153).
  assert (Hd : 0 <= doy <= 365) by (subst doy yoe; div_lia).
  assert (Hm : 0 <= mp <= 11) by (subst mp; div_lia).
  assert (Hday : 1 <= doy - (153 * mp + 2) / 5 + 1 <= 31)
    by (subst mp; div_lia).
  destruct (mp <? 10) eqn:E;
    [apply Z.ltb_lt in E | apply Z.ltb_ge in E]; lia.
Qed.

Lemma civil_year z :
  -719528 <= z <= 2932896 ->
  let '(y, m, d) := civil_from_days z in 0 <= y <= 9999.
Proof.
  intros Hz. unfold civil_from_days, civil_of_doe. cbv zeta.
  pose proof (Z.mod_pos_bound (z + 719468) 146097 ltac:(lia)) as H.
  pose proof (Z.div_mod (z + 719468) 146097 ltac:(lia)) as Hdm.
  set (era := (z + 719468) / 146097) in *.
  set (doe := (z + 719468) mod 146097) in *.
  set (yoe := (doe - doe / 1460 + doe / 36524 - doe / 146096) / 365).
  set (doy := doe - (365 * yoe + yoe / 4 - yoe / 100)).
  set (mp := (5 * doy + 2) / 153).
  assert (Hy : 0 <= yoe <= 399) by (subst yoe; div_lia).
  assert (Hd : 0 <= doy <= 365) by (subst doy yoe; div_lia).
  assert (Hm : 0 <= mp <= 11) by (subst mp; div_lia).
  assert (He : -1 <= era <= 24) by lia.
  assert (Hlo : era = -1 -> yoe = 399 /\ 10 <= mp).
  { intros E. assert (146037 <= doe) by lia. subst mp doy yoe. div_lia. }
  assert (Hhi : era = 24 -> yoe = 399 -> mp < 10).
  { intros E Y. assert (doe <= 146036) by lia.
    subst mp doy. rewrite Y. clear Hlo. div_lia. }
  destruct (mp <? 10) eqn:E;
    [apply Z.ltb_lt in E | apply Z.ltb_ge in E].
  - replace (mp + 3 <=? 2) with false by (symmetry; apply Z.leb_gt; lia).
    lia.
  - replace (mp - 9 <=? 2) with true by (symmetry; apply Z.leb_le; lia).
    lia.
Qed.

Lemma digit_inj a b : digit a = digit b -> a mod 10 = b mod 10.
Proof.
  unfold digit. intros H. apply (f_equal nat_of_ascii) in H.
  pose proof (Z.mod_pos_bound a 10 ltac:(lia)).
  pose proof (Z.mod_pos_bound b 10 ltac:(lia)).
  rewrite !nat_ascii_embedding in H by lia. lia.
Qed.

Lemma iso_date_inj y1 m1 d1 y2 m2 d2 :
  0 <= y1 <= 9999 -> 0 <= y2 <= 9999 ->
  1 <= m1 <= 12 -> 1 <= m2 <= 12 -> 1 <= d1 <= 31 -> 1 <= d2 <= 31 ->
  slice0 10 (pad4 y1 ++ "-" ++ pad2 m1 ++ "-" ++ pad2 d1)%string
  = slice0 10 (pad4 y2 ++ "-" ++ pad2 m2 ++ "-" ++ pad2 d2)%string ->
  (y1, m1, d1) = (y2, m2, d2).
Proof.
  intros Hy1 Hy2 Hm1 Hm2 Hd1 Hd2 H.
  cbv [pad4 pad2 append slice0] in H.
  injection H as A B C D E F G I.
  apply digit_inj in A, B, C, D, E, F, G, I.
  assert (m1 = m2) by (clear A B C D G I; div_lia).
  assert (d1 = d2) by (clear A B C D E F; div_lia).
  assert (y1 = y2) by (clear E F G I; div_lia).
  congruence.
Qed.

Lemma Day_range t :
  in_four_digit_years t -> -719528 <= Day t <= 2932896.
Proof. unfold in_four_digit_years, Day, msPerDay. intros H. div_lia. Qed.

Lemma dayUTC_inj t1 t2 :
  in_four_digit_years t1 -> in_four_digit_years t2 ->
  dayUTC t1 = dayUTC t2 -> utc_date t1 = utc_date t2.
Proof.
  unfold dayUTC, iso_date, utc_date. intros H1 H2 H.
  pose proof (civil_year _ (Day_range _ H1)) as Y1.
  pose proof (civil_year _ (Day_range _ H2)) as Y2.
  pose proof (civil_month_day (Day t1)) as M1.
  pose proof (civil_month_day (Day t2)) as M2.
  destruct (civil_from_days (Day t1)) as [[y1 m1] d1].
  destruct (civil_from_days (Day t2)) as [[y2 m2] d2].
  unfold iso_year in H.
  replace ((0 <=? y1) && (y1 <=? 9999)) with true in H
    by (symmetry; apply andb_true_iff; split; apply Z.leb_le; lia).
  replace ((0 <=? y2) && (y2 <=? 9999)) with true in H
    by (symmetry; apply andb_true_iff; split; apply Z.leb_le; lia).
  apply iso_date_inj; tauto.
Qed.

Lemma dayUTC_of_utc_date t1 t2 :
  utc_date t1 = utc_date t2 -> dayUTC t1 = dayUTC t2.
Proof. unfold dayUTC, iso_date. intros ->. reflexivity. Qed.

End CalendarFacts.

(** C7, as the code has it.  [dayUTC] maps two instants (of the years
    toISOString writes with four digits) to the same key if and only if
    they fall on the same calendar date in UTC: the reset boundary is UTC
    midnight, which is 03:00 in Nairobi.  An instant at 23:59:59 UTC and the
    instant two seconds later, at 00:00:01 UTC, get different keys. *)
Theorem dayUTC_same_key_iff_same_utc_date (t1 t2 : Z)
    (H1 : Calendar.in_four_digit_years t1)
    (H2 : Calendar.in_four_digit_years t2) :
  (Clock.dayUTC t1 = Clock.dayUTC t2 <-> Clock.utc_date t1 = Clock.utc_date t2)
  /\ (t1 mod Clock.msPerDay = 86399000 -> t2 = t1 + 2000 ->
      Clock.dayUTC t1 <> Clock.dayUTC t2).
Proof.
  split.
  - split.
    + now apply CalendarFacts.dayUTC_inj.
    + apply CalendarFacts.dayUTC_of_utc_date.
  - intros Hm -> E.
    apply CalendarFacts.dayUTC_inj in E; trivial.
    apply CalendarFacts.utc_date_eq_iff in E.
    unfold Clock.Day, Clock.msPerDay in *.
    Z.div_mod_to_equations. lia.
Qed.

Lemma dayUTC_same_key_iff_same_utc_date_witness :
  (Clock.dayUTC 1768780799000 = Clock.dayUTC 1768780801000
   <-> Clock.utc_date 1768780799000 = Clock.utc_date 1768780801000)
  /\ (1768780799000 mod Clock.msPerDay = 86399000 ->
      1768780801000 = 1768780799000 + 2000 ->
      Clock.dayUTC 1768780799000 <> Clock.dayUTC 1768780801000).
Proof.
  apply (dayUTC_same_key_iff_same_utc_date 1768780799000 1768780801000);
    unfold Calendar.in_four_digit_years; lia.
Defined.

(** UTC midnight is 03:00 in Nairobi. *)
Lemma utc_midnight_in_nairobi (t : Z) :
  t mod Clock.msPerDay = 0 -> Clock.nairobi_time_of_day t = 3 * 3600000.
Proof.
  unfold Clock.nairobi_time_of_day, Clock.nairobi, Clock.msPerDay. intros H.
  div_lia.
Qed.

(** C7, as stated, fails: 2026-01-18 23:59:59 and 2026-01-19 00:00:01
    Nairobi time lie on different Nairobi dates and get the same key. *)
Lemma dayUTC_ignores_nairobi_midnight :
  Clock.nairobi_time_of_day 1768769999000 = 86399000
  /\ Clock.nairobi_time_of_day 1768770001000 = 1000
  /\ Clock.nairobi_date 1768769999000 = (2026, 1, 18)
  /\ Clock.nairobi_date 1768770001000 = (2026, 1, 19)
  /\ Clock.dayUTC 1768769999000 = Clock.dayUTC 1768770001000.
Proof. repeat split; reflexivity. Qed.

(** ** Running handlers without a fault *)

Section StoreMonad.
Context {A B : Type}.

Lemma bind_Returned (m : M A) (k : A -> M B) f s a f' s' :
  m f s = (Returned a, f', s') -> bind m k f s = k a f' s'.
Proof. unfold bind. intros ->. reflexivity. Qed.

Lemma bind_query {C : Type} (q : db -> C) (k : C -> M B) f s :
  bind (query q) k f s = k (q s) f s.
Proof. reflexivity. Qed.

Lemma bind_run_checked stmt (k : unit -> M B) f s :
  bind (run_checked stmt) k f s =
  match f with
  | Some O => (Interrupted, f, s)
  | _ => match stmt s with
         | Some s' => k tt (option_map Nat.pred f) s'
         | None => (Rejected, f, s)
         end
  end.
Proof.
  unfold bind, run_checked.
  destruct f as [[|n]|]; trivial; destruct (stmt s); reflexivity.
Qed.

Lemma bind_run stmt (k : unit -> M B) f s :
  bind (run stmt) k f s =
  match f with
  | Some O => (Interrupted, f, s)
  | _ => k tt (option_map Nat.pred f) (stmt s)
  end.
Proof. unfold run. rewrite bind_run_checked. reflexivity. Qed.

Lemma run_None stmt s : run stmt None s = (Returned tt, None, stmt s).
Proof. reflexivity. Qed.

Lemma run_zero stmt s : run stmt (Some O) s = (Interrupted, Some O, s).
Proof. reflexivity. Qed.

Lemma run_succ stmt k s :
  run stmt (Some (S k)) s = (Returned tt, Some k, stmt s).
Proof. reflexivity. Qed.
End StoreMonad.

Lemma filter_filter {A : Type} (p q : A -> bool) (l : list A) :
  filter q (filter p l) = filter (fun x => p x && q x) l.
Proof.
  induction l as [|x l IH]; simpl; trivial.
  destruct (p x); simpl; rewrite IH; reflexivity.
Qed.

Lemma filter_true {A : Type} (p : A -> bool) (l : list A) :
  (forall x, In x l -> p x = true) -> filter p l = l.
Proof.
  induction l as [|x l IH]; simpl; intros H; trivial.
  rewrite (H x) by auto. f_equal. apply IH. auto.
Qed.

(** ** The reaper *)

Lemma purged_nil s : purged [] s = s.
Proof.
  destruct s. unfold purged. simpl.
  f_equal; apply filter_true; reflexivity.
Qed.

Lemma purge_account_None uid s :
  purge_account uid None s = (Returned tt, None, purged [uid] s).
Proof.
  destruct s.
  unfold purge_account, bind, run, run_checked, delete_task_completions_of,
    delete_withdrawals_of, delete_daily_tasks_of, delete_referral_rewards_of,
    delete_user, set_users, set_daily_tasks, set_task_completions,
    set_withdrawals, set_referral_rewards, purged, delete_where, memZ.
  simpl. f_equal.
  f_equal; apply filter_ext; intros r; rewrite ?orb_false_r; reflexivity.
Qed.

Lemma purged_cons uid ids s : purged ids (purged [uid] s) = purged (uid :: ids) s.
Proof.
  unfold purged, memZ. simpl.
  f_equal; rewrite filter_filter; apply filter_ext; intros r;
    rewrite ?orb_false_r, ?negb_orb;
    repeat match goal with |- context [?a =? ?b] => destruct (a =? b) end;
    simpl; rewrite ?andb_true_r, ?andb_false_r, ?orb_true_r; reflexivity.
Qed.

Lemma purge_loop_None ids s :
  for_of ids purge_account None s = (Returned tt, None, purged ids s).
Proof.
  revert s. induction ids as [|uid ids IH]; intros s.
  - simpl. unfold ret. now rewrite purged_nil.
  - simpl. erewrite bind_Returned by apply purge_account_None.
    rewrite IH, purged_cons. reflexivity.
Qed.

Lemma purge_None now s :
  purgeDeletedAccounts now None s = (Returned tt, None, sweep now s).
Proof.
  unfold purgeDeletedAccounts, sweep.
  erewrite bind_Returned by reflexivity. apply purge_loop_None.
Qed.

Lemma memZ_In x l : memZ x l = true <-> In x l.
Proof.
  unfold memZ. rewrite existsb_exists. split.
  - intros [y [Hy E]]. apply Z.eqb_eq in E. now subst.
  - intros H. exists x. split; trivial. apply Z.eqb_refl.
Qed.

Lemma doomed_In now s u e :
  In u (users s) -> Users.delete_effective_at u = Some e -> e <= now ->
  In (Users.id u) (doomed now s).
Proof.
  intros Hu He Hle. unfold doomed. apply in_map. apply filter_In. split; trivial.
  unfold is_doomed. rewrite He. apply Z.leb_le. unfold Clock.sql_datetime.
  apply Z.div_le_mono; lia.
Qed.

(** C9.  When the effective date of a user's deletion has passed, one sweep
    of the reaper runs to its end and leaves no daily task, completion
    record or withdrawal of that user, no referral reward naming the user
    as referrer or as referred user, and no user row with that id; the
    catalog and the rows of the users that stay are kept as they were
    (their [referred_by], a weak reference, included). *)
Theorem purge_removes_owned_rows (now : Z) (s : db) (u : Users.row) (e : Z)
    (Hu : In u (users s))
    (He : Users.delete_effective_at u = Some e)
    (Hpassed : e <= now) :
  let s' := run_store (purgeDeletedAccounts now) s in
  run_outcome (purgeDeletedAccounts now) s = Returned tt
  /\ (forall d, In d (daily_tasks s') -> DailyTasks.user_id d <> Users.id u)
  /\ (forall c, In c (task_completions s') ->
        TaskCompletions.user_id c <> Users.id u)
  /\ (forall w, In w (withdrawals s') -> Withdrawals.user_id w <> Users.id u)
  /\ (forall r, In r (referral_rewards s') ->
        ReferralRewards.referrer_id r <> Users.id u
        /\ ReferralRewards.referred_user_id r <> Users.id u)
  /\ (forall v, In v (users s') -> Users.id v <> Users.id u)
  /\ (forall v, In v (users s') -> In v (users s))
  /\ tasks s' = tasks s.
Proof.
  unfold run_store, run_outcome. rewrite purge_None. simpl.
  pose proof (doomed_In now s u e Hu He Hpassed) as Hd.
  apply memZ_In in Hd. unfold sweep, purged. simpl.
  assert (Hgone : forall (A : Type) (p : A -> bool) (l : list A) (x : A),
             In x (filter (fun y => negb (p y)) l) -> p x = false).
  { intros A p l x Hx. apply filter_In in Hx. now apply negb_true_iff. }
  split; [reflexivity|].
  split; [intros d Hx E; apply Hgone in Hx; congruence|].
  split; [intros c Hx E; apply Hgone in Hx; congruence|].
  split; [intros w Hx E; apply Hgone in Hx; congruence|].
  split.
  { intros r Hx. apply Hgone, orb_false_iff in Hx. split; intros E; rewrite E in Hx;
      destruct Hx; congruence. }
  split; [intros v Hx E; apply Hgone in Hx; congruence|].
  split; [|reflexivity].
  intros v Hx. now apply filter_In in Hx.
Qed.

Lemma purge_removes_owned_rows_witness :
  let s := mkDb [Users.mk 1 None 40 0 (Some 1000) (Some 2000);
                 Users.mk 2 (Some 1) 10 0 None None]
                [] [DailyTasks.mk 1 "1970-01-01" 7]
                [TaskCompletions.mk 1 7 10 "hello" 1]
                [Withdrawals.mk 1 5 "0700000000" "mpesa" "pending"]
                [ReferralRewards.mk 1 2] in
  users (run_store (purgeDeletedAccounts 3000) s)
  = [Users.mk 2 (Some 1) 10 0 None None]
  /\ daily_tasks (run_store (purgeDeletedAccounts 3000) s) = []
  /\ forall r, In r (referral_rewards (run_store (purgeDeletedAccounts 3000) s)) ->
       ReferralRewards.referrer_id r <> 1
       /\ ReferralRewards.referred_user_id r <> 1.
Proof.
  intros s. split; [reflexivity|]. split; [reflexivity|].
  apply (purge_removes_owned_rows 3000 s
           (Users.mk 1 None 40 0 (Some 1000) (Some 2000)) 2000).
  - simpl. auto.
  - reflexivity.
  - lia.
Defined.



(** ** The completion handler without a fault *)

Lemma find_none_existsb {A : Type} (p : A -> bool) (l : list A) :
  find p l = None -> existsb p l = false.
Proof.
  induction l as [|x l IH]; simpl; trivial.
  destruct (p x); [discriminate | exact IH].
Qed.

Lemma referral_step_None uid s :
  referral_step uid None s = (Returned tt, None, referral_effect uid s).
Proof.
  unfold referral_step, referral_effect, bind, query.
  destruct (lookup_user uid s) as [me|]; [|reflexivity].
  destruct (Users.referred_by me) as [referrer|]; [|reflexivity].
  destruct (referrer =? 0); [reflexivity|].
  destruct (List.length (completions_of (Users.id me) s) =? 1)%nat; [|reflexivity].
  destruct (reward_row referrer (Users.id me) s) eqn:E; [reflexivity|].
  unfold run_checked, insert_referral_reward.
  unfold reward_row in E. rewrite (find_none_existsb _ _ E). reflexivity.
Qed.

Lemma post_tasks_complete_None now uid tid body s :
  post_tasks_complete now uid tid body None s =
  let s0 := sweep now s in
  match active_task tid s0 with
  | None => (Returned (Error 404 "Task not found"), None, s0)
  | Some task =>
      match assigned_today uid (Clock.dayUTC now) tid s0 with
      | None => (Returned (Error 400 "Task not assigned for today"), None, s0)
      | Some _ =>
          if (daily_limit <=? List.length (completed_today uid now s0))%nat
          then (Returned (Error 400 "Daily limit reached (5 tasks/day)"), None, s0)
          else
            match insert_task_completion uid tid (Tasks.reward_ksh task)
                    (answer_of body) now s0 with
            | None => (Rejected, None, s0)
            | Some s1 =>
                let s3 := referral_effect uid
                            (credit_balance uid (Tasks.reward_ksh task) s1) in
                match lookup_user uid s3 with
                | Some u => (Returned (Json (Users.balance_ksh u)), None, s3)
                | None => (Rejected, None, s3)
                end
            end
      end
  end.
Proof.
  unfold post_tasks_complete.
  erewrite bind_Returned by apply purge_None.
  cbv zeta. set (s0 := sweep now s).
  unfold bind at 1. unfold query at 1.
  destruct (active_task tid s0) as [task|]; [|reflexivity].
  unfold bind at 1. unfold query at 1.
  destruct (assigned_today uid (Clock.dayUTC now) tid s0); [|reflexivity].
  unfold bind at 1. unfold query at 1.
  destruct (daily_limit <=? List.length (completed_today uid now s0))%nat;
    [reflexivity|].
  unfold bind at 1. unfold run_checked at 1.
  destruct (insert_task_completion uid tid (Tasks.reward_ksh task)
              (answer_of body) now s0) as [s1|]; [|reflexivity].
  simpl option_map.
  erewrite bind_Returned by apply run_None.
  erewrite bind_Returned by apply referral_step_None.
  unfold bind, query.
  destruct (lookup_user uid _); reflexivity.
Qed.

(** ** Reading the users table after an update *)

Lemma lookup_update_where (uid v : Z) (f : Users.row -> Users.row) (l : list Users.row) :
  (forall u, Users.id (f u) = Users.id u) ->
  find (fun u => Users.id u =? uid)
       (update_where (fun u => Users.id u =? v) f l)
  = option_map (fun u => if Users.id u =? v then f u else u)
      (find (fun u => Users.id u =? uid) l).
Proof.
  intros Hid. unfold update_where.
  induction l as [|x l IH]; simpl; trivial.
  destruct (Users.id x =? v) eqn:Ev.
  - rewrite Hid. destruct (Users.id x =? uid); simpl; [now rewrite Ev | exact IH].
  - destruct (Users.id x =? uid); simpl; [now rewrite Ev | exact IH].
Qed.

Lemma lookup_credit_balance uid v amount s :
  lookup_user uid (credit_balance v amount s)
  = option_map (fun u => if Users.id u =? v then add_balance amount u else u)
      (lookup_user uid s).
Proof. unfold lookup_user, credit_balance. simpl. now apply lookup_update_where. Qed.

Lemma lookup_credit_bonus uid v amount s :
  lookup_user uid (credit_bonus v amount s)
  = option_map (fun u => if Users.id u =? v then add_bonus amount u else u)
      (lookup_user uid s).
Proof. unfold lookup_user, credit_bonus. simpl. now apply lookup_update_where. Qed.

Lemma lookup_user_id uid s u : lookup_user uid s = Some u -> Users.id u = uid.
Proof.
  unfold lookup_user. intros H. apply find_some in H. now apply Z.eqb_eq.
Qed.

Lemma lookup_user_In uid s u : lookup_user uid s = Some u -> In u (users s).
Proof. unfold lookup_user. intros H. now apply find_some in H. Qed.

Lemma balance_of_credit_balance uid amount s :
  balance_of uid (credit_balance uid amount s)
  = option_map (fun b => b + amount) (balance_of uid s).
Proof.
  unfold balance_of. rewrite lookup_credit_balance.
  destruct (lookup_user uid s) as [u|] eqn:E; simpl; trivial.
  rewrite (lookup_user_id _ _ _ E), Z.eqb_refl. reflexivity.
Qed.

Lemma balance_of_credit_bonus uid v amount s :
  balance_of uid (credit_bonus v amount s) = balance_of uid s.
Proof.
  unfold balance_of. rewrite lookup_credit_bonus.
  destruct (lookup_user uid s) as [u|]; simpl; trivial.
  destruct (Users.id u =? v); reflexivity.
Qed.

Lemma balance_of_referral_effect uid v s :
  balance_of uid (referral_effect v s) = balance_of uid s.
Proof.
  unfold referral_effect.
  destruct (lookup_user v s) as [me|]; trivial.
  destruct (Users.referred_by me) as [r|]; trivial.
  destruct (r =? 0); trivial.
  destruct (List.length (completions_of (Users.id me) s) =? 1)%nat; trivial.
  destruct (reward_row r (Users.id me) s); trivial.
  now rewrite balance_of_credit_bonus.
Qed.

Lemma task_completions_referral_effect v s :
  task_completions (referral_effect v s) = task_completions s.
Proof.
  unfold referral_effect.
  destruct (lookup_user v s) as [me|]; trivial.
  destruct (Users.referred_by me) as [r|]; trivial.
  destruct (r =? 0); trivial.
  destruct (List.length (completions_of (Users.id me) s) =? 1)%nat; trivial.
  destruct (reward_row r (Users.id me) s); trivial.
Qed.

(** ** Completing a task twice *)

(** C1, as stated, fails: the task completed at 23:07:49 is completed again
    one second later; the second attempt is answered with the new balance,
    a second completion record is inserted and the reward is credited
    again. *)
Lemma completed_assignment_is_credited_again :
  run_outcome (post_tasks_complete Demo.t1 1 7 Demo.body) Demo.store
  = Returned (Json 10)
  /\ balance_of 1 Demo.after_first = Some 10
  /\ List.length (task_completions Demo.after_first) = 1%nat
  /\ run_outcome (post_tasks_complete Demo.t2 1 7 Demo.body) Demo.after_first
     = Returned (Json 20)
  /\ balance_of 1 Demo.after_second = Some 20
  /\ List.length (task_completions Demo.after_second) = 2%nat.
Proof. repeat split; vm_compute; reflexivity. Qed.

(** C1, as the code has it.  The handler keeps no completed mark on an
    assignment.  After its sweep of the reaper, an attempt is rejected, with
    the store (so every balance and the completion records) left as it was,
    when the task is not an active task, when it is not assigned to the
    user for the current UTC day, or when the user already has 5 completion
    records dated the current day; it fails without a write when a record
    of the same user and task carries the same second.  In every other
    case, an earlier completion of the same assignment included, it appends
    one completion record and credits the reward to the user's balance. *)
Theorem complete_rejects_or_credits (now uid tid : Z) (body : complete_body)
    (s : db) :
  let s0 := sweep now s in
  let h := post_tasks_complete now uid tid body in
  match active_task tid s0, assigned_today uid (Clock.dayUTC now) tid s0 with
  | Some task, Some _ =>
      if (daily_limit <=? List.length (completed_today uid now s0))%nat
      then run_outcome h s = Returned (Error 400 "Daily limit reached (5 tasks/day)")
           /\ run_store h s = s0
      else if existsb (fun c => (TaskCompletions.user_id c =? uid)
                                && (TaskCompletions.task_id c =? tid)
                                && (TaskCompletions.created_at c
                                    =? Clock.sql_datetime now))
                (task_completions s0)
      then run_outcome h s = Rejected /\ run_store h s = s0
      else task_completions (run_store h s)
           = task_completions s0
             ++ [completion_row now uid tid (Tasks.reward_ksh task) body]
           /\ balance_of uid (run_store h s)
              = option_map (fun b => b + Tasks.reward_ksh task) (balance_of uid s0)
  | None, _ =>
      run_outcome h s = Returned (Error 404 "Task not found") /\ run_store h s = s0
  | Some _, None =>
      run_outcome h s = Returned (Error 400 "Task not assigned for today")
      /\ run_store h s = s0
  end.
Proof.
  intros s0 h. unfold run_outcome, run_store. subst h.
  rewrite post_tasks_complete_None. fold s0. cbv zeta.
  destruct (active_task tid s0) as [task|]; [|split; reflexivity].
  destruct (assigned_today uid (Clock.dayUTC now) tid s0); [|split; reflexivity].
  destruct (daily_limit <=? List.length (completed_today uid now s0))%nat;
    [split; reflexivity|].
  unfold insert_task_completion.
  destruct (existsb _ (task_completions s0)); [split; reflexivity|].
  set (s1 := set_task_completions _ s0). cbv zeta.
  match goal with
  | |- context [lookup_user uid ?x] => destruct (lookup_user uid x)
  end; cbn [snd]; (split;
    [ rewrite task_completions_referral_effect; reflexivity
    | rewrite balance_of_referral_effect, balance_of_credit_balance; reflexivity ]).
Qed.

(** ** The writes of a completion, one by one *)

Lemma purge_nobody now f s :
  doomed now s = [] -> purgeDeletedAccounts now f s = (Returned tt, f, s).
Proof.
  intros H. unfold purgeDeletedAccounts, bind, query. rewrite H. reflexivity.
Qed.

(** Whatever the fault plan, the referral step touches neither the
    completion records, nor the daily tasks, nor any balance. *)
Lemma referral_step_frame uid f s :
  let s' := snd (referral_step uid f s) in
  task_completions s' = task_completions s
  /\ daily_tasks s' = daily_tasks s
  /\ forall v, balance_of v s' = balance_of v s.
Proof.
  unfold referral_step, bind, query.
  destruct (lookup_user uid s) as [me|]; [|cbn; auto].
  destruct (Users.referred_by me) as [r|]; [|cbn; auto].
  destruct (r =? 0); [cbn; auto|].
  destruct (List.length (completions_of (Users.id me) s) =? 1)%nat; [|cbn; auto].
  destruct (reward_row r (Users.id me) s); [cbn; auto|].
  unfold run, run_checked, insert_referral_reward.
  destruct f as [[|[|k]]|]; cbn [snd]; auto;
    destruct (existsb _ (referral_rewards s)); cbn [snd option_map Nat.pred]; auto;
    repeat split; trivial; intros v; try reflexivity;
    rewrite balance_of_credit_bonus; reflexivity.
Qed.

(** C2, as stated, fails: when the process stops after the first write of
    the commit, the completion record is in the store and the balance has
    not been credited. *)
Lemma interrupted_completion_is_recorded_not_credited :
  fst (fst (post_tasks_complete Demo.t1 1 7 Demo.body (Some 1%nat) Demo.store))
  = Interrupted
  /\ task_completions
       (run_store_upto 1 (post_tasks_complete Demo.t1 1 7 Demo.body) Demo.store)
     = [completion_row Demo.t1 1 7 10 Demo.body]
  /\ balance_of 1
       (run_store_upto 1 (post_tasks_complete Demo.t1 1 7 Demo.body) Demo.store)
     = Some 0
  /\ balance_of 1 Demo.store = Some 0.
Proof. repeat split; vm_compute; reflexivity. Qed.

(** C2, as the code has it.  The commit of a completion is two separate
    writes with no transaction around them: first the completion record is
    inserted, then the balance is credited; the assignment row is not
    written at all.  So, when the sweep at the start of the request has
    nobody to delete, whatever the point at which the process stops or a
    statement fails: either nothing was committed, or exactly one record
    was appended; in the second case the balance was credited by the
    reward, unless the process stopped between the two writes.  A credited
    balance without its completion record never arises. *)
Theorem complete_writes_record_then_credit (now uid tid : Z)
    (body : complete_body) (s : db) (f : fault)
    (Hquiet : doomed now s = []) :
  let r := post_tasks_complete now uid tid body f s in
  let s' := snd r in
  daily_tasks s' = daily_tasks s
  /\ ((task_completions s' = task_completions s /\ users s' = users s)
      \/ exists task,
           active_task tid s = Some task
           /\ task_completions s'
              = task_completions s
                ++ [completion_row now uid tid (Tasks.reward_ksh task) body]
           /\ ((users s' = users s /\ f = Some 1%nat
                /\ fst (fst r) = Interrupted)
               \/ balance_of uid s'
                  = option_map (fun b => b + Tasks.reward_ksh task)
                      (balance_of uid s))).
Proof.
  cbv zeta. unfold post_tasks_complete.
  erewrite bind_Returned by (apply purge_nobody; exact Hquiet).
  rewrite bind_query.
  destruct (active_task tid s) as [task|] eqn:Et; [|unfold ret; cbn [snd]; auto].
  rewrite bind_query.
  destruct (assigned_today uid (Clock.dayUTC now) tid s);
    [|unfold ret; cbn [snd]; auto].
  rewrite bind_query.
  destruct (daily_limit <=? List.length (completed_today uid now s))%nat;
    [unfold ret; cbn [snd]; auto|].
  rewrite bind_run_checked.
  assert (Hrest : forall f' s1,
            task_completions s1
            = task_completions s
              ++ [completion_row now uid tid (Tasks.reward_ksh task) body] ->
            daily_tasks s1 = daily_tasks s ->
            balance_of uid s1 = balance_of uid s ->
            let r := bind (referral_step uid)
                       (fun _ => bind (query (lookup_user uid))
                          (fun updated =>
                             match updated with
                             | Some u => ret (Json (Users.balance_ksh u))
                             | None => throw
                             end)) f'
                       (credit_balance uid (Tasks.reward_ksh task) s1) in
            daily_tasks (snd r) = daily_tasks s
            /\ task_completions (snd r)
               = task_completions s
                 ++ [completion_row now uid tid (Tasks.reward_ksh task) body]
            /\ balance_of uid (snd r)
               = option_map (fun b => b + Tasks.reward_ksh task)
                   (balance_of uid s)).
  { intros f' s1 Hc1 Hd1 Hb1. cbv zeta.
    set (s2 := credit_balance uid (Tasks.reward_ksh task) s1).
    pose proof (referral_step_frame uid f' s2) as [Hc [Hd Hb]].
    unfold bind.
    destruct (referral_step uid f' s2) as [[o f''] s3].
    cbn [snd] in Hc, Hd, Hb.
    assert (Hfin : daily_tasks s3 = daily_tasks s
                   /\ task_completions s3
                      = task_completions s
                        ++ [completion_row now uid tid (Tasks.reward_ksh task) body]
                   /\ balance_of uid s3
                      = option_map (fun b => b + Tasks.reward_ksh task)
                          (balance_of uid s)).
    { rewrite Hc, Hd, Hb. subst s2.
      rewrite balance_of_credit_balance, Hb1. auto. }
    destruct o as [[]| |]; unfold query, ret, throw;
      try destruct (lookup_user uid s3); exact Hfin. }
  unfold insert_task_completion. cbv beta zeta.
  destruct f as [[|k]|]; [cbn [snd]; auto| |].
  - (* at least one write may run *)
    destruct (existsb _ (task_completions s)); [cbn [snd]; auto|].
    cbn [option_map Nat.pred].
    set (s1 := set_task_completions _ s).
    rewrite bind_run.
    destruct k as [|k].
    + (* stopped between the two writes *)
      cbn [snd fst]. split; trivial. right. exists task. repeat split; auto.
    + cbn [option_map Nat.pred].
      destruct (Hrest (Some k) s1) as [H1 [H2 H3]]; trivial.
      split; trivial. right. exists task. repeat split; auto.
  - (* no fault *)
    destruct (existsb _ (task_completions s)); [cbn [snd]; auto|].
    cbn [option_map].
    set (s1 := set_task_completions _ s).
    rewrite bind_run. cbn [option_map].
    destruct (Hrest None s1) as [H1 [H2 H3]]; trivial.
    split; trivial. right. exists task. repeat split; auto.
Qed.

Lemma complete_writes_record_then_credit_witness :
  doomed Demo.t1 Demo.store = []
  /\ daily_tasks (snd (post_tasks_complete Demo.t1 1 7 Demo.body (Some 1%nat)
                         Demo.store))
     = daily_tasks Demo.store.
Proof.
  split; [reflexivity|].
  exact (proj1 (complete_writes_record_then_credit Demo.t1 1 7 Demo.body
                  Demo.store (Some 1%nat) eq_refl)).
Defined.

(** ** The allocator without a fault *)

Lemma for_of_run_None {A : Type} (l : list A) (stmt : A -> db -> db) s :
  for_of l (fun x => run (stmt x)) None s
  = (Returned tt, None, fold_left (fun s x => stmt x s) l s).
Proof.
  revert s. induction l as [|x l IH]; intros s; simpl; trivial.
  rewrite bind_run. cbn [option_map]. apply IH.
Qed.

Lemma ensureDailyTasks_None shuffle now uid s :
  ensureDailyTasks shuffle now uid None s =
  let today := Clock.dayUTC now in
  let existing := existing_tasks uid today s in
  if (5 <=? List.length existing)%nat
  then (Returned (firstn 5 existing), None, s)
  else (Returned (pick_tasks shuffle s), None,
        allocate uid today (pick_tasks shuffle s) s).
Proof.
  unfold ensureDailyTasks. cbv zeta. rewrite bind_query.
  destruct (5 <=? List.length (existing_tasks uid (Clock.dayUTC now) s))%nat;
    [reflexivity|].
  rewrite bind_run. cbn [option_map]. rewrite bind_query.
  erewrite bind_Returned by apply for_of_run_None.
  reflexivity.
Qed.

Lemma allocate_frame uid today picked s :
  users (allocate uid today picked s) = users s
  /\ tasks (allocate uid today picked s) = tasks s
  /\ task_completions (allocate uid today picked s) = task_completions s
  /\ withdrawals (allocate uid today picked s) = withdrawals s
  /\ referral_rewards (allocate uid today picked s) = referral_rewards s.
Proof.
  unfold allocate.
  assert (H : forall l s0,
            let s1 := fold_left
                        (fun s t => insert_or_ignore_daily_task uid today
                                      (Tasks.id t) s) l s0 in
            users s1 = users s0 /\ tasks s1 = tasks s0
            /\ task_completions s1 = task_completions s0
            /\ withdrawals s1 = withdrawals s0
            /\ referral_rewards s1 = referral_rewards s0).
  { induction l as [|t l IH]; intros s0; simpl; [auto|].
    destruct (IH (insert_or_ignore_daily_task uid today (Tasks.id t) s0))
      as [A [B [C [D E]]]].
    rewrite A, B, C, D, E. unfold insert_or_ignore_daily_task.
    destruct (existsb _ (daily_tasks s0)); auto. }
  apply (H picked (delete_daily_tasks_on uid today s)).
Qed.

Lemma get_tasks_store shuffle now uid s :
  run_store (get_tasks shuffle now uid) s
  = let s0 := sweep now s in
    let today := Clock.dayUTC now in
    if (5 <=? List.length (existing_tasks uid today s0))%nat then s0
    else allocate uid today (pick_tasks shuffle s0) s0.
Proof.
  unfold run_store, get_tasks.
  erewrite bind_Returned by apply purge_None.
  unfold bind at 1. rewrite ensureDailyTasks_None. cbv zeta.
  destruct (5 <=? List.length (existing_tasks uid (Clock.dayUTC now) (sweep now s)))%nat;
    reflexivity.
Qed.

(** ** Redemption, withdrawal and deletion requests without a fault *)

Lemma post_referrals_redeem_None uid s :
  post_referrals_redeem uid None s =
  match lookup_user uid s with
  | None => (Returned (Error 400 "User not found"), None, s)
  | Some u =>
      if Users.bonus_ksh u <? redeem_block
      then (Returned (Error 400 "Bonus must reach KSH 1000 to redeem"), None, s)
      else (Returned (Json (option_map
                             (fun u' => (Users.balance_ksh u', Users.bonus_ksh u'))
                             (lookup_user uid (move_bonus uid s)))),
            None, move_bonus uid s)
  end.
Proof.
  unfold post_referrals_redeem. rewrite bind_query.
  destruct (lookup_user uid s) as [u|]; [|reflexivity].
  destruct (Users.bonus_ksh u <? redeem_block); [reflexivity|].
  rewrite bind_run. cbn [option_map]. rewrite bind_query. reflexivity.
Qed.

Lemma post_withdrawals_None uid body s :
  post_withdrawals uid body None s =
  if negb (schema_ok body) then (Returned (Error 400 "Bad request"), None, s)
  else
    match lookup_user uid s with
    | None => (Returned (Error 400 "User not found"), None, s)
    | Some u =>
        if negb (Qle_bool (amount body) (inject_Z (Users.balance_ksh u)))
        then (Returned (Error 400 "Insufficient balance"), None, s)
        else (Returned (Json tt), None,
              credit_balance uid (- Qfloor (amount body))
                (insert_withdrawal uid (Qfloor (amount body)) (phone body)
                   (method body) "pending" s))
    end.
Proof.
  unfold post_withdrawals, try_catch.
  destruct (negb (schema_ok body)); [reflexivity|].
  rewrite bind_query.
  destruct (lookup_user uid s) as [u|]; [|reflexivity].
  destruct (negb (Qle_bool (amount body) (inject_Z (Users.balance_ksh u))));
    [reflexivity|].
  rewrite bind_run. cbn [option_map]. rewrite bind_run. reflexivity.
Qed.

Lemma post_me_delete_request_store now uid s :
  run_store (post_me_delete_request now uid) s
  = set_delete_request uid now (Clock.plusDaysISO now 7) s.
Proof. reflexivity. Qed.

Lemma get_health_store now s : run_store (get_health now) s = sweep now s.
Proof.
  unfold run_store, get_health.
  erewrite bind_Returned by apply purge_None. reflexivity.
Qed.

(** ** What each request does to the completion records *)

Lemma complete_task_completions now uid tid body s :
  let s' := run_store (post_tasks_complete now uid tid body) s in
  let s0 := sweep now s in
  task_completions s' = task_completions s0
  \/ ((List.length (completed_today uid now s0) < daily_limit)%nat
      /\ exists reward ans,
           task_completions s'
           = task_completions s0
             ++ [TaskCompletions.mk uid tid reward ans (Clock.sql_datetime now)]).
Proof.
  cbv zeta. unfold run_store. rewrite post_tasks_complete_None. cbv zeta.
  destruct (active_task tid (sweep now s)) as [task|]; [|auto].
  destruct (assigned_today _ _ _ _); [|auto].
  destruct (daily_limit <=? List.length (completed_today uid now (sweep now s)))%nat
    eqn:El; [auto|].
  apply Nat.leb_gt in El.
  unfold insert_task_completion.
  destruct (existsb _ (task_completions (sweep now s))); [auto|].
  right. split; trivial. exists (Tasks.reward_ksh task), (answer_of body).
  match goal with
  | |- context [lookup_user uid ?x] => destruct (lookup_user uid x)
  end; cbn [snd]; rewrite task_completions_referral_effect; reflexivity.
Qed.

Lemma serve_task_completions r s :
  (exists p, task_completions (serve r s) = filter p (task_completions s))
  \/ exists now uid tid body,
       r = PostComplete now uid tid body
       /\ (List.length (completed_today uid now (sweep now s)) < daily_limit)%nat
       /\ exists reward ans,
            task_completions (serve r s)
            = task_completions (sweep now s)
              ++ [TaskCompletions.mk uid tid reward ans (Clock.sql_datetime now)].
Proof.
  assert (Hsame : forall s1, task_completions s1 = task_completions s ->
            exists p, task_completions s1 = filter p (task_completions s)).
  { intros s1 ->. exists (fun _ => true). symmetry. now apply filter_true. }
  destruct r as [now|shuffle now uid|now uid tid body|uid|uid body|now uid];
    simpl.
  - left. rewrite get_health_store. eexists. reflexivity.
  - left. rewrite get_tasks_store. cbv zeta.
    destruct (5 <=? _)%nat; [eexists; reflexivity|].
    destruct (allocate_frame uid (Clock.dayUTC now)
                (pick_tasks shuffle (sweep now s)) (sweep now s))
      as [_ [_ [C _]]].
    rewrite C. eexists. reflexivity.
  - destruct (complete_task_completions now uid tid body s) as [H|[Hl H]].
    + left. rewrite H. eexists. reflexivity.
    + right. exists now, uid, tid, body. auto.
  - left. apply Hsame. unfold run_store. rewrite post_referrals_redeem_None.
    destruct (lookup_user uid s) as [u|]; trivial.
    destruct (Users.bonus_ksh u <? redeem_block); reflexivity.
  - left. apply Hsame. unfold run_store. rewrite post_withdrawals_None.
    destruct (negb (schema_ok body)); trivial.
    destruct (lookup_user uid s) as [u|]; trivial.
    destruct (negb _); reflexivity.
  - left. apply Hsame. reflexivity.
Qed.

(** ** The daily limit *)

Lemma filter_and_length_le {A : Type} (p q : A -> bool) (l : list A) :
  (List.length (filter (fun x => p x && q x) l) <= List.length (filter q l))%nat.
Proof.
  induction l as [|x l IH]; simpl; trivial.
  destruct (p x), (q x); simpl; lia.
Qed.

Lemma within_daily_limit_filter p s s' :
  within_daily_limit s ->
  task_completions s' = filter p (task_completions s) ->
  within_daily_limit s'.
Proof.
  intros H E uid day. unfold completions_on. rewrite E, filter_filter.
  eapply Nat.le_trans; [apply filter_and_length_le|]. apply (H uid day).
Qed.

Lemma within_daily_limit_append now uid tid reward ans s0 s' :
  within_daily_limit s0 ->
  (List.length (completed_today uid now s0) < daily_limit)%nat ->
  task_completions s'
  = task_completions s0
    ++ [TaskCompletions.mk uid tid reward ans (Clock.sql_datetime now)] ->
  within_daily_limit s'.
Proof.
  intros H Hl E uid' day. unfold completions_on. rewrite E, filter_app.
  rewrite length_app. simpl.
  destruct (uid =? uid') eqn:Eu; simpl.
  - destruct (Clock.sql_date (Clock.sql_datetime now) =? day) eqn:Ed; simpl.
    + apply Z.eqb_eq in Eu, Ed. subst uid' day.
      unfold completed_today in Hl. lia.
    + specialize (H uid' day). unfold completions_on in H. lia.
  - specialize (H uid' day). unfold completions_on in H. lia.
Qed.

Lemma within_daily_limit_sweep now s :
  within_daily_limit s -> within_daily_limit (sweep now s).
Proof. intros H. eapply within_daily_limit_filter; [exact H | reflexivity]. Qed.

Lemma within_daily_limit_serve r s :
  within_daily_limit s -> within_daily_limit (serve r s).
Proof.
  intros H.
  destruct (serve_task_completions r s)
    as [[p E]|[now [uid [tid [body [-> [Hl [reward [ans E]]]]]]]]].
  - eapply within_daily_limit_filter; eauto.
  - eapply within_daily_limit_append; [|exact Hl|exact E].
    now apply within_daily_limit_sweep.
Qed.

Lemma within_daily_limit_serve_all rs s :
  within_daily_limit s -> within_daily_limit (serve_all rs s).
Proof.
  unfold serve_all. revert s.
  induction rs as [|r rs IH]; intros s H; simpl; trivial.
  apply IH. now apply within_daily_limit_serve.
Qed.

Lemma within_daily_limit_empty : within_daily_limit empty_db.
Proof. intros uid day. simpl. unfold daily_limit. lia. Qed.

(** C10.  In every store that requests served one at a time lead to, no
    user has more than 5 completion records dated one UTC day.  The
    completion handler counts the user's records dated the current day
    after its sweep; when that count has reached 5 the attempt is refused
    and the store is left as the sweep left it, whichever task is named,
    and the refusal is the daily-limit error once the task is an active
    task assigned to the user today. *)
Theorem daily_limit_caps_completions (rs : list request) (s : db)
    (Hinit : within_daily_limit s) :
  let s1 := serve_all rs s in
  within_daily_limit s1
  /\ forall now uid tid body,
       let s0 := sweep now s1 in
       let h := post_tasks_complete now uid tid body in
       (daily_limit <= List.length (completed_today uid now s0))%nat ->
       run_store h s1 = s0
       /\ (exists code error, run_outcome h s1 = Returned (Error code error))
       /\ (active_task tid s0 <> None ->
           assigned_today uid (Clock.dayUTC now) tid s0 <> None ->
           run_outcome h s1
           = Returned (Error 400 "Daily limit reached (5 tasks/day)")).
Proof.
  cbv zeta. split; [now apply within_daily_limit_serve_all|].
  intros now uid tid body Hfull. apply Nat.leb_le in Hfull.
  unfold run_store, run_outcome. rewrite post_tasks_complete_None. cbv zeta.
  destruct (active_task tid _) as [task|].
  - destruct (assigned_today _ _ _ _).
    + rewrite Hfull. cbn [fst snd].
      split; [reflexivity|]. split; [eauto|reflexivity].
    + cbn [fst snd]. split; [reflexivity|]. split; [eauto|].
      intros _ H. now contradiction H.
  - cbn [fst snd]. split; [reflexivity|]. split; [eauto|].
    intros H. now contradiction H.
Qed.

Lemma daily_limit_caps_completions_witness :
  within_daily_limit
    (serve_all [PostComplete Demo.t1 1 7 Demo.body;
                PostComplete Demo.t2 1 7 Demo.body] Demo.store).
Proof.
  refine (proj1 (daily_limit_caps_completions
                   [PostComplete Demo.t1 1 7 Demo.body;
                    PostComplete Demo.t2 1 7 Demo.body] Demo.store _)).
  intros uid day. simpl. unfold daily_limit. lia.
Defined.

(** ** Updates of the users table *)

Lemma map_id_update_where (p : Users.row -> bool) f l :
  (forall u, Users.id (f u) = Users.id u) ->
  map Users.id (update_where p f l) = map Users.id l.
Proof.
  intros Hid. unfold update_where. rewrite map_map. apply map_ext.
  intros u. destruct (p u); auto.
Qed.

Lemma NoDup_map_filter {A B : Type} (g : A -> B) (p : A -> bool) (l : list A) :
  NoDup (map g l) -> NoDup (map g (filter p l)).
Proof.
  induction l as [|x l IH]; simpl; intros H; trivial.
  inversion H as [|? ? Hx Hl]; subst.
  destruct (p x); simpl; auto.
  constructor; auto. intros Hin. apply Hx.
  apply in_map_iff in Hin. destruct Hin as [y [E Hy]].
  apply filter_In in Hy. apply in_map_iff. exists y. tauto.
Qed.

Lemma In_update_where {A : Type} (p : A -> bool) (f : A -> A) l x :
  In x (update_where p f l) ->
  exists y, In y l /\ x = (if p y then f y else y).
Proof.
  unfold update_where. intros H. apply in_map_iff in H.
  destruct H as [y [E Hy]]. eauto.
Qed.

Lemma lookup_user_unique uid s u v :
  users_unique s -> lookup_user uid s = Some u ->
  In v (users s) -> Users.id v = uid -> v = u.
Proof.
  unfold users_unique, lookup_user.
  induction (users s) as [|x l IH]; simpl; intros Hn Hf Hv Hid; [contradiction|].
  inversion Hn as [|? ? Hx Hl]; subst.
  destruct (Users.id x =? Users.id v) eqn:E.
  - injection Hf as <-. destruct Hv as [->|Hv]; trivial.
    exfalso. apply Hx. apply Z.eqb_eq in E. rewrite E. now apply in_map.
  - destruct Hv as [->|Hv]; [rewrite Z.eqb_refl in E; discriminate|].
    now apply IH.
Qed.

Section Preservation.
Variable s : db.
Hypothesis Hunique : users_unique s.
Hypothesis Hnonneg : balances_nonneg s.




End Preservation.

Lemma active_task_In tid s task : active_task tid s = Some task -> In task (tasks s).
Proof. unfold active_task. intros H. now apply find_some in H. Qed.

(** ** The referral bonus *)

Lemma find_filter_keep {A : Type} (p q : A -> bool) (l : list A) (x : A) :
  find p l = Some x -> q x = true -> find p (filter q l) = Some x.
Proof.
  induction l as [|y l IH]; simpl; [discriminate|].
  destruct (p y) eqn:Ep.
  - intros [= ->] Hq. rewrite Hq. simpl. now rewrite Ep.
  - intros Hf Hq. destruct (q y); simpl; [rewrite Ep|]; auto.
Qed.

Lemma find_none_filter {A : Type} (p : A -> bool) (l : list A) :
  find p l = None <-> filter p l = [].
Proof.
  induction l as [|y l IH]; simpl; [tauto|].
  destruct (p y); [split; discriminate | exact IH].
Qed.

Lemma staying_not_doomed now s uid u :
  users_unique s -> lookup_user uid s = Some u -> not_leaving u ->
  memZ uid (doomed now s) = false.
Proof.
  intros Hu Hl Hs. destruct (memZ uid (doomed now s)) eqn:E; trivial.
  apply memZ_In in E. unfold doomed in E. apply in_map_iff in E.
  destruct E as [v [Hid Hv]]. apply filter_In in Hv. destruct Hv as [Hv Hd].
  rewrite (lookup_user_unique uid s u v Hu Hl Hv Hid) in Hd.
  unfold is_doomed in Hd. rewrite Hs in Hd. discriminate.
Qed.

Lemma sweep_lookup now s uid u :
  users_unique s -> lookup_user uid s = Some u -> not_leaving u ->
  lookup_user uid (sweep now s) = Some u.
Proof.
  intros Hu Hl Hs. unfold lookup_user, sweep, purged. simpl.
  apply find_filter_keep; [exact Hl|].
  rewrite (lookup_user_id _ _ _ Hl).
  now rewrite (staying_not_doomed now s uid u Hu Hl Hs).
Qed.

Lemma sweep_completions_of now s uid :
  memZ uid (doomed now s) = false ->
  completions_of uid (sweep now s) = completions_of uid s.
Proof.
  intros H. unfold completions_of, sweep, purged. simpl.
  rewrite filter_filter. apply filter_ext. intros c.
  destruct (TaskCompletions.user_id c =? uid) eqn:E;
    [|now rewrite andb_false_r].
  apply Z.eqb_eq in E. rewrite E, H. reflexivity.
Qed.

Lemma sweep_rewards_for now s r uid :
  memZ r (doomed now s) = false -> memZ uid (doomed now s) = false ->
  rewards_for r uid (sweep now s) = rewards_for r uid s.
Proof.
  intros Hr Hu. unfold rewards_for, sweep, purged. simpl.
  rewrite filter_filter. apply filter_ext. intros x. unfold is_reward.
  destruct (ReferralRewards.referrer_id x =? r) eqn:E1;
    [|now rewrite andb_false_r].
  destruct (ReferralRewards.referred_user_id x =? uid) eqn:E2;
    [|now rewrite andb_false_r].
  apply Z.eqb_eq in E1, E2. rewrite E1, E2, Hr, Hu. reflexivity.
Qed.

Section ReferralPair.
Variables uid r b0 : Z.
Hypothesis Hr0 : r <> 0.
Hypothesis Hru : r <> uid.

Lemma referral_state_sweep now s :
  referral_state uid r b0 s -> referral_state uid r b0 (sweep now s).
Proof.
  intros [Hu [[me [Hme [Href Hstay]]] [[rf [Hrf [Hrstay Hb]]] Hrows]]].
  pose proof (staying_not_doomed now s uid me Hu Hme Hstay) as Du.
  pose proof (staying_not_doomed now s r rf Hu Hrf Hrstay) as Dr.
  assert (Hp : paid uid (sweep now s) = paid uid s)
    by (unfold paid; now rewrite sweep_completions_of).
  split; [|split; [|split]].
  - unfold users_unique, sweep, purged. simpl. now apply NoDup_map_filter.
  - exists me. split; auto using sweep_lookup.
  - exists rf. rewrite Hp. split; auto using sweep_lookup.
  - now rewrite Hp, sweep_rewards_for.
Qed.

Lemma referral_state_credit now tid reward ans s0 :
  referral_state uid r b0 s0 ->
  referral_state uid r b0
    (referral_effect uid
       (credit_balance uid reward
          (set_task_completions
             (fun l => l ++ [TaskCompletions.mk uid tid reward ans now]) s0))).
Proof.
  intros [Hu [[me [Hme [Href Hstay]]] [[rf [Hrf [Hrstay Hb]]] Hrows]]].
  set (s1 := set_task_completions _ s0).
  set (s2 := credit_balance uid reward s1).
  pose proof (lookup_user_id _ _ _ Hme) as Hidme.
  pose proof (lookup_user_id _ _ _ Hrf) as Hidrf.
  assert (Hu2 : users_unique s2).
  { unfold users_unique, s2, credit_balance. simpl.
    now rewrite map_id_update_where. }
  assert (Hme2 : lookup_user uid s2 = Some (add_balance reward me)).
  { unfold s2. rewrite lookup_credit_balance.
    change (lookup_user uid s1) with (lookup_user uid s0).
    rewrite Hme. simpl. now rewrite Hidme, Z.eqb_refl. }
  assert (Hrf2 : lookup_user r s2 = Some rf).
  { unfold s2. rewrite lookup_credit_balance.
    change (lookup_user r s1) with (lookup_user r s0).
    rewrite Hrf. simpl. rewrite Hidrf.
    now replace (r =? uid) with false by (symmetry; apply Z.eqb_neq; exact Hru). }
  assert (Hc2 : completions_of uid s2
                = completions_of uid s0
                  ++ [TaskCompletions.mk uid tid reward ans now]).
  { unfold completions_of, s2, s1. simpl. rewrite filter_app. simpl.
    now rewrite Z.eqb_refl. }
  assert (Hp2 : paid uid s2 = 1).
  { unfold paid. rewrite Hc2. destruct (completions_of uid s0); reflexivity. }
  unfold referral_effect. rewrite Hme2.
  change (Users.referred_by (add_balance reward me)) with (Users.referred_by me).
  change (Users.id (add_balance reward me)) with (Users.id me).
  rewrite Href, Hidme.
  replace (r =? 0) with false by (symmetry; apply Z.eqb_neq; exact Hr0).
  rewrite Hc2, length_app. simpl.
  destruct (completions_of uid s0) as [|c cs] eqn:Ec.
  - (* the first completion of [uid] *)
    assert (Hpaid0 : paid uid s0 = 0) by (unfold paid; now rewrite Ec).
    rewrite Hpaid0 in Hb, Hrows. simpl.
    assert (Hnone : reward_row r uid s2 = None).
    { unfold reward_row. apply find_none_filter.
      change (filter (is_reward r uid) (referral_rewards s2))
        with (rewards_for r uid s0).
      destruct (rewards_for r uid s0); [reflexivity|discriminate]. }
    rewrite Hnone.
    set (s3 := credit_bonus r referral_bonus _).
    assert (Hp3 : paid uid s3 = 1) by exact Hp2.
    split; [|split; [|split]].
    + unfold users_unique, s3, credit_bonus. simpl.
      rewrite map_id_update_where by reflexivity. exact Hu2.
    + exists (add_balance reward me). split; [|auto].
      unfold s3. rewrite lookup_credit_bonus.
      change (lookup_user uid (set_referral_rewards _ s2))
        with (lookup_user uid s2).
      rewrite Hme2. simpl. rewrite Hidme.
      now replace (uid =? r) with false
        by (symmetry; apply Z.eqb_neq; congruence).
    + exists (add_bonus referral_bonus rf).
      split; [|split; [exact Hrstay|
        rewrite Hp3; unfold referral_bonus in *; simpl; lia]].
      unfold s3. rewrite lookup_credit_bonus.
      change (lookup_user r (set_referral_rewards _ s2))
        with (lookup_user r s2).
      rewrite Hrf2. simpl. now rewrite Hidrf, Z.eqb_refl.
    + rewrite Hp3.
      change (rewards_for r uid s3)
        with (filter (is_reward r uid)
                (referral_rewards s0 ++ [ReferralRewards.mk r uid])).
      rewrite filter_app, length_app. unfold is_reward at 2. simpl.
      rewrite !Z.eqb_refl. simpl.
      fold (rewards_for r uid s0). lia.
  - (* a later completion *)
    assert (Hpaid1 : paid uid s0 = 1) by (unfold paid; now rewrite Ec).
    rewrite Hpaid1 in Hb, Hrows.
    replace (List.length (c :: cs) + 1 =? 1)%nat with false
      by (symmetry; apply Nat.eqb_neq; simpl; lia).
    split; [exact Hu2|]. split; [|split].
    + exists (add_balance reward me). auto.
    + exists rf. rewrite Hp2. auto.
    + rewrite Hp2. exact Hrows.
Qed.

Lemma referral_state_complete now tid body s :
  referral_state uid r b0 s ->
  referral_state uid r b0 (serve (PostComplete now uid tid body) s).
Proof.
  intros H. apply (referral_state_sweep now) in H.
  simpl. unfold run_store. rewrite post_tasks_complete_None. cbv zeta.
  destruct (active_task tid (sweep now s)) as [task|]; [|exact H].
  destruct (assigned_today _ _ _ _); [|exact H].
  destruct (daily_limit <=? _)%nat; [exact H|].
  unfold insert_task_completion. destruct (existsb _ _); [exact H|].
  pose proof (referral_state_credit (Clock.sql_datetime now) tid
                (Tasks.reward_ksh task) (answer_of body) _ H) as H3.
  match goal with
  | |- context [lookup_user uid ?x] => destruct (lookup_user uid x)
  end; exact H3.
Qed.

Lemma referral_state_completions rs s :
  referral_state uid r b0 s ->
  referral_state uid r b0 (serve_all (completions_by uid rs) s).
Proof.
  unfold serve_all. revert s.
  induction rs as [|[[now tid] body] rs IH]; intros s H; simpl; trivial.
  apply IH. now apply referral_state_complete.
Qed.
End ReferralPair.

Lemma bonus_of_credit_balance v uid amount s :
  bonus_of v (credit_balance uid amount s) = bonus_of v s.
Proof.
  unfold bonus_of. rewrite lookup_credit_balance.
  destruct (lookup_user v s) as [u|]; simpl; trivial.
  destruct (Users.id u =? uid); reflexivity.
Qed.

Lemma complete_pays_nothing now uid tid body s :
  (forall task,
     let s2 := credit_balance uid (Tasks.reward_ksh task)
                 (set_task_completions
                    (fun l => l ++ [TaskCompletions.mk uid tid (Tasks.reward_ksh task)
                                      (answer_of body) (Clock.sql_datetime now)])
                    (sweep now s)) in
     referral_effect uid s2 = s2) ->
  pays_nothing now uid tid body s.
Proof.
  intros H. unfold pays_nothing. simpl. unfold run_store.
  rewrite post_tasks_complete_None. cbv zeta.
  destruct (active_task tid (sweep now s)) as [task|]; [|auto].
  destruct (assigned_today _ _ _ _); [|auto].
  destruct (daily_limit <=? _)%nat; [auto|].
  unfold insert_task_completion. destruct (existsb _ _); [auto|].
  specialize (H task). cbv zeta in H. rewrite H.
  match goal with
  | |- context [lookup_user uid ?x] => destruct (lookup_user uid x)
  end; cbn [snd]; (split; [reflexivity|]); intros v;
    rewrite bonus_of_credit_balance; reflexivity.
Qed.

Lemma later_completion_pays_nothing now uid tid body s :
  completions_of uid (sweep now s) <> [] -> pays_nothing now uid tid body s.
Proof.
  intros Hdone. apply complete_pays_nothing. intros task s2.
  unfold referral_effect.
  destruct (lookup_user uid s2) as [me|] eqn:Hme; trivial.
  destruct (Users.referred_by me) as [r|]; trivial.
  destruct (r =? 0); trivial.
  rewrite (lookup_user_id _ _ _ Hme).
  replace (completions_of uid s2)
    with (completions_of uid (sweep now s)
          ++ [TaskCompletions.mk uid tid (Tasks.reward_ksh task)
                (answer_of body) (Clock.sql_datetime now)]).
  - rewrite length_app. simpl.
    destruct (completions_of uid (sweep now s)) as [|c cs]; [contradiction|].
    replace (List.length (c :: cs) + 1 =? 1)%nat with false
      by (symmetry; apply Nat.eqb_neq; simpl; lia).
    reflexivity.
  - unfold completions_of, s2. simpl. rewrite filter_app. simpl.
    now rewrite Z.eqb_refl.
Qed.

Lemma rewarded_completion_pays_nothing now uid tid body s me r :
  lookup_user uid (sweep now s) = Some me ->
  Users.referred_by me = Some r ->
  rewards_for r uid (sweep now s) <> [] ->
  pays_nothing now uid tid body s.
Proof.
  intros Hme Href Hrow. apply complete_pays_nothing. intros task s2.
  unfold referral_effect.
  assert (Hme2 : lookup_user uid s2
                 = Some (add_balance (Tasks.reward_ksh task) me)).
  { unfold s2. rewrite lookup_credit_balance.
    change (lookup_user uid (set_task_completions _ (sweep now s)))
      with (lookup_user uid (sweep now s)).
    rewrite Hme. simpl.
    now rewrite (lookup_user_id _ _ _ Hme), Z.eqb_refl. }
  rewrite Hme2.
  change (Users.referred_by (add_balance (Tasks.reward_ksh task) me))
    with (Users.referred_by me).
  change (Users.id (add_balance (Tasks.reward_ksh task) me)) with (Users.id me).
  rewrite Href, (lookup_user_id _ _ _ Hme).
  destruct (r =? 0); trivial.
  destruct (List.length (completions_of uid s2) =? 1)%nat; trivial.
  destruct (reward_row r uid s2) eqn:E; trivial.
  exfalso. apply Hrow. apply find_none_filter. exact E.
Qed.

Lemma referral_effect_rewards uid s :
  referral_rewards (referral_effect uid s) = referral_rewards s
  \/ exists a b, rewards_for a b s = []
                 /\ referral_rewards (referral_effect uid s)
                    = referral_rewards s ++ [ReferralRewards.mk a b].
Proof.
  unfold referral_effect.
  destruct (lookup_user uid s) as [me|]; auto.
  destruct (Users.referred_by me) as [r|]; auto.
  destruct (r =? 0); auto.
  destruct (List.length (completions_of (Users.id me) s) =? 1)%nat; auto.
  destruct (reward_row r (Users.id me) s) eqn:E; auto.
  right. exists r, (Users.id me). split; [|reflexivity].
  now apply find_none_filter.
Qed.

Lemma serve_referral_rewards r s :
  (exists p, referral_rewards (serve r s) = filter p (referral_rewards s))
  \/ exists p a b,
       filter (is_reward a b) (filter p (referral_rewards s)) = []
       /\ referral_rewards (serve r s)
          = filter p (referral_rewards s) ++ [ReferralRewards.mk a b].
Proof.
  assert (Hsame : forall s1, referral_rewards s1 = referral_rewards s ->
            exists p, referral_rewards s1 = filter p (referral_rewards s)).
  { intros s1 ->. exists (fun _ => true). symmetry. now apply filter_true. }
  destruct r as [now|shuffle now uid|now uid tid body|uid|uid body|now uid];
    simpl.
  - left. rewrite get_health_store. eexists. reflexivity.
  - left. rewrite get_tasks_store. cbv zeta.
    destruct (5 <=? _)%nat; [eexists; reflexivity|].
    destruct (allocate_frame uid (Clock.dayUTC now)
                (pick_tasks shuffle (sweep now s)) (sweep now s))
      as [_ [_ [_ [_ R]]]].
    rewrite R. eexists. reflexivity.
  - unfold run_store. rewrite post_tasks_complete_None. cbv zeta.
    destruct (active_task tid (sweep now s)) as [task|];
      [|left; eexists; reflexivity].
    destruct (assigned_today _ _ _ _); [|left; eexists; reflexivity].
    destruct (daily_limit <=? _)%nat; [left; eexists; reflexivity|].
    unfold insert_task_completion.
    destruct (existsb _ _); [left; eexists; reflexivity|].
    match goal with
    | |- context [lookup_user uid (referral_effect uid ?x)] =>
        destruct (referral_effect_rewards uid x) as [E|[a [b [Hn E]]]];
        destruct (lookup_user uid (referral_effect uid x))
    end; cbn [snd]; rewrite E;
      try (left; eexists; reflexivity);
      right; eexists; exists a, b; (split; [exact Hn|reflexivity]).
  - left. apply Hsame. unfold run_store. rewrite post_referrals_redeem_None.
    destruct (lookup_user uid s) as [u|]; trivial.
    destruct (Users.bonus_ksh u <? redeem_block); reflexivity.
  - left. apply Hsame. unfold run_store. rewrite post_withdrawals_None.
    destruct (negb (schema_ok body)); trivial.
    destruct (lookup_user uid s) as [u|]; trivial.
    destruct (negb _); reflexivity.
  - left. apply Hsame. reflexivity.
Qed.

Lemma rewards_unique_serve r s : rewards_unique s -> rewards_unique (serve r s).
Proof.
  intros H a b. unfold rewards_for.
  assert (Hf : forall p,
            (List.length (filter (is_reward a b) (filter p (referral_rewards s)))
             <= 1)%nat).
  { intros p. rewrite filter_filter.
    eapply Nat.le_trans; [apply filter_and_length_le|]. apply (H a b). }
  destruct (serve_referral_rewards r s) as [[p E]|[p [a' [b' [Hn E]]]]];
    rewrite E; [apply Hf|].
  rewrite filter_app, length_app. simpl.
  destruct (is_reward a b (ReferralRewards.mk a' b')) eqn:Ek; simpl.
  - unfold is_reward in Ek. simpl in Ek. apply andb_true_iff in Ek.
    destruct Ek as [Ea Eb]. apply Z.eqb_eq in Ea, Eb. subst a' b'.
    rewrite Hn. simpl. lia.
  - specialize (Hf p). lia.
Qed.

Lemma rewards_unique_serve_all rs s :
  rewards_unique s -> rewards_unique (serve_all rs s).
Proof.
  unfold serve_all. revert s.
  induction rs as [|r rs IH]; intros s H; simpl; trivial.
  apply IH. now apply rewards_unique_serve.
Qed.

(** C3.  Let [uid] be a user referred by [r], both staying, [uid] with no
    completion yet and no reward row for the pair.  After any run of
    completion requests of [uid], the bonus balance of [r] has grown by the
    fixed bonus exactly once if [uid] has completed something, and not at
    all otherwise, and there are as many reward rows for the pair.  In any
    store, a completion of a user who has completed something before, and
    a completion of a referred user whose reward row exists, insert no
    reward row and leave every bonus balance as it was.  Whatever requests
    are served, one at a time, no pair ever gets a second reward row. *)
Theorem referral_bonus_paid_once (uid r : Z) (me referrer : Users.row)
    (rs : list (Z * Z * complete_body)) (s : db)
    (Hr0 : r <> 0)
    (Hru : r <> uid)
    (Hunique : users_unique s)
    (Hme : lookup_user uid s = Some me)
    (Href : Users.referred_by me = Some r)
    (Hstay : not_leaving me)
    (Hreferrer : lookup_user r s = Some referrer)
    (Hrstay : not_leaving referrer)
    (Hfresh : completions_of uid s = [])
    (Hunpaid : rewards_for r uid s = []) :
  let s' := serve_all (completions_by uid rs) s in
  bonus_of r s' = Some (Users.bonus_ksh referrer + referral_bonus * paid uid s')
  /\ Z.of_nat (List.length (rewards_for r uid s')) = paid uid s'
  /\ (forall now tid body t,
        completions_of uid (sweep now t) <> [] -> pays_nothing now uid tid body t)
  /\ (forall now tid body t me',
        lookup_user uid (sweep now t) = Some me' ->
        Users.referred_by me' = Some r ->
        rewards_for r uid (sweep now t) <> [] ->
        pays_nothing now uid tid body t)
  /\ (forall requests t, rewards_unique t -> rewards_unique (serve_all requests t)).
Proof.
  intros s'.
  assert (H0 : referral_state uid r (Users.bonus_ksh referrer) s).
  { unfold referral_state, paid. rewrite Hfresh, Hunpaid.
    split; [exact Hunique|]. split; [eauto|]. split; [|reflexivity].
    exists referrer. split; [exact Hreferrer|]. split; [exact Hrstay|lia]. }
  apply (referral_state_completions uid r _ Hr0 Hru rs) in H0.
  fold s' in H0.
  destruct H0 as [_ [_ [[rf [Hrf [_ Hb]]] Hrows]]].
  split; [|split; [exact Hrows|split; [|split]]].
  - unfold bonus_of. rewrite Hrf. simpl. now rewrite Hb.
  - intros now tid body t. apply later_completion_pays_nothing.
  - intros now tid body t me'. apply rewarded_completion_pays_nothing.
  - intros requests t. apply rewards_unique_serve_all.
Qed.

Lemma referral_bonus_paid_once_witness :
  bonus_of 1
    (serve_all (completions_by 2 [(Demo.t1, 7, Demo.body); (Demo.t2, 7, Demo.body)])
       Demo.referred_store)
  = Some 100.
Proof.
  refine (proj1 (referral_bonus_paid_once 2 1
                   (Users.mk 2 (Some 1) 0 0 None None)
                   (Users.mk 1 None 0 0 None None)
                   [(Demo.t1, 7, Demo.body); (Demo.t2, 7, Demo.body)]
                   Demo.referred_store _ _ _ _ _ _ _ _ _ _));
    try reflexivity; try lia.
  unfold users_unique. simpl. repeat constructor; simpl; intuition lia.
Defined.

Example three_completions_one_bonus :
  bonus_of 1 (serve_all (completions_by 2 [(Demo.t1, 1, Demo.body)])
                Demo.three_tasks_store) = Some 100
  /\ bonus_of 1 (serve_all (completions_by 2 [(Demo.t1, 1, Demo.body);
                                              (Demo.t1, 2, Demo.body)])
                   Demo.three_tasks_store) = Some 100
  /\ bonus_of 1 (serve_all (completions_by 2 [(Demo.t1, 1, Demo.body);
                                              (Demo.t1, 2, Demo.body);
                                              (Demo.t2, 3, Demo.body)])
                   Demo.three_tasks_store) = Some 100
  /\ balance_of 2 (serve_all (completions_by 2 [(Demo.t1, 1, Demo.body);
                                                (Demo.t1, 2, Demo.body);
                                                (Demo.t2, 3, Demo.body)])
                     Demo.three_tasks_store) = Some 36.
Proof. repeat split; vm_compute; reflexivity. Qed.

(** ** Withdrawals *)

(** C4, as stated, fails: with a balance of 2, a request for 1.5 is accepted,
    the row inserted carries 1 and the balance is debited by 1, not by the
    amount requested. *)
Lemma withdrawal_debits_less_than_requested :
  (0 < amount Demo.one_and_a_half)%Q
  /\ (amount Demo.one_and_a_half <= inject_Z 2)%Q
  /\ balance_of 1 Demo.funded_store = Some 2
  /\ run_outcome (post_withdrawals 1 Demo.one_and_a_half) Demo.funded_store
     = Returned (Json tt)
  /\ balance_of 1 (run_store (post_withdrawals 1 Demo.one_and_a_half)
                     Demo.funded_store)
     = Some 1
  /\ withdrawals (run_store (post_withdrawals 1 Demo.one_and_a_half)
                    Demo.funded_store)
     = [Withdrawals.mk 1 1 "0700000000" "mpesa" "pending"]
  /\ ~ (inject_Z 2 - amount Demo.one_and_a_half == inject_Z 1)%Q.
Proof.
  repeat split; try reflexivity.
  - unfold Qle. simpl. lia.
  - unfold Qeq. simpl. lia.
Qed.

(** C4, as the code has it.  A request that passes the schema is refused
    with the store unchanged when its amount exceeds the user's balance.
    Otherwise the handler, run to its end, inserts exactly one withdrawal
    row with status pending that carries the amount rounded down to a whole
    number, and debits the balance by that whole number, which is the
    requested amount whenever that amount is a whole number.  The insert
    and the debit are two statements, not one transaction: stopped between
    them, the handler leaves the pending row and the balance as it was. *)
Theorem withdrawal_debits_floor_of_amount (uid : Z) (body : withdrawal_body)
    (s : db) (u : Users.row)
    (Huser : lookup_user uid s = Some u)
    (Hschema : schema_ok body = true) :
  let h := post_withdrawals uid body in
  ((inject_Z (Users.balance_ksh u) < amount body)%Q ->
   run_outcome h s = Returned (Error 400 "Insufficient balance")
   /\ run_store h s = s)
  /\ ((amount body <= inject_Z (Users.balance_ksh u))%Q ->
      run_outcome h s = Returned (Json tt)
      /\ withdrawals (run_store h s)
         = withdrawals s
           ++ [Withdrawals.mk uid (Qfloor (amount body)) (phone body)
                 (method body) "pending"]
      /\ balance_of uid (run_store h s)
         = Some (Users.balance_ksh u - Qfloor (amount body))
      /\ 0 <= Users.balance_ksh u - Qfloor (amount body) <= Users.balance_ksh u
      /\ (forall n, (amount body == inject_Z n)%Q -> Qfloor (amount body) = n)
      /\ withdrawals (run_store_upto 1 h s) = withdrawals (run_store h s)
      /\ users (run_store_upto 1 h s) = users s).
Proof.
  intros h.
  assert (Hupto : (amount body <= inject_Z (Users.balance_ksh u))%Q ->
            run_store_upto 1 h s
            = insert_withdrawal uid (Qfloor (amount body)) (phone body)
                (method body) "pending" s).
  { intros Hle. apply Qle_bool_iff in Hle.
    unfold run_store_upto, h, post_withdrawals, try_catch.
    rewrite Hschema. cbn [negb]. rewrite bind_query, Huser, Hle. cbn [negb].
    rewrite bind_run. cbn [option_map Nat.pred]. rewrite bind_run.
    reflexivity. }
  unfold run_outcome, run_store in *. subst h.
  rewrite post_withdrawals_None, Hschema, Huser. cbn [negb].
  split.
  - intros Hlt.
    replace (Qle_bool (amount body) (inject_Z (Users.balance_ksh u))) with false.
    + split; reflexivity.
    + symmetry. apply not_true_iff_false. intros H. apply Qle_bool_iff in H.
      apply Qle_not_lt in H. contradiction.
  - intros Hle. pose proof Hle as Hb. apply Qle_bool_iff in Hb. rewrite Hb.
    cbn [negb fst snd].
    assert (Hpos : (0 < amount body)%Q).
    { unfold schema_ok in Hschema.
      apply andb_true_iff in Hschema. destruct Hschema as [Hs _].
      apply andb_true_iff in Hs. destruct Hs as [Hs _].
      apply negb_true_iff in Hs. apply Qnot_le_lt. intros H.
      apply Qle_bool_iff in H. congruence. }
    assert (Hfloor : 0 <= Qfloor (amount body) <= Users.balance_ksh u).
    { split.
      - rewrite <- (Qfloor_Z 0). apply Qfloor_resp_le. now apply Qlt_le_weak.
      - rewrite <- (Qfloor_Z (Users.balance_ksh u)). now apply Qfloor_resp_le. }
    split; [reflexivity|]. split; [reflexivity|].
    split; [|split; [lia|split; [|rewrite (Hupto Hle); split; reflexivity]]].
    + rewrite balance_of_credit_balance. unfold balance_of.
      change (lookup_user uid (insert_withdrawal _ _ _ _ _ s))
        with (lookup_user uid s).
      rewrite Huser. reflexivity.
    + intros n Hn. rewrite (Qfloor_comp _ _ Hn). apply Qfloor_Z.
Qed.

Lemma withdrawal_debits_floor_of_amount_witness :
  balance_of 1 (run_store (post_withdrawals 1 Demo.one_and_a_half)
                  Demo.funded_store)
  = Some (2 - Qfloor (3 # 2)).
Proof.
  refine (proj1 (proj2 (proj2 (proj2
            (withdrawal_debits_floor_of_amount 1 Demo.one_and_a_half
               Demo.funded_store (Users.mk 1 None 2 0 None None)
               eq_refl eq_refl) _)))).
  unfold Qle. simpl. lia.
Defined.

Example withdrawal_of_150_from_100 :
  run_outcome (post_withdrawals 1 Demo.withdraw_150) Demo.store_100
  = Returned (Error 400 "Insufficient balance")
  /\ run_store (post_withdrawals 1 Demo.withdraw_150) Demo.store_100
     = Demo.store_100.
Proof. split; reflexivity. Qed.

Example withdrawal_of_200_from_500 :
  run_outcome (post_withdrawals 1 Demo.withdraw_200) Demo.store_500
  = Returned (Json tt)
  /\ balance_of 1 (run_store (post_withdrawals 1 Demo.withdraw_200) Demo.store_500)
     = Some 300
  /\ withdrawals (run_store (post_withdrawals 1 Demo.withdraw_200) Demo.store_500)
     = [Withdrawals.mk 1 200 "0700000000" "mpesa" "pending"].
Proof. repeat split; reflexivity. Qed.

(** ** The allocator *)

Lemma filter_none {A : Type} (p : A -> bool) (l : list A) :
  (forall x, In x l -> p x = false) -> filter p l = [].
Proof.
  induction l as [|x l IH]; simpl; intros H; trivial.
  rewrite (H x) by auto. apply IH. auto.
Qed.

Lemma filter_by_id tasks0 t :
  NoDup (map Tasks.id tasks0) -> In t tasks0 ->
  filter (fun x => Tasks.id x =? Tasks.id t) tasks0 = [t].
Proof.
  induction tasks0 as [|x l IH]; simpl; intros Hn Hin; [contradiction|].
  inversion Hn as [|? ? Hx Hl]; subst.
  destruct Hin as [->|Hin].
  - rewrite Z.eqb_refl. f_equal.
    apply filter_none. intros y Hy. apply Z.eqb_neq. intros E. apply Hx.
    rewrite <- E. now apply in_map.
  - destruct (Tasks.id x =? Tasks.id t) eqn:E; [|now apply IH].
    exfalso. apply Hx. apply Z.eqb_eq in E. rewrite E. now apply in_map.
Qed.

Lemma filter_by_id_ids tasks0 k :
  NoDup (map Tasks.id tasks0) ->
  map Tasks.id (filter (fun x => Tasks.id x =? k) tasks0) = [k]
  \/ filter (fun x => Tasks.id x =? k) tasks0 = [].
Proof.
  intros Hn.
  destruct (filter (fun x => Tasks.id x =? k) tasks0) as [|t l] eqn:E; [now right|].
  left.
  assert (Ht : In t (filter (fun x => Tasks.id x =? k) tasks0))
    by (rewrite E; now left).
  apply filter_In in Ht. destruct Ht as [Hin Hk]. apply Z.eqb_eq in Hk.
  subst k. rewrite (filter_by_id tasks0 t Hn Hin) in E.
  injection E as <-. reflexivity.
Qed.

Lemma is_assignment_key uid today d :
  is_assignment uid today d = true ->
  assignment_key d = (uid, today, DailyTasks.task_id d).
Proof.
  unfold is_assignment, assignment_key. intros H.
  apply andb_true_iff in H. destruct H as [Hu Hd].
  apply Z.eqb_eq in Hu. apply String.eqb_eq in Hd. now rewrite Hu, Hd.
Qed.

Lemma assignments_task_ids_NoDup uid today s :
  daily_tasks_unique s ->
  NoDup (map DailyTasks.task_id (assignments_of uid today s)).
Proof.
  unfold daily_tasks_unique, assignments_of. intros H.
  apply (NoDup_map_filter assignment_key (is_assignment uid today)) in H.
  apply (NoDup_map_inv (fun k => (uid, today, k))).
  rewrite map_map.
  erewrite map_ext_in; [exact H|].
  intros d Hd. apply filter_In in Hd. symmetry. now apply is_assignment_key.
Qed.

Lemma existing_tasks_ids uid today s :
  tasks_unique s ->
  NoDup (map DailyTasks.task_id (assignments_of uid today s)) ->
  NoDup (map Tasks.id (existing_tasks uid today s)).
Proof.
  unfold existing_tasks, assignments_of, tasks_unique. intros Ht.
  induction (filter (is_assignment uid today) (daily_tasks s)) as [|d l IH];
    simpl; intros Hn; [constructor|].
  inversion Hn as [|? ? Hd Hl]; subst.
  rewrite map_app.
  destruct (filter_by_id_ids (tasks s) (DailyTasks.task_id d) Ht) as [E|E];
    rewrite E; simpl; [|now apply IH].
  constructor; [|now apply IH].
  intros Hin. apply Hd. clear - Hin.
  induction l as [|d' l IH]; simpl in *; [contradiction|].
  rewrite map_app in Hin. apply in_app_or in Hin. destruct Hin as [Hin|Hin].
  - left. apply in_map_iff in Hin. destruct Hin as [t [Hid Hin]].
    apply filter_In in Hin. destruct Hin as [_ Hin]. apply Z.eqb_eq in Hin.
    congruence.
  - right. now apply IH.
Qed.

Lemma NoDup_firstn {A : Type} (n : nat) (l : list A) :
  NoDup l -> NoDup (firstn n l).
Proof.
  intros H. rewrite <- (firstn_skipn n l) in H.
  now apply NoDup_app_remove_r in H.
Qed.

Lemma pick_tasks_ids shuffle s :
  (forall l, Permutation (shuffle l) l) -> tasks_unique s ->
  NoDup (map Tasks.id (pick_tasks shuffle s)).
Proof.
  intros Hp Ht. unfold pick_tasks. rewrite <- firstn_map. apply NoDup_firstn.
  eapply Permutation_NoDup.
  - apply Permutation_sym, Permutation_map, Hp.
  - now apply NoDup_map_filter.
Qed.

Lemma pick_tasks_length shuffle s :
  (forall l, Permutation (shuffle l) l) ->
  List.length (pick_tasks shuffle s)
  = Nat.min 5 (List.length (filter is_active (tasks s))).
Proof.
  intros Hp. unfold pick_tasks. rewrite length_firstn.
  now rewrite (Permutation_length (Hp _)).
Qed.

Lemma pick_tasks_all shuffle s :
  (forall l, Permutation (shuffle l) l) ->
  (List.length (pick_tasks shuffle s) < 5)%nat ->
  pick_tasks shuffle s = shuffle (filter is_active (tasks s)).
Proof.
  intros Hp Hl. rewrite pick_tasks_length in Hl by exact Hp.
  unfold pick_tasks. apply firstn_all2.
  rewrite (Permutation_length (Hp _)). lia.
Qed.

(** C5, as stated, fails: from a catalog whose two active tasks are both of
    category "transcription", the allocator returns both. *)
Lemma ensureDailyTasks_repeats_a_category :
  run_outcome (ensureDailyTasks Demo.in_order Demo.t1 1) Demo.transcription_store
  = Returned [Demo.audio1; Demo.video2]
  /\ Tasks.category Demo.audio1 = Tasks.category Demo.video2
  /\ Tasks.id Demo.audio1 <> Tasks.id Demo.video2
  /\ daily_tasks (run_store (ensureDailyTasks Demo.in_order Demo.t1 1)
                    Demo.transcription_store)
     = [DailyTasks.mk 1 "2026-01-18" 1; DailyTasks.mk 1 "2026-01-18" 2].
Proof. repeat split; try reflexivity. simpl. lia. Qed.

(** C5, as the code has it.  For every user and instant, whatever order the
    random draw gives, the allocator returns at most 5 tasks and no task
    twice; it takes no account of categories.  It returns fewer than 5 only
    when the catalog has fewer than 5 active tasks, and then it returns all
    of them. *)
Theorem ensureDailyTasks_at_most_five_distinct_tasks
    (shuffle : list Tasks.row -> list Tasks.row) (now uid : Z) (s : db)
    (Hshuffle : forall l, Permutation (shuffle l) l)
    (Htasks : tasks_unique s)
    (Hdaily : daily_tasks_unique s) :
  exists l,
    run_outcome (ensureDailyTasks shuffle now uid) s = Returned l
    /\ (List.length l <= 5)%nat
    /\ NoDup (map Tasks.id l)
    /\ ((List.length l < 5)%nat ->
        (List.length (filter is_active (tasks s)) < 5)%nat
        /\ Permutation l (filter is_active (tasks s))).
Proof.
  unfold run_outcome. rewrite ensureDailyTasks_None. cbv zeta.
  destruct (5 <=? List.length (existing_tasks uid (Clock.dayUTC now) s))%nat eqn:E.
  - apply Nat.leb_le in E.
    exists (firstn 5 (existing_tasks uid (Clock.dayUTC now) s)).
    split; [reflexivity|]. rewrite length_firstn.
    split; [lia|]. split; [|lia].
    rewrite <- firstn_map. apply NoDup_firstn.
    apply existing_tasks_ids; trivial. now apply assignments_task_ids_NoDup.
  - exists (pick_tasks shuffle s). split; [reflexivity|].
    pose proof (pick_tasks_length shuffle s Hshuffle) as Hl.
    split; [lia|]. split; [now apply pick_tasks_ids|].
    intros Hlt. split; [lia|].
    rewrite pick_tasks_all by trivial. apply Hshuffle.
Qed.

Lemma ensureDailyTasks_at_most_five_distinct_tasks_witness :
  exists l,
    run_outcome (ensureDailyTasks Demo.reversed Demo.t1 1) Demo.transcription_store
    = Returned l
    /\ (List.length l <= 5)%nat
    /\ NoDup (map Tasks.id l)
    /\ ((List.length l < 5)%nat ->
        (List.length (filter is_active (tasks Demo.transcription_store)) < 5)%nat
        /\ Permutation l (filter is_active (tasks Demo.transcription_store))).
Proof.
  apply (ensureDailyTasks_at_most_five_distinct_tasks Demo.reversed Demo.t1 1
           Demo.transcription_store).
  - intros l. apply Permutation_sym, Permutation_rev.
  - unfold tasks_unique. simpl. repeat constructor; simpl; intuition lia.
  - unfold daily_tasks_unique. simpl. constructor.
Defined.

Lemma existsb_filter {A : Type} (p q : A -> bool) (l : list A) :
  existsb (fun x => p x && q x) l = existsb q (filter p l).
Proof.
  induction l as [|x l IH]; simpl; trivial.
  destruct (p x); simpl; now rewrite IH.
Qed.

Lemma is_assignment_mk uid today tid :
  is_assignment uid today (DailyTasks.mk uid today tid) = true.
Proof.
  unfold is_assignment. simpl. now rewrite Z.eqb_refl, String.eqb_refl.
Qed.

Lemma insert_assignments uid today (done : list Tasks.row) t s0 :
  assignments_of uid today s0
  = map (fun t => DailyTasks.mk uid today (Tasks.id t)) done ->
  ~ In (Tasks.id t) (map Tasks.id done) ->
  assignments_of uid today (insert_or_ignore_daily_task uid today (Tasks.id t) s0)
  = map (fun t => DailyTasks.mk uid today (Tasks.id t)) (done ++ [t]).
Proof.
  intros Hdone Hnew. unfold insert_or_ignore_daily_task.
  rewrite existsb_filter. fold (assignments_of uid today s0). rewrite Hdone.
  replace (existsb _ (map _ done)) with false.
  - unfold assignments_of in *. simpl. rewrite filter_app, Hdone, map_app.
    simpl. now rewrite is_assignment_mk.
  - symmetry. apply not_true_iff_false. intros H. apply existsb_exists in H.
    destruct H as [d [Hd E]]. apply in_map_iff in Hd.
    destruct Hd as [t' [<- Ht']]. simpl in E. apply Z.eqb_eq in E.
    apply Hnew. rewrite <- E. now apply in_map.
Qed.

Lemma allocate_assignments uid today picked s :
  NoDup (map Tasks.id picked) ->
  assignments_of uid today (allocate uid today picked s)
  = map (fun t => DailyTasks.mk uid today (Tasks.id t)) picked.
Proof.
  intros Hn. unfold allocate.
  assert (H : forall l done s0,
            assignments_of uid today s0
            = map (fun t => DailyTasks.mk uid today (Tasks.id t)) done ->
            NoDup (map Tasks.id (done ++ l)) ->
            assignments_of uid today
              (fold_left
                 (fun s t => insert_or_ignore_daily_task uid today (Tasks.id t) s)
                 l s0)
            = map (fun t => DailyTasks.mk uid today (Tasks.id t)) (done ++ l)).
  { induction l as [|t l IH]; intros done s0 Hdone Hnd; simpl.
    - now rewrite app_nil_r.
    - replace (done ++ t :: l) with ((done ++ [t]) ++ l) in *
        by (rewrite <- app_assoc; reflexivity).
      apply IH; [|exact Hnd].
      apply insert_assignments; trivial.
      rewrite !map_app in Hnd. apply NoDup_app_remove_r in Hnd.
      apply NoDup_remove_2 in Hnd. now rewrite app_nil_r in Hnd. }
  apply (H picked [] (delete_daily_tasks_on uid today s)); [|exact Hn].
  unfold assignments_of, delete_daily_tasks_on, delete_where. simpl.
  rewrite filter_filter. apply filter_none. intros d _.
  now destruct (is_assignment uid today d).
Qed.

Lemma existing_tasks_allocate uid today picked s :
  tasks_unique s -> NoDup (map Tasks.id picked) ->
  (forall t, In t picked -> In t (tasks s)) ->
  existing_tasks uid today (allocate uid today picked s) = picked.
Proof.
  intros Ht Hn Hin. unfold existing_tasks.
  fold (assignments_of uid today (allocate uid today picked s)).
  rewrite allocate_assignments by exact Hn.
  destruct (allocate_frame uid today picked s) as [_ [-> _]].
  clear Hn. induction picked as [|t l IH]; simpl; trivial.
  rewrite (filter_by_id (tasks s) t Ht) by (apply Hin; now left).
  simpl. f_equal. apply IH. intros t' Ht'. apply Hin. now right.
Qed.

Lemma pick_tasks_same_catalog shuffle s s' :
  tasks s' = tasks s -> pick_tasks shuffle s' = pick_tasks shuffle s.
Proof. unfold pick_tasks. now intros ->. Qed.

Lemma pick_tasks_In shuffle s t :
  (forall l, Permutation (shuffle l) l) ->
  In t (pick_tasks shuffle s) -> In t (tasks s).
Proof.
  intros Hp Hin. unfold pick_tasks in Hin.
  assert (Hin' : In t (shuffle (filter is_active (tasks s)))).
  { rewrite <- (firstn_skipn 5 (shuffle _)). apply in_or_app. now left. }
  apply (Permutation_in _ (Hp _)) in Hin'. now apply filter_In in Hin'.
Qed.

(** C6, as stated, fails: three tasks are assigned from a catalog of three;
    the catalog then grows to six, and the next call on the same day
    deletes the three assignments and draws five afresh, task 1 no longer
    among them. *)
Lemma allocation_is_redrawn_after_catalog_change :
  run_outcome (ensureDailyTasks Demo.in_order Demo.t1 1) Demo.small_catalog_store
  = Returned [Demo.caption 1; Demo.caption 2; Demo.caption 3]
  /\ daily_tasks Demo.after_catalog_change
     = [DailyTasks.mk 1 "2026-01-18" 1; DailyTasks.mk 1 "2026-01-18" 2;
        DailyTasks.mk 1 "2026-01-18" 3]
  /\ run_outcome (ensureDailyTasks Demo.reversed Demo.t2 1)
       Demo.after_catalog_change
     = Returned [Demo.caption 6; Demo.caption 5; Demo.caption 4;
                 Demo.caption 3; Demo.caption 2]
  /\ daily_tasks (run_store (ensureDailyTasks Demo.reversed Demo.t2 1)
                    Demo.after_catalog_change)
     = [DailyTasks.mk 1 "2026-01-18" 6; DailyTasks.mk 1 "2026-01-18" 5;
        DailyTasks.mk 1 "2026-01-18" 4; DailyTasks.mk 1 "2026-01-18" 3;
        DailyTasks.mk 1 "2026-01-18" 2].
Proof. repeat split; vm_compute; reflexivity. Qed.

(** C6, as the code has it.  With the catalog unchanged, two calls in a row
    for the same user on the same UTC day return the same tasks, up to
    their order, whatever the random draws.  The allocation is frozen once
    5 assignments exist for the day: the call then writes nothing and
    returns them as they are.  With fewer than 5, every call deletes the
    day's assignments of the user and draws them afresh from the tasks
    that are active at that moment. *)
Theorem ensureDailyTasks_twice_in_a_row
    (shuffle1 shuffle2 : list Tasks.row -> list Tasks.row)
    (now1 now2 uid : Z) (s : db)
    (Hshuffle1 : forall l, Permutation (shuffle1 l) l)
    (Hshuffle2 : forall l, Permutation (shuffle2 l) l)
    (Htasks : tasks_unique s)
    (Hday : Clock.dayUTC now1 = Clock.dayUTC now2) :
  let h1 := ensureDailyTasks shuffle1 now1 uid in
  let h2 := ensureDailyTasks shuffle2 now2 uid in
  let today := Clock.dayUTC now1 in
  (exists l1 l2,
     run_outcome h1 s = Returned l1
     /\ run_outcome h2 (run_store h1 s) = Returned l2
     /\ Permutation l1 l2)
  /\ ((5 <= List.length (existing_tasks uid today s))%nat ->
      run_store h1 s = s
      /\ run_outcome h1 s = Returned (firstn 5 (existing_tasks uid today s)))
  /\ ((List.length (existing_tasks uid today s) < 5)%nat ->
      run_outcome h1 s = Returned (pick_tasks shuffle1 s)
      /\ assignments_of uid today (run_store h1 s)
         = map (fun t => DailyTasks.mk uid today (Tasks.id t))
             (pick_tasks shuffle1 s)).
Proof.
  cbv zeta. unfold run_outcome, run_store.
  rewrite (ensureDailyTasks_None shuffle1 now1 uid s). cbv zeta.
  pose proof (pick_tasks_ids shuffle1 s Hshuffle1 Htasks) as Hids.
  destruct (5 <=? List.length (existing_tasks uid (Clock.dayUTC now1) s))%nat eqn:E.
  - apply Nat.leb_le in E. cbn [fst snd]. rewrite ensureDailyTasks_None.
    cbv zeta. rewrite <- Hday.
    replace (5 <=? List.length (existing_tasks uid (Clock.dayUTC now1) s))%nat
      with true by (symmetry; now apply Nat.leb_le).
    split; [|split; [auto|lia]].
    exists (firstn 5 (existing_tasks uid (Clock.dayUTC now1) s)),
           (firstn 5 (existing_tasks uid (Clock.dayUTC now1) s)).
    split; [reflexivity|]. split; [reflexivity|apply Permutation_refl].
  - apply Nat.leb_gt in E. cbn [fst snd].
    split; [|split; [lia|]].
    + exists (pick_tasks shuffle1 s). rewrite ensureDailyTasks_None.
      cbv zeta. rewrite <- Hday.
      rewrite existing_tasks_allocate; trivial;
        [|intros t; now apply pick_tasks_In].
      assert (Hsame : pick_tasks shuffle2
                        (allocate uid (Clock.dayUTC now1) (pick_tasks shuffle1 s) s)
                      = pick_tasks shuffle2 s).
      { apply pick_tasks_same_catalog.
        now destruct (allocate_frame uid (Clock.dayUTC now1)
                        (pick_tasks shuffle1 s) s) as [_ [? _]]. }
      destruct (5 <=? List.length (pick_tasks shuffle1 s))%nat eqn:E1.
      * apply Nat.leb_le in E1.
        pose proof (pick_tasks_length shuffle1 s Hshuffle1) as Hl.
        exists (firstn 5 (pick_tasks shuffle1 s)). cbn [fst].
        split; [reflexivity|]. split; [reflexivity|].
        rewrite firstn_all2 by lia. apply Permutation_refl.
      * apply Nat.leb_gt in E1.
        exists (pick_tasks shuffle2 s). cbn [fst]. rewrite Hsame.
        split; [reflexivity|]. split; [reflexivity|].
        pose proof (pick_tasks_length shuffle1 s Hshuffle1) as Hl1.
        pose proof (pick_tasks_length shuffle2 s Hshuffle2) as Hl2.
        rewrite (pick_tasks_all shuffle1 s) by trivial.
        rewrite (pick_tasks_all shuffle2 s) by (trivial; lia).
        eapply Permutation_trans; [apply Hshuffle1|].
        apply Permutation_sym, Hshuffle2.
    + intros _. split; [reflexivity|]. now apply allocate_assignments.
Qed.

Lemma ensureDailyTasks_twice_in_a_row_witness :
  exists l1 l2,
    run_outcome (ensureDailyTasks Demo.in_order Demo.t1 1) Demo.small_catalog_store
    = Returned l1
    /\ run_outcome (ensureDailyTasks Demo.reversed Demo.t2 1)
         (run_store (ensureDailyTasks Demo.in_order Demo.t1 1)
            Demo.small_catalog_store)
       = Returned l2
    /\ Permutation l1 l2.
Proof.
  refine (proj1 (ensureDailyTasks_twice_in_a_row Demo.in_order Demo.reversed
                   Demo.t1 Demo.t2 1 Demo.small_catalog_store _ _ _ _)).
  - intros l. apply Permutation_refl.
  - intros l. apply Permutation_sym, Permutation_rev.
  - unfold tasks_unique. simpl. repeat constructor; simpl; intuition lia.
  - reflexivity.
Defined.

(** ** Balances never go below zero, wherever a handler stops *)

Section Keeps.
Variable I : db -> Prop.

Lemma keeps_ret {A : Type} (P : db -> Prop) (a : A) (Q : A -> db -> Prop) :
  (forall s, I s -> P s -> Q a s) -> keeps I P (ret a) Q.
Proof.
  intros H f s HI HP. unfold ret. simpl. split; trivial.
  intros a' f' E. injection E as Ea Ef. subst a'. auto.
Qed.

Lemma keeps_throw {A : Type} (P : db -> Prop) (Q : A -> db -> Prop) :
  keeps I P (@throw A) Q.
Proof.
  intros f s HI HP. unfold throw. simpl. split; trivial. intros a f' [=].
Qed.

Lemma keeps_query {A : Type} (P : db -> Prop) (q : db -> A) :
  keeps I P (query q) (fun a s => P s /\ a = q s).
Proof.
  intros f s HI HP. unfold query. simpl. split; trivial.
  intros a f' E. injection E as Ea Ef. subst a. auto.
Qed.

Lemma keeps_run_checked (P : db -> Prop) stmt (Q : unit -> db -> Prop) :
  (forall s s', I s -> P s -> stmt s = Some s' -> I s' /\ Q tt s') ->
  keeps I P (run_checked stmt) Q.
Proof.
  intros H f s HI HP. unfold run_checked.
  destruct f as [[|k]|]; simpl.
  - split; trivial. intros a f' [=].
  - destruct (stmt s) as [s'|] eqn:E; simpl.
    + destruct (H s s' HI HP E). split; trivial. now intros [] f' _.
    + split; trivial. intros a f' [=].
  - destruct (stmt s) as [s'|] eqn:E; simpl.
    + destruct (H s s' HI HP E). split; trivial. now intros [] f' _.
    + split; trivial. intros a f' [=].
Qed.

Lemma keeps_run (P : db -> Prop) stmt (Q : unit -> db -> Prop) :
  (forall s, I s -> P s -> I (stmt s) /\ Q tt (stmt s)) ->
  keeps I P (run stmt) Q.
Proof.
  intros H. apply keeps_run_checked. intros s s' HI HP [= <-]. auto.
Qed.

Lemma keeps_bind {A B : Type} (P : db -> Prop) (m : M A) (Q : A -> db -> Prop)
    (k : A -> M B) (R : B -> db -> Prop) :
  keeps I P m Q -> (forall a, keeps I (Q a) (k a) R) -> keeps I P (bind m k) R.
Proof.
  intros Hm Hk f s HI HP. unfold bind.
  destruct (Hm f s HI HP) as [HI1 HQ].
  destruct (m f s) as [[[a| |] f1] s1]; simpl in *.
  - apply Hk; trivial. now apply (HQ a f1).
  - split; trivial. intros a f' [=].
  - split; trivial. intros a f' [=].
Qed.

Lemma keeps_weaken {A : Type} (P P' : db -> Prop) (m : M A)
    (Q Q' : A -> db -> Prop) :
  keeps I P m Q -> (forall s, I s -> P' s -> P s) ->
  (forall a s, I s -> Q a s -> Q' a s) -> keeps I P' m Q'.
Proof.
  intros H HP HQ f s HI HP'. destruct (H f s HI (HP s HI HP')) as [HI1 H1].
  split; trivial. intros a f' E. apply HQ; trivial. now apply (H1 a f').
Qed.


Lemma keeps_for_of {A : Type} (P : db -> Prop) (l : list A) (body : A -> M unit) :
  (forall x, keeps I P (body x) (fun _ => P)) ->
  keeps I P (for_of l body) (fun _ => P).
Proof.
  intros H. induction l as [|x l IH]; simpl.
  - apply keeps_ret. auto.
  - eapply keeps_bind; [apply H|]. intros []. exact IH.
Qed.

Lemma keeps_try_catch {A : Type} (P : db -> Prop) (m h : M A)
    (Q : A -> db -> Prop) :
  keeps I P m Q -> keeps I (fun _ => True) h Q -> keeps I P (try_catch m h) Q.
Proof.
  intros Hm Hh f s HI HP. unfold try_catch.
  destruct (Hm f s HI HP) as [HI1 HQ].
  destruct (m f s) as [[[a| |] f1] s1]; simpl in *.
  - split; trivial.
  - now apply Hh.
  - split; trivial.
Qed.
End Keeps.

(** Every statement keeps the ledger in order. *)









Section Safe.
Context {A B : Type}.







End Safe.
















(** ** Requests that overlap *)

(** The handlers read statement by statement are the handlers above. *)
Lemma alone_withdrawal_steps uid body f s :
  alone (withdrawal_steps uid body) f s = post_withdrawals uid body f s.
Proof.
  unfold withdrawal_steps, post_withdrawals, try_catch.
  destruct (negb (schema_ok body)); [reflexivity|].
  cbn [alone]. unfold bind, query.
  destruct (lookup_user uid s) as [u|]; [|reflexivity].
  destruct (negb (Qle_bool (amount body) (inject_Z (Users.balance_ksh u))));
    [reflexivity|].
  cbn [alone]. unfold bind, run, run_checked, ret.
  destruct f as [[|[|k]]|]; reflexivity.
Qed.

Lemma alone_redeem_steps uid f s :
  alone (redeem_steps uid) f s = post_referrals_redeem uid f s.
Proof.
  unfold redeem_steps, post_referrals_redeem.
  cbn [alone]. unfold bind, query.
  destruct (lookup_user uid s) as [u|]; [|reflexivity].
  destruct (Users.bonus_ksh u <? redeem_block); [reflexivity|].
  cbn [alone]. unfold bind, run, run_checked, query, ret.
  destruct f as [[|k]|]; reflexivity.
Qed.

(** A turn is the next statement of the handler. *)
Lemma advance_alone {A : Type} (p : steps A) s :
  alone p None s = alone (fst (advance p s)) None (snd (advance p s)).
Proof. destruct p; reflexivity. Qed.

(** A handler that has the event loop to itself runs to its answer, and
    leaves the store of the handler served alone. *)
Lemma event_loop_alone {A : Type} (p : steps A) s :
  exists n a,
    event_loop (repeat 0%nat n) [p] s = ([Sent a], run_store (alone p) s)
    /\ run_outcome (alone p) s = Returned a.
Proof.
  revert s. induction p as [a|B q k IH|stmt k IH]; intros s.
  - exists 0%nat, a. split; reflexivity.
  - destruct (IH (q s) s) as [n [a [E1 E2]]].
    exists (S n), a. split; [exact E1|exact E2].
  - destruct (IH (stmt s)) as [n [a [E1 E2]]].
    exists (S n), a. split; [exact E1|exact E2].
Qed.

(** C8.  Balances and bonus balances do go below zero when two requests
    of one user overlap.  The handler reads the balance, checks it and
    then debits it in separate statements, with no transaction, so a
    second withdrawal that reads the balance before the first has debited
    it passes the same check.  User 1 of [Demo.after_first] has earned 10
    by a completion; two withdrawals of 10, the second read before the
    debit of the first, are both answered [{ ok: true }], leave two
    pending requests of 10 and a balance of -10.  Two redemptions that
    overlap in the same way on a bonus of 1000 leave a bonus of -1000.
    The same requests one after the other leave neither below zero: the
    second is refused. *)
Theorem overlapping_requests_overdraw :
  let w := withdrawal_steps 1 Cases.withdraw_10 in
  let overlap := [0; 1; 0; 0; 1; 1]%nat in
  let in_turn := [0; 0; 0; 1; 1; 1]%nat in
  (ledger_ok Demo.after_first
   /\ balance_of 1 Demo.after_first = Some 10
   /\ fst (event_loop overlap [w; w] Demo.after_first)
      = [Sent (Json tt); Sent (Json tt)]
   /\ balance_of 1 (snd (event_loop overlap [w; w] Demo.after_first))
      = Some (-10)
   /\ map Withdrawals.amount_ksh
          (withdrawals (snd (event_loop overlap [w; w] Demo.after_first)))
      = [10; 10]
   /\ ~ balances_nonneg (snd (event_loop overlap [w; w] Demo.after_first)))
  /\ (ledger_ok Cases.bonus_store
      /\ fst (event_loop overlap [redeem_steps 1; redeem_steps 1]
                 Cases.bonus_store)
         = [Sent (Json (Some (1000, 0))); Sent (Json (Some (2000, -1000)))]
      /\ bonus_of 1 (snd (event_loop overlap [redeem_steps 1; redeem_steps 1]
                            Cases.bonus_store))
         = Some (-1000)
      /\ ~ balances_nonneg
            (snd (event_loop overlap [redeem_steps 1; redeem_steps 1]
                    Cases.bonus_store)))
  /\ (event_loop in_turn [w; w] Demo.after_first
      = ([Sent (Json tt); Sent (Error 400 "Insufficient balance")],
         serve_all [PostWithdrawal 1 Cases.withdraw_10;
                    PostWithdrawal 1 Cases.withdraw_10] Demo.after_first)
      /\ balance_of 1 (snd (event_loop in_turn [w; w] Demo.after_first))
         = Some 0).
Proof.
  cbv zeta. split; [|split].
  - split; [|split; [vm_compute; reflexivity|]].
    { split; [|split].
      - unfold users_unique. vm_compute. repeat constructor. simpl. tauto.
      - intros t Ht. vm_compute in Ht. destruct Ht as [<-|[]]. simpl. lia.
      - intros u Hu. vm_compute in Hu. destruct Hu as [<-|[]]. simpl. lia. }
    split; [vm_compute; reflexivity|]. split; [vm_compute; reflexivity|].
    split; [vm_compute; reflexivity|].
    intros H.
    specialize (H (Users.mk 1 None (-10) 0 None None)).
    assert (Hin : In (Users.mk 1 None (-10) 0 None None)
                     (users (snd (event_loop [0; 1; 0; 0; 1; 1]%nat
                                    [withdrawal_steps 1 Cases.withdraw_10;
                                     withdrawal_steps 1 Cases.withdraw_10]
                                    Demo.after_first))))
      by (vm_compute; left; reflexivity).
    specialize (H Hin). cbn [Users.balance_ksh Users.bonus_ksh] in H. lia.
  - split.
    { split; [|split].
      - unfold users_unique. simpl. repeat constructor. simpl. tauto.
      - intros t [].
      - intros u [<-|[]]. simpl. lia. }
    split; [vm_compute; reflexivity|]. split; [vm_compute; reflexivity|].
    intros H.
    specialize (H (Users.mk 1 None 2000 (-1000) None None)).
    assert (Hin : In (Users.mk 1 None 2000 (-1000) None None)
                     (users (snd (event_loop [0; 1; 0; 0; 1; 1]%nat
                                    [redeem_steps 1; redeem_steps 1]
                                    Cases.bonus_store))))
      by (vm_compute; left; reflexivity).
    specialize (H Hin). cbn [Users.balance_ksh Users.bonus_ksh] in H. lia.
  - split; vm_compute; reflexivity.
Qed.

(** * Further properties of the handlers *)

(** ** Sweeps of the reaper *)

Lemma memZ_app x a b : memZ x (a ++ b) = memZ x a || memZ x b.
Proof. unfold memZ. apply existsb_app. Qed.

Lemma purged_ext a b s :
  (forall x, memZ x a = memZ x b) -> purged a s = purged b s.
Proof.
  intros H. unfold purged. f_equal; apply filter_ext; intros x;
    now rewrite ?H.
Qed.

Lemma purged_app a b s : purged b (purged a s) = purged (a ++ b) s.
Proof.
  unfold purged. simpl. f_equal; rewrite filter_filter; apply filter_ext;
    intros x; rewrite ?memZ_app;
    repeat match goal with |- context [memZ ?y ?l] => destruct (memZ y l) end;
    reflexivity.
Qed.

Lemma doomed_iff now s x :
  memZ x (doomed now s) = true
  <-> exists u, In u (users s) /\ is_doomed now u = true /\ Users.id u = x.
Proof.
  rewrite memZ_In. unfold doomed. rewrite in_map_iff. split.
  - intros [u [E Hin]]. apply filter_In in Hin. exists u. tauto.
  - intros [u [Hin [Hd E]]]. exists u. split; trivial. apply filter_In. tauto.
Qed.

Lemma is_doomed_later now now' u :
  now <= now' -> is_doomed now u = true -> is_doomed now' u = true.
Proof.
  unfold is_doomed, Clock.sql_datetime. intros Hle.
  destruct (Users.delete_effective_at u) as [e|]; trivial.
  rewrite !Z.leb_le. intros H.
  assert (now / 1000 <= now' / 1000) by (apply Z.div_le_mono; lia). lia.
Qed.

Lemma users_purged ids s u :
  In u (users (purged ids s)) <-> In u (users s) /\ memZ (Users.id u) ids = false.
Proof.
  unfold purged. simpl. rewrite filter_In, negb_true_iff. tauto.
Qed.

Lemma sweep_sweep now now' s :
  now <= now' -> sweep now' (sweep now s) = sweep now' s.
Proof.
  intros Hle. unfold sweep at 1 3. unfold sweep. rewrite purged_app.
  apply purged_ext. intros x. rewrite memZ_app.
  apply eq_true_iff_eq. rewrite orb_true_iff, !doomed_iff. split.
  - intros [[u [Hin [Hd E]]]|[u [Hin [Hd E]]]].
    + exists u. eauto using is_doomed_later.
    + apply users_purged in Hin. exists u. tauto.
  - intros [u [Hin [Hd E]]].
    destruct (memZ x (doomed now s)) eqn:Hx.
    + left. now apply doomed_iff.
    + right. exists u. split; [|tauto]. apply users_purged. subst x. tauto.
Qed.

(** X1.  A sweep of the reaper makes up for every sweep before it: running
    it after an earlier sweep leaves the store a single run leaves, and in
    particular a second sweep at the same instant removes nothing more.
    A sweep also removes rows only: every row it leaves was there before,
    and the catalog is not touched. *)
Theorem purge_absorbs_earlier_purge (now now' : Z) (s : db)
    (Hle : now <= now') :
  let once := run_store (purgeDeletedAccounts now') s in
  run_store (purgeDeletedAccounts now') (run_store (purgeDeletedAccounts now) s)
  = once
  /\ run_store (purgeDeletedAccounts now') once = once
  /\ doomed now' once = []
  /\ incl (users once) (users s)
  /\ incl (task_completions once) (task_completions s)
  /\ incl (withdrawals once) (withdrawals s)
  /\ incl (daily_tasks once) (daily_tasks s)
  /\ incl (referral_rewards once) (referral_rewards s)
  /\ tasks once = tasks s.
Proof.
  cbv zeta. unfold run_store. rewrite !purge_None. cbn [snd].
  split; [now apply sweep_sweep|].
  split; [apply sweep_sweep; lia|].
  split.
  - destruct (doomed now' (sweep now' s)) as [|x l] eqn:E; trivial.
    assert (Hx : memZ x (doomed now' (sweep now' s)) = true).
    { rewrite E. unfold memZ. simpl. now rewrite Z.eqb_refl. }
    apply doomed_iff in Hx. destruct Hx as [u [Hin [Hd Hid]]].
    apply users_purged in Hin. destruct Hin as [Hin Hnot].
    assert (memZ (Users.id u) (doomed now' s) = true).
    { apply doomed_iff. eauto. }
    congruence.
  - unfold sweep, purged. simpl.
    repeat split; try (intros x Hx; apply filter_In in Hx; tauto).
Qed.

Lemma purge_absorbs_earlier_purge_witness :
  let s := mkDb [Users.mk 1 None 40 0 (Some 1000) (Some 2000);
                 Users.mk 2 (Some 1) 10 0 (Some 4000) (Some 5000)]
                [] [] [TaskCompletions.mk 2 7 10 "hello" 1] [] [] in
  run_store (purgeDeletedAccounts 6000) (run_store (purgeDeletedAccounts 3000) s)
  = run_store (purgeDeletedAccounts 6000) s.
Proof.
  cbv zeta. refine (proj1 (purge_absorbs_earlier_purge 3000 6000 _ _)). lia.
Defined.

(** ** A deletion request and the sweeps after it *)

Lemma get_me_None now uid s :
  get_me now uid None s
  = (Returned (match lookup_user uid (sweep now s) with
               | Some u => Json u
               | None => Error 200 "User not found"
               end), None, sweep now s).
Proof.
  unfold get_me, bind at 1. now rewrite purge_None, bind_query.
Qed.

Lemma not_doomed_of_lookup now s uid u :
  users_unique s -> lookup_user uid s = Some u -> is_doomed now u = false ->
  memZ uid (doomed now s) = false.
Proof.
  intros Hun Hu Hd. destruct (memZ uid (doomed now s)) eqn:E; trivial.
  apply doomed_iff in E. destruct E as [v [Hin [Hv Hid]]].
  rewrite (lookup_user_unique uid s u v Hun Hu Hin Hid) in Hv. congruence.
Qed.

Lemma doomed_of_lookup now s uid u :
  lookup_user uid s = Some u -> is_doomed now u = true ->
  memZ uid (doomed now s) = true.
Proof.
  intros Hu Hd. apply doomed_iff. exists u.
  eauto using lookup_user_In, lookup_user_id.
Qed.

Lemma sweep_lookup_kept now s uid :
  memZ uid (doomed now s) = false ->
  lookup_user uid (sweep now s) = lookup_user uid s.
Proof.
  intros Hm. unfold lookup_user, sweep, purged. simpl.
  induction (users s) as [|v l IH]; simpl; trivial.
  destruct (Users.id v =? uid) eqn:E.
  - assert (Hv : memZ (Users.id v) (doomed now s) = false).
    { apply Z.eqb_eq in E. now rewrite E. }
    rewrite Hv. simpl. now rewrite E.
  - destruct (memZ (Users.id v) (doomed now s)); simpl; trivial.
    now rewrite E.
Qed.

Lemma sweep_lookup_gone now s uid :
  memZ uid (doomed now s) = true -> lookup_user uid (sweep now s) = None.
Proof.
  intros Hm. unfold lookup_user. apply find_none_filter, filter_none.
  intros v Hv. apply users_purged in Hv. destruct Hv as [_ Hv].
  destruct (Users.id v =? uid) eqn:E; trivial.
  apply Z.eqb_eq in E. congruence.
Qed.

Lemma sweep_completions_gone now s uid :
  memZ uid (doomed now s) = true -> completions_of uid (sweep now s) = [].
Proof.
  intros Hm. unfold completions_of, sweep, purged. simpl.
  rewrite filter_filter. apply filter_none. intros c _.
  destruct (TaskCompletions.user_id c =? uid) eqn:E;
    [|now rewrite andb_false_r].
  apply Z.eqb_eq in E. now rewrite E, Hm.
Qed.

(** The withdrawal requests of a user. *)
Lemma sweep_withdrawals_gone now s uid :
  memZ uid (doomed now s) = true ->
  filter (fun w => Withdrawals.user_id w =? uid) (withdrawals (sweep now s)) = [].
Proof.
  intros Hm. unfold sweep, purged. simpl.
  rewrite filter_filter. apply filter_none. intros c _.
  destruct (Withdrawals.user_id c =? uid) eqn:E;
    [|now rewrite andb_false_r].
  apply Z.eqb_eq in E. now rewrite E, Hm.
Qed.

Lemma sweep_withdrawals_kept now s uid :
  memZ uid (doomed now s) = false ->
  filter (fun w => Withdrawals.user_id w =? uid) (withdrawals (sweep now s))
  = filter (fun w => Withdrawals.user_id w =? uid) (withdrawals s).
Proof.
  intros Hm. unfold sweep, purged. simpl.
  rewrite filter_filter. apply filter_ext. intros c.
  destruct (Withdrawals.user_id c =? uid) eqn:E;
    [|now rewrite andb_false_r].
  apply Z.eqb_eq in E. now rewrite E, Hm.
Qed.

Lemma lookup_set_delete_request uid v requested effective s :
  lookup_user uid (set_delete_request v requested effective s)
  = option_map
      (fun u => if Users.id u =? v
                then Users.mk (Users.id u) (Users.referred_by u)
                       (Users.balance_ksh u) (Users.bonus_ksh u)
                       (Some requested) (Some effective)
                else u)
      (lookup_user uid s).
Proof.
  unfold lookup_user, set_delete_request. simpl.
  now apply lookup_update_where.
Qed.

Lemma users_unique_set_delete_request uid requested effective s :
  users_unique s -> users_unique (set_delete_request uid requested effective s).
Proof.
  unfold users_unique, set_delete_request. simpl.
  now rewrite map_id_update_where.
Qed.

(** X2.  A deletion request gives the account seven more days, to the
    second.  The request answers the instant seven UTC days on, at the
    same time of day, and writes it to the caller's row.  Until the clock
    reaches the second of that instant, a sweep keeps the row, the
    completion records and the withdrawal requests of the account, and
    [GET /api/me] answers the row; from that second on the first sweep
    removes them all and [GET /api/me] answers "User not found".  (The
    handler reads the clock once for each of the two dates, a moment
    apart; [post_me_delete_request] takes both reads at one instant.) *)
Theorem delete_request_takes_effect_after_seven_days
    (t0 now uid : Z) (s : db) (u : Users.row)
    (Hunique : users_unique s)
    (Hu : lookup_user uid s = Some u) :
  let effective := Clock.plusDaysISO t0 7 in
  let leaving :=
    Users.mk (Users.id u) (Users.referred_by u) (Users.balance_ksh u)
      (Users.bonus_ksh u) (Some t0) (Some effective) in
  let s1 := run_store (post_me_delete_request t0 uid) s in
  let s2 := run_store (get_me now uid) s1 in
  run_outcome (post_me_delete_request t0 uid) s = Returned (Json effective)
  /\ Clock.Day effective = Clock.Day t0 + 7
  /\ effective mod Clock.msPerDay = t0 mod Clock.msPerDay
  /\ lookup_user uid s1 = Some leaving
  /\ (Clock.sql_datetime now < Clock.sql_datetime effective ->
      run_outcome (get_me now uid) s1 = Returned (Json leaving)
      /\ lookup_user uid s2 = Some leaving
      /\ completions_of uid s2 = completions_of uid s
      /\ filter (fun w => Withdrawals.user_id w =? uid) (withdrawals s2)
         = filter (fun w => Withdrawals.user_id w =? uid) (withdrawals s))
  /\ (Clock.sql_datetime effective <= Clock.sql_datetime now ->
      run_outcome (get_me now uid) s1 = Returned (Error 200 "User not found")
      /\ lookup_user uid s2 = None
      /\ completions_of uid s2 = []
      /\ filter (fun w => Withdrawals.user_id w =? uid) (withdrawals s2) = []).
Proof.
  cbv zeta. rewrite post_me_delete_request_store.
  set (effective := Clock.plusDaysISO t0 7).
  set (s1 := set_delete_request uid t0 effective s).
  assert (Hl : lookup_user uid s1
               = Some (Users.mk (Users.id u) (Users.referred_by u)
                         (Users.balance_ksh u) (Users.bonus_ksh u)
                         (Some t0) (Some effective))).
  { unfold s1. rewrite lookup_set_delete_request, Hu. simpl.
    rewrite (lookup_user_id _ _ _ Hu). now rewrite Z.eqb_refl. }
  assert (Hun1 : users_unique s1) by now apply users_unique_set_delete_request.
  split; [reflexivity|].
  split; [unfold effective, Clock.plusDaysISO, Clock.Day, Clock.msPerDay; div_lia|].
  split; [unfold effective, Clock.plusDaysISO, Clock.msPerDay; div_lia|].
  split; [exact Hl|].
  unfold run_outcome, run_store. rewrite get_me_None. cbn [fst snd].
  split; intros Hnow.
  - assert (Hm : memZ uid (doomed now s1) = false).
    { eapply not_doomed_of_lookup; eauto. unfold is_doomed. simpl.
      apply Z.leb_gt. exact Hnow. }
    rewrite (sweep_lookup_kept _ _ _ Hm), Hl.
    rewrite (sweep_completions_of _ _ _ Hm), (sweep_withdrawals_kept _ _ _ Hm).
    repeat split.
  - assert (Hm : memZ uid (doomed now s1) = true).
    { eapply doomed_of_lookup; eauto. unfold is_doomed. simpl.
      apply Z.leb_le. exact Hnow. }
    rewrite (sweep_lookup_gone _ _ _ Hm).
    rewrite (sweep_completions_gone _ _ _ Hm), (sweep_withdrawals_gone _ _ _ Hm).
    repeat split.
Qed.

Lemma delete_request_takes_effect_after_seven_days_witness :
  let s1 := run_store (post_me_delete_request Demo.t1 1) Cases.account_store in
  run_outcome (get_me (Cases.week_later - 1) 1) s1
  = Returned (Json (Users.mk 1 None 40 0 (Some Demo.t1) (Some Cases.week_later)))
  /\ run_outcome (get_me Cases.week_later 1) s1
     = Returned (Error 200 "User not found").
Proof.
  assert (Hunique : users_unique Cases.account_store).
  { unfold users_unique. simpl. repeat constructor. simpl. tauto. }
  cbv zeta. split.
  - refine (proj1 (proj1 (proj2 (proj2 (proj2 (proj2
      (delete_request_takes_effect_after_seven_days Demo.t1
         (Cases.week_later - 1) 1 Cases.account_store Cases.account
         Hunique eq_refl))))) _)).
    vm_compute. reflexivity.
  - refine (proj1 (proj2 (proj2 (proj2 (proj2 (proj2
      (delete_request_takes_effect_after_seven_days Demo.t1
         Cases.week_later 1 Cases.account_store Cases.account
         Hunique eq_refl))))) _)).
    vm_compute. discriminate.
Defined.

(** ** Redeeming the referral bonus *)

Lemma lookup_move_bonus uid v s :
  lookup_user uid (move_bonus v s)
  = option_map
      (fun u => if Users.id u =? v
                then add_balance redeem_block (add_bonus (- redeem_block) u)
                else u)
      (lookup_user uid s).
Proof. unfold lookup_user, move_bonus. simpl. now apply lookup_update_where. Qed.

Lemma lookup_other uid v (f : Users.row -> Users.row) s :
  v <> uid ->
  option_map (fun u => if Users.id u =? uid then f u else u) (lookup_user v s)
  = lookup_user v s.
Proof.
  intros Hv. destruct (lookup_user v s) as [w|] eqn:E; trivial. simpl.
  apply lookup_user_id in E. destruct (Users.id w =? uid) eqn:Eb; trivial.
  apply Z.eqb_eq in Eb. congruence.
Qed.

Lemma serve_redeem uid s u :
  lookup_user uid s = Some u ->
  serve (PostRedeem uid) s
  = if Users.bonus_ksh u <? redeem_block then s else move_bonus uid s.
Proof.
  intros Hu. simpl. unfold run_store. rewrite post_referrals_redeem_None, Hu.
  now destruct (Users.bonus_ksh u <? redeem_block).
Qed.

Lemma update_where_twice {A : Type} (p : A -> bool) (f g : A -> A) l :
  (forall x, p (g x) = p x) ->
  update_where p f (update_where p g l) = update_where p (fun x => f (g x)) l.
Proof.
  intros Hp. unfold update_where. rewrite map_map. apply map_ext. intros x.
  destruct (p x) eqn:E; [now rewrite Hp, E|now rewrite E].
Qed.

Lemma update_where_same {A : Type} (p : A -> bool) (f g : A -> A) l :
  (forall x, f x = g x) -> update_where p f l = update_where p g l.
Proof.
  intros H. unfold update_where. apply map_ext. intros x. now rewrite H.
Qed.

Lemma update_where_id {A : Type} (p : A -> bool) (f : A -> A) l :
  (forall x, f x = x) -> update_where p f l = l.
Proof.
  intros H. unfold update_where. rewrite <- (map_id l) at 2.
  apply map_ext. intros x. rewrite H. now destruct (p x).
Qed.

Lemma set_users_id s : set_users (fun l => l) s = s.
Proof. now destruct s. Qed.

Lemma serve_redeem_repeat uid n s u :
  lookup_user uid s = Some u ->
  serve_all (repeat (PostRedeem uid) n) s
  = set_users
      (update_where (fun v => Users.id v =? uid)
         (redeem_blocks (Z.min (Z.of_nat n)
                           (Z.max 0 (Users.bonus_ksh u / redeem_block))))) s.
Proof.
  revert s u. induction n as [|n IH]; intros s u Hu.
  - replace (Z.min (Z.of_nat 0) (Z.max 0 (Users.bonus_ksh u / redeem_block)))
      with 0 by lia.
    simpl. destruct s as [us ts ds cs ws rs]. unfold set_users. simpl. f_equal.
    symmetry. apply update_where_id. intros [i r b c d e].
    unfold redeem_blocks, add_balance, add_bonus. simpl. f_equal; lia.
  - cbn [repeat]. unfold serve_all. cbn [fold_left].
    fold (serve_all (repeat (PostRedeem uid) n) (serve (PostRedeem uid) s)).
    rewrite (serve_redeem uid s u Hu).
    destruct (Users.bonus_ksh u <? redeem_block) eqn:Eb.
    + apply Z.ltb_lt in Eb. rewrite (IH s u Hu). do 3 f_equal.
      unfold redeem_block in *. div_lia.
    + apply Z.ltb_ge in Eb.
      assert (Hu' : lookup_user uid (move_bonus uid s)
                    = Some (add_balance redeem_block
                              (add_bonus (- redeem_block) u))).
      { rewrite lookup_move_bonus, Hu. simpl.
        now rewrite (lookup_user_id _ _ _ Hu), Z.eqb_refl. }
      rewrite (IH _ _ Hu').
      replace (Users.bonus_ksh (add_balance redeem_block
                                  (add_bonus (- redeem_block) u)))
        with (Users.bonus_ksh u - redeem_block)
        by (unfold redeem_block; simpl; lia).
      replace (Z.min (Z.of_nat (S n))
                 (Z.max 0 (Users.bonus_ksh u / redeem_block)))
        with (Z.min (Z.of_nat n)
                (Z.max 0 ((Users.bonus_ksh u - redeem_block) / redeem_block)) + 1)
        by (unfold redeem_block in *; div_lia).
      generalize (Z.min (Z.of_nat n)
                    (Z.max 0 ((Users.bonus_ksh u - redeem_block) / redeem_block))).
      intros k. unfold move_bonus, set_users. cbn [users tasks daily_tasks
        task_completions withdrawals referral_rewards]. f_equal.
      rewrite update_where_twice by reflexivity.
      apply update_where_same. intros [i r b c d e].
      unfold redeem_blocks, add_balance, add_bonus, redeem_block.
      cbn [Users.id Users.referred_by Users.balance_ksh Users.bonus_ksh
           Users.delete_requested_at Users.delete_effective_at].
      f_equal; lia.
Qed.

(** X3.  Redemption moves whole blocks of 1000 from the bonus to the
    balance and nothing else.  A request is refused with the store as it
    was while the bonus is under 1000; otherwise it answers the new pair,
    balance plus 1000 and bonus minus 1000.  After [n] requests in a row
    the caller has redeemed [min n (bonus / 1000)] blocks: the sum of
    balance and bonus is what it was, the bonus left is not negative when
    it was not, every other account is as before and so are the other
    tables. *)
Theorem redeem_moves_whole_blocks (uid : Z) (n : nat) (s : db) (u : Users.row)
    (Hu : lookup_user uid s = Some u) :
  let b := Users.bonus_ksh u in
  let k := Z.min (Z.of_nat n) (Z.max 0 (b / redeem_block)) in
  let s' := serve_all (repeat (PostRedeem uid) n) s in
  balance_of uid s' = Some (Users.balance_ksh u + redeem_block * k)
  /\ bonus_of uid s' = Some (b - redeem_block * k)
  /\ (0 <= b -> 0 <= b - redeem_block * k)
  /\ (forall v, v <> uid -> lookup_user v s' = lookup_user v s)
  /\ tasks s' = tasks s /\ daily_tasks s' = daily_tasks s
  /\ task_completions s' = task_completions s
  /\ withdrawals s' = withdrawals s
  /\ referral_rewards s' = referral_rewards s
  /\ (b < redeem_block ->
      run_outcome (post_referrals_redeem uid) s
      = Returned (Error 400 "Bonus must reach KSH 1000 to redeem")
      /\ run_store (post_referrals_redeem uid) s = s)
  /\ (redeem_block <= b ->
      run_outcome (post_referrals_redeem uid) s
      = Returned (Json (Some (Users.balance_ksh u + redeem_block,
                              b - redeem_block)))).
Proof.
  cbv zeta. rewrite (serve_redeem_repeat uid n s u Hu).
  set (k := Z.min (Z.of_nat n) (Z.max 0 (Users.bonus_ksh u / redeem_block))).
  assert (Hl : forall v,
            lookup_user v (set_users (update_where (fun w => Users.id w =? uid)
                                        (redeem_blocks k)) s)
            = option_map (fun w => if Users.id w =? uid then redeem_blocks k w
                                   else w) (lookup_user v s)).
  { intros v. unfold lookup_user, set_users. simpl.
    now apply lookup_update_where. }
  split; [|split; [|split; [|split]]].
  - unfold balance_of. rewrite Hl, Hu. simpl.
    now rewrite (lookup_user_id _ _ _ Hu), Z.eqb_refl.
  - unfold bonus_of. rewrite Hl, Hu. simpl.
    now rewrite (lookup_user_id _ _ _ Hu), Z.eqb_refl.
  - intros Hb. unfold k, redeem_block. div_lia.
  - intros v Hv. rewrite Hl. now apply lookup_other.
  - repeat (split; [reflexivity|]). split.
    + intros Hb. unfold run_outcome, run_store.
      rewrite post_referrals_redeem_None, Hu.
      apply Z.ltb_lt in Hb. rewrite Hb. now split.
    + intros Hb. unfold run_outcome.
      rewrite post_referrals_redeem_None, Hu.
      apply Z.ltb_ge in Hb. rewrite Hb. cbn [fst].
      rewrite lookup_move_bonus, Hu. simpl.
      now rewrite (lookup_user_id _ _ _ Hu), Z.eqb_refl.
Qed.

Lemma redeem_moves_whole_blocks_witness :
  let s := mkDb [Users.mk 1 None 40 2300 None None] [] [] [] [] [] in
  balance_of 1 (serve_all (repeat (PostRedeem 1) 5) s) = Some 2040
  /\ bonus_of 1 (serve_all (repeat (PostRedeem 1) 5) s) = Some 300.
Proof.
  cbv zeta.
  pose proof (redeem_moves_whole_blocks 1 5
                (mkDb [Users.mk 1 None 40 2300 None None] [] [] [] [] [])
                (Users.mk 1 None 40 2300 None None) eq_refl) as H.
  cbv zeta in H. destruct H as [H1 [H2 _]]. split; [exact H1|exact H2].
Defined.

(** ** The books of an account *)

Lemma sumZ_app l l' : sumZ (l ++ l') = sumZ l + sumZ l'.
Proof. induction l as [|x l IH]; simpl; lia. Qed.

Lemma nobody_leaving_doomed now s : nobody_leaving s -> doomed now s = [].
Proof.
  intros H. unfold doomed. rewrite filter_none; trivial.
  intros u Hu. unfold is_doomed. now rewrite (H u Hu).
Qed.

Lemma nobody_leaving_sweep now s : nobody_leaving s -> sweep now s = s.
Proof.
  intros H. unfold sweep. rewrite (nobody_leaving_doomed now s H).
  apply purged_nil.
Qed.

Lemma nobody_leaving_update (p : Users.row -> bool) f s :
  (forall u, Users.delete_effective_at (f u) = Users.delete_effective_at u) ->
  nobody_leaving s -> nobody_leaving (set_users (update_where p f) s).
Proof.
  intros Hf H u Hu. simpl in Hu. apply In_update_where in Hu.
  destruct Hu as [v [Hv ->]]. unfold not_leaving.
  destruct (p v); [rewrite Hf|]; now apply H.
Qed.

Lemma nobody_leaving_same s s' :
  users s' = users s -> nobody_leaving s -> nobody_leaving s'.
Proof. unfold nobody_leaving. now intros ->. Qed.

Lemma unaccounted_same s s' :
  users s' = users s -> task_completions s' = task_completions s ->
  withdrawals s' = withdrawals s -> referral_rewards s' = referral_rewards s ->
  forall v, unaccounted v s' = unaccounted v s.
Proof.
  intros Hu Hc Hw Hr v.
  unfold unaccounted, withdrawn, earned, granted, completions_of, lookup_user.
  now rewrite Hu, Hc, Hw, Hr.
Qed.

Lemma unaccounted_update v w f (delta : Z) s s' :
  users s' = update_where (fun u => Users.id u =? w) f (users s) ->
  (forall u, Users.id (f u) = Users.id u) ->
  (forall u, Users.balance_ksh (f u) + Users.bonus_ksh (f u)
             = Users.balance_ksh u + Users.bonus_ksh u + delta) ->
  withdrawn w s' - earned w s' - granted w s'
  = withdrawn w s - earned w s - granted w s - delta ->
  (v <> w -> withdrawn v s' - earned v s' - granted v s'
             = withdrawn v s - earned v s - granted v s) ->
  unaccounted v s' = unaccounted v s.
Proof.
  intros Hu Hid Hsum Hw Hv. unfold unaccounted.
  replace (lookup_user v s')
    with (option_map (fun u => if Users.id u =? w then f u else u)
            (lookup_user v s)).
  2: { unfold lookup_user. rewrite Hu. symmetry. now apply lookup_update_where. }
  destruct (lookup_user v s) as [u|] eqn:E; trivial. cbn [option_map]. f_equal.
  apply lookup_user_id in E. rewrite E. destruct (v =? w) eqn:Eb.
  - apply Z.eqb_eq in Eb. rewrite Eb in *. specialize (Hsum u). lia.
  - apply Z.eqb_neq in Eb. specialize (Hv Eb). lia.
Qed.

Lemma withdrawn_insert v uid a ph m st s :
  withdrawn v (insert_withdrawal uid a ph m st s)
  = withdrawn v s + (if uid =? v then a else 0).
Proof.
  unfold withdrawn, insert_withdrawal. simpl.
  rewrite filter_app, map_app, sumZ_app. simpl.
  destruct (uid =? v); simpl; lia.
Qed.

Lemma earned_insert v uid tid reward ans at_ s :
  earned v (set_task_completions
              (fun l => l ++ [TaskCompletions.mk uid tid reward ans at_]) s)
  = earned v s + (if uid =? v then reward else 0).
Proof.
  unfold earned, completions_of. simpl.
  rewrite filter_app, map_app, sumZ_app. simpl.
  destruct (uid =? v); simpl; lia.
Qed.

Lemma granted_insert v r uid s :
  granted v (set_referral_rewards (fun l => l ++ [ReferralRewards.mk r uid]) s)
  = granted v s + (if r =? v then referral_bonus else 0).
Proof.
  unfold granted, set_referral_rewards. cbn [referral_rewards].
  rewrite filter_app, length_app, Nat2Z.inj_add.
  cbn [filter ReferralRewards.referrer_id].
  destruct (r =? v); cbn [List.length]; unfold referral_bonus; lia.
Qed.

Lemma unaccounted_referral_effect uid v s :
  unaccounted v (referral_effect uid s) = unaccounted v s.
Proof.
  unfold referral_effect.
  destruct (lookup_user uid s) as [me|]; trivial.
  destruct (Users.referred_by me) as [r|]; trivial.
  destruct (r =? 0); trivial.
  destruct (List.length (completions_of (Users.id me) s) =? 1)%nat; trivial.
  destruct (reward_row r (Users.id me) s); trivial.
  set (s1 := set_referral_rewards
               (fun l => l ++ [ReferralRewards.mk r (Users.id me)]) s).
  assert (Hg : forall x, granted x s1
                         = granted x s + (if r =? x then referral_bonus else 0))
    by (intros x; apply granted_insert).
  apply (unaccounted_update v r (add_bonus referral_bonus) referral_bonus s
           (credit_bonus r referral_bonus s1)).
  - reflexivity.
  - reflexivity.
  - intros u. simpl. lia.
  - change (withdrawn r s - earned r s - granted r s1
            = withdrawn r s - earned r s - granted r s - referral_bonus).
    rewrite Hg, Z.eqb_refl. lia.
  - intros Hv.
    change (withdrawn v s - earned v s - granted v s1
            = withdrawn v s - earned v s - granted v s).
    rewrite Hg. apply Z.neq_sym, Z.eqb_neq in Hv. rewrite Hv. lia.
Qed.

Lemma nobody_leaving_referral_effect uid s :
  nobody_leaving s -> nobody_leaving (referral_effect uid s).
Proof.
  intros H. unfold referral_effect.
  destruct (lookup_user uid s) as [me|]; trivial.
  destruct (Users.referred_by me) as [r|]; trivial.
  destruct (r =? 0); trivial.
  destruct (List.length (completions_of (Users.id me) s) =? 1)%nat; trivial.
  destruct (reward_row r (Users.id me) s); trivial.
  unfold credit_bonus. apply nobody_leaving_update; [reflexivity|].
  eapply nobody_leaving_same; [|exact H]. reflexivity.
Qed.

Lemma quiet_serve r s :
  nobody_leaving s -> is_delete_request r = false ->
  nobody_leaving (serve r s)
  /\ forall v, unaccounted v (serve r s) = unaccounted v s.
Proof.
  intros H Hr.
  destruct r as [now|shuffle now uid|now uid tid body|uid|uid body|now uid];
    try discriminate; cbn [serve].
  - rewrite get_health_store, nobody_leaving_sweep; auto.
  - rewrite get_tasks_store. cbv zeta. rewrite nobody_leaving_sweep by trivial.
    destruct (5 <=? _)%nat; [auto|].
    destruct (allocate_frame uid (Clock.dayUTC now) (pick_tasks shuffle s) s)
      as [Hu [_ [Hc [Hw Hrr]]]].
    split; [now apply (nobody_leaving_same s)|now apply unaccounted_same].
  - unfold run_store. rewrite post_tasks_complete_None. cbv zeta.
    rewrite nobody_leaving_sweep by trivial.
    destruct (active_task tid s) as [task|]; [|auto].
    destruct (assigned_today uid (Clock.dayUTC now) tid s); [|auto].
    destruct (daily_limit <=? _)%nat; [auto|].
    unfold insert_task_completion. cbv zeta.
    destruct (existsb _ (task_completions s)); [auto|].
    set (row := TaskCompletions.mk uid tid (Tasks.reward_ksh task)
                  (answer_of body) (Clock.sql_datetime now)).
    set (s1 := set_task_completions (fun l => l ++ [row]) s).
    set (s2 := credit_balance uid (Tasks.reward_ksh task) s1).
    assert (H2 : nobody_leaving s2).
    { unfold s2, credit_balance. apply nobody_leaving_update; [reflexivity|].
      now apply (nobody_leaving_same s). }
    assert (U2 : forall v, unaccounted v s2 = unaccounted v s).
    { intros v.
      apply (unaccounted_update v uid (add_balance (Tasks.reward_ksh task))
               (Tasks.reward_ksh task) s s2); try reflexivity.
      - intros u. simpl. lia.
      - change (withdrawn uid s - earned uid s1 - granted uid s
                = withdrawn uid s - earned uid s - granted uid s
                  - Tasks.reward_ksh task).
        unfold s1, row. rewrite earned_insert, Z.eqb_refl. lia.
      - intros Hv.
        change (withdrawn v s - earned v s1 - granted v s
                = withdrawn v s - earned v s - granted v s).
        unfold s1, row. rewrite earned_insert.
        apply Z.neq_sym, Z.eqb_neq in Hv. rewrite Hv. lia. }
    assert (H3 : nobody_leaving (referral_effect uid s2))
      by now apply nobody_leaving_referral_effect.
    assert (U3 : forall v, unaccounted v (referral_effect uid s2)
                           = unaccounted v s)
      by (intros v; now rewrite unaccounted_referral_effect).
    destruct (lookup_user uid (referral_effect uid s2)); auto.
  - unfold run_store. rewrite post_referrals_redeem_None.
    destruct (lookup_user uid s) as [u|]; [|auto].
    destruct (Users.bonus_ksh u <? redeem_block); [auto|]. cbn [snd]. split.
    + unfold move_bonus. now apply nobody_leaving_update.
    + intros v.
      apply (unaccounted_update v uid
               (fun u => add_balance redeem_block (add_bonus (- redeem_block) u))
               0 s (move_bonus uid s)); try reflexivity.
      * intros w. unfold redeem_block. simpl. lia.
      * change (withdrawn uid s - earned uid s - granted uid s
                = withdrawn uid s - earned uid s - granted uid s - 0). lia.
  - unfold run_store. rewrite post_withdrawals_None.
    destruct (negb (schema_ok body)); [auto|].
    destruct (lookup_user uid s) as [u|]; [|auto].
    destruct (negb (Qle_bool _ _)); [auto|]. cbn [snd].
    set (a := Qfloor (amount body)).
    set (s1 := insert_withdrawal uid a (phone body) (method body) "pending" s).
    split.
    + unfold credit_balance. apply nobody_leaving_update; [reflexivity|].
      now apply (nobody_leaving_same s).
    + intros v.
      apply (unaccounted_update v uid (add_balance (- a)) (- a) s
               (credit_balance uid (- a) s1)); try reflexivity.
      * intros w. simpl. lia.
      * change (withdrawn uid s1 - earned uid s - granted uid s
                = withdrawn uid s - earned uid s - granted uid s - - a).
        unfold s1. rewrite withdrawn_insert, Z.eqb_refl. lia.
      * intros Hv.
        change (withdrawn v s1 - earned v s - granted v s
                = withdrawn v s - earned v s - granted v s).
        unfold s1. rewrite withdrawn_insert.
        apply Z.neq_sym, Z.eqb_neq in Hv. rewrite Hv. lia.
Qed.

(** X4.  The books balance.  While no account is set to leave and no
    deletion is requested, no request creates or loses money: for every
    user, balance plus bonus plus the amounts of the user's withdrawal
    requests, less the rewards of the user's completion records and less
    100 for every reward row naming the user as referrer, is the same
    after any run of health checks, task lists, completions, redemptions
    and withdrawals as before it. *)
Theorem books_balance_over_requests (rs : list request) (s : db)
    (Hstay : nobody_leaving s)
    (Hquiet : forallb (fun r => negb (is_delete_request r)) rs = true) :
  nobody_leaving (serve_all rs s)
  /\ forall uid, unaccounted uid (serve_all rs s) = unaccounted uid s.
Proof.
  revert s Hstay. unfold serve_all.
  induction rs as [|r rs IH]; intros s Hstay; simpl; [auto|].
  simpl in Hquiet. apply andb_true_iff in Hquiet. destruct Hquiet as [Hr Hrs].
  apply negb_true_iff in Hr.
  destruct (quiet_serve r s Hstay Hr) as [H1 U1].
  destruct (IH Hrs _ H1) as [H2 U2]. split; trivial.
  intros uid. now rewrite U2, U1.
Qed.

Lemma books_balance_over_requests_witness :
  unaccounted 1 (serve_all Cases.quiet_trace Demo.referred_store) = Some 0
  /\ unaccounted 2 (serve_all Cases.quiet_trace Demo.referred_store) = Some 0
  /\ balance_of 2 (serve_all Cases.quiet_trace Demo.referred_store) = Some 7
  /\ bonus_of 1 (serve_all Cases.quiet_trace Demo.referred_store) = Some 100.
Proof.
  assert (Hstay : nobody_leaving Demo.referred_store).
  { intros u [<-|[<-|[]]]; reflexivity. }
  split; [|split; [|split; reflexivity]].
  - rewrite (proj2 (books_balance_over_requests Cases.quiet_trace
                      Demo.referred_store Hstay eq_refl) 1).
    reflexivity.
  - rewrite (proj2 (books_balance_over_requests Cases.quiet_trace
                      Demo.referred_store Hstay eq_refl) 2).
    reflexivity.
Defined.

(** ** The lists of withdrawals and of completions *)

Lemma firstn_rev_snoc {A : Type} (n : nat) (l : list A) (x : A) :
  firstn (S n) (rev (l ++ [x])) = x :: firstn n (firstn (S n) (rev l)).
Proof.
  rewrite rev_app_distr. change (rev [x] ++ rev l) with (x :: rev l).
  rewrite firstn_cons. f_equal. rewrite firstn_firstn. f_equal. lia.
Qed.

Lemma In_of_firstn {A : Type} (n : nat) (l : list A) (x : A) :
  In x (firstn n l) -> In x l.
Proof.
  intros H. rewrite <- (firstn_skipn n l). apply in_or_app. now left.
Qed.

Lemma get_withdrawals_run uid f s :
  get_withdrawals uid f s = (Returned (Json (withdrawal_rows uid s)), f, s).
Proof. reflexivity. Qed.

(** X5.  [GET /api/withdrawals] lists the caller's requests, newest first
    and at most fifty, and writes nothing.  After a withdrawal request
    that was accepted, the list starts with that request, pending and
    with the whole-shilling amount, followed by the 49 newest of the
    list as it was; the list of any other user is as it was. *)
Theorem accepted_withdrawal_heads_the_list (uid : Z) (body : withdrawal_body)
    (s : db) (u : Users.row)
    (Huser : lookup_user uid s = Some u)
    (Hschema : schema_ok body = true)
    (Hfunds : (amount body <= inject_Z (Users.balance_ksh u))%Q) :
  let s' := run_store (post_withdrawals uid body) s in
  run_outcome (get_withdrawals uid) s'
  = Returned (Json (Withdrawals.mk uid (Qfloor (amount body)) (phone body)
                      (method body) "pending"
                    :: firstn 49 (withdrawal_rows uid s)))
  /\ (forall v, v <> uid -> withdrawal_rows v s' = withdrawal_rows v s)
  /\ (forall v f t,
        snd (get_withdrawals v f t) = t
        /\ (List.length (withdrawal_rows v t) <= 50)%nat
        /\ forall w, In w (withdrawal_rows v t) ->
              Withdrawals.user_id w = v /\ In w (withdrawals t)).
Proof.
  cbv zeta. unfold run_store, run_outcome.
  rewrite post_withdrawals_None, Hschema, Huser. cbn [negb].
  apply Qle_bool_iff in Hfunds. rewrite Hfunds. cbn [negb snd].
  split; [|split].
  - rewrite get_withdrawals_run. cbn [fst]. do 2 f_equal.
    unfold withdrawal_rows, credit_balance, insert_withdrawal. simpl withdrawals.
    rewrite filter_app. cbn [filter Withdrawals.user_id]. rewrite Z.eqb_refl.
    apply (firstn_rev_snoc 49).
  - intros v Hv. unfold withdrawal_rows, credit_balance, insert_withdrawal.
    simpl withdrawals. rewrite filter_app. cbn [filter Withdrawals.user_id].
    apply Z.neq_sym, Z.eqb_neq in Hv. rewrite Hv. now rewrite app_nil_r.
  - intros v f t. split; [reflexivity|]. split.
    + unfold withdrawal_rows. rewrite length_firstn. lia.
    + intros w Hw. unfold withdrawal_rows in Hw.
      apply In_of_firstn in Hw. apply in_rev in Hw. apply filter_In in Hw.
      destruct Hw as [Hin Hid]. apply Z.eqb_eq in Hid. tauto.
Qed.

Lemma accepted_withdrawal_heads_the_list_witness :
  run_outcome (get_withdrawals 1)
    (run_store (post_withdrawals 1 Demo.withdraw_200) Demo.store_500)
  = Returned (Json [Withdrawals.mk 1 200 "0700000000" "mpesa" "pending"]).
Proof.
  refine (proj1 (accepted_withdrawal_heads_the_list 1 Demo.withdraw_200
                   Demo.store_500 (Users.mk 1 None 500 0 None None)
                   eq_refl eq_refl _)).
  vm_compute. discriminate.
Defined.

(** What a completion request that answered a balance has done. *)
Lemma complete_accepted now uid tid body s b :
  run_outcome (post_tasks_complete now uid tid body) s = Returned (Json b) ->
  let s0 := sweep now s in
  let s' := run_store (post_tasks_complete now uid tid body) s in
  exists task,
    active_task tid s0 = Some task
    /\ task_completions s'
       = task_completions s0
         ++ [completion_row now uid tid (Tasks.reward_ksh task) body]
    /\ tasks s' = tasks s0
    /\ balance_of uid s' = Some b.
Proof.
  unfold run_outcome, run_store. rewrite post_tasks_complete_None. cbv zeta.
  destruct (active_task tid (sweep now s)) as [task|]; [|discriminate].
  destruct (assigned_today uid (Clock.dayUTC now) tid (sweep now s));
    [|discriminate].
  destruct (daily_limit <=? _)%nat; [discriminate|].
  unfold insert_task_completion. cbv zeta.
  destruct (existsb _ (task_completions (sweep now s))); [discriminate|].
  match goal with
  | |- context [lookup_user uid ?x] => set (s3 := x)
  end.
  destruct (lookup_user uid s3) as [u|] eqn:Eu; [|discriminate].
  cbn [fst snd]. intros [= <-]. exists task. split; [reflexivity|].
  split; [|split].
  - unfold s3. now rewrite task_completions_referral_effect.
  - unfold s3, referral_effect.
    repeat match goal with
           | |- context [match ?x with _ => _ end] => destruct x
           end; reflexivity.
  - unfold balance_of. now rewrite Eu.
Qed.

(** X6.  [GET /api/history] lists the caller's completion records that
    still have their task in the catalog, newest first and at most
    fifty.  After a completion that answered a balance, with no two tasks
    sharing an id, the list starts with the record of that completion
    paired with its task, followed by the 49 newest of the list the swept
    store had. *)
Theorem accepted_completion_heads_the_history (now uid tid b : Z)
    (body : complete_body) (s : db)
    (Htasks : tasks_unique s)
    (Hok : run_outcome (post_tasks_complete now uid tid body) s
           = Returned (Json b)) :
  let s' := run_store (post_tasks_complete now uid tid body) s in
  exists task,
    active_task tid (sweep now s) = Some task
    /\ run_outcome (get_history uid) s'
       = Returned (Json ((completion_row now uid tid (Tasks.reward_ksh task) body,
                          task)
                         :: firstn 49 (history_rows uid (sweep now s))))
    /\ (List.length (history_rows uid s') <= 50)%nat
    /\ run_store (get_history uid) s' = s'.
Proof.
  cbv zeta. destruct (complete_accepted _ _ _ _ _ _ Hok) as [task [Ht [Hc [Hcat Hb]]]].
  exists task. split; [exact Ht|]. split; [|split].
  - unfold run_outcome, get_history. rewrite bind_query. cbn [fst ret].
    do 2 f_equal. unfold history_rows, completions_of. rewrite Hc, Hcat.
    rewrite filter_app. cbn [filter completion_row TaskCompletions.user_id].
    rewrite Z.eqb_refl, flat_map_app. cbn [flat_map TaskCompletions.task_id].
    rewrite app_nil_r.
    assert (Hone : filter (fun t => Tasks.id t =? tid) (tasks (sweep now s))
                   = [task]).
    { assert (Hin : In task (tasks (sweep now s)))
        by now apply active_task_In in Ht.
      assert (Hid : Tasks.id task = tid).
      { unfold active_task in Ht. apply find_some in Ht.
        destruct Ht as [_ Ht]. apply andb_true_iff in Ht.
        now apply Z.eqb_eq. }
      rewrite <- Hid. now apply filter_by_id. }
    change (TaskCompletions.task_id
              (completion_row now uid tid (Tasks.reward_ksh task) body))
      with tid.
    rewrite Hone. cbn [map]. apply (firstn_rev_snoc 49).
  - unfold history_rows. rewrite length_firstn. lia.
  - reflexivity.
Qed.

Lemma accepted_completion_heads_the_history_witness :
  exists task,
    active_task 7 (sweep Demo.t1 Demo.store) = Some task
    /\ run_outcome (get_history 1) Demo.after_first
       = Returned (Json ((completion_row Demo.t1 1 7 (Tasks.reward_ksh task)
                            Demo.body, task)
                         :: firstn 49 (history_rows 1 (sweep Demo.t1 Demo.store))))
    /\ (List.length (history_rows 1 Demo.after_first) <= 50)%nat
    /\ run_store (get_history 1) Demo.after_first = Demo.after_first.
Proof.
  apply (accepted_completion_heads_the_history Demo.t1 1 7 10 Demo.body
           Demo.store).
  - unfold tasks_unique. simpl. repeat constructor. simpl. tauto.
  - reflexivity.
Defined.

(** ** The marks of the task list *)

Lemma completed_today_allocate uid now v today picked s :
  completed_today uid now (allocate v today picked s) = completed_today uid now s.
Proof.
  unfold completed_today.
  destruct (allocate_frame v today picked s) as [_ [_ [Hc _]]]. now rewrite Hc.
Qed.

Lemma get_tasks_None shuffle now uid s :
  get_tasks shuffle now uid None s
  = let s0 := sweep now s in
    let today := Clock.dayUTC now in
    if (5 <=? List.length (existing_tasks uid today s0))%nat
    then (Returned (Json (marked uid now s0 (firstn 5 (existing_tasks uid today s0)))),
          None, s0)
    else (Returned (Json (marked uid now s0 (pick_tasks shuffle s0))), None,
          allocate uid today (pick_tasks shuffle s0) s0).
Proof.
  unfold get_tasks.
  erewrite bind_Returned by apply purge_None.
  unfold bind at 1. rewrite ensureDailyTasks_None. cbv zeta.
  destruct (5 <=? List.length (existing_tasks uid (Clock.dayUTC now) (sweep now s)))%nat.
  - rewrite bind_query. reflexivity.
  - rewrite bind_query. unfold ret, marked.
    now rewrite completed_today_allocate.
Qed.

Lemma marked_In uid now s l t flag :
  In (t, flag) (marked uid now s l) ->
  In t l
  /\ (flag = true <->
      exists c, In c (completed_today uid now s)
                /\ TaskCompletions.task_id c = Tasks.id t).
Proof.
  unfold marked. rewrite in_map_iff. intros [t' [E Hin]].
  injection E as Et Ef. subst t' flag.
  split; trivial. rewrite existsb_exists. split.
  - intros [x [Hx E]]. apply in_map_iff in Hx. destruct Hx as [c [<- Hc]].
    apply Z.eqb_eq in E. eauto.
  - intros [c [Hc E]]. exists (Tasks.id t). split; [|apply Z.eqb_refl].
    apply in_map_iff. eauto.
Qed.

(** X7.  The [completed] mark of [GET /api/tasks] follows the completion
    records: a task of the reply is marked exactly when the caller has a
    record for it dated the current UTC date.  So after a completion that
    answered a balance, a task list asked for on the same UTC date, with
    the account not due for deletion, marks every task with that id as
    completed. *)
Theorem completed_task_is_marked (shuffle : list Tasks.row -> list Tasks.row)
    (now1 now2 uid tid b : Z) (body : complete_body) (s : db)
    (Hok : run_outcome (post_tasks_complete now1 uid tid body) s
           = Returned (Json b))
    (Hday : Clock.sql_date (Clock.sql_datetime now1)
            = Clock.sql_date (Clock.sql_datetime now2))
    (Hstay : memZ uid (doomed now2
                         (run_store (post_tasks_complete now1 uid tid body) s))
             = false) :
  let s1 := run_store (post_tasks_complete now1 uid tid body) s in
  exists l,
    run_outcome (get_tasks shuffle now2 uid) s1 = Returned (Json l)
    /\ (forall t flag, In (t, flag) l ->
          (flag = true <->
           exists c, In c (completed_today uid now2 (sweep now2 s1))
                     /\ TaskCompletions.task_id c = Tasks.id t))
    /\ (forall t flag, In (t, flag) l -> Tasks.id t = tid -> flag = true).
Proof.
  cbv zeta. set (s1 := run_store (post_tasks_complete now1 uid tid body) s).
  destruct (complete_accepted _ _ _ _ _ _ Hok) as [task [Ht [Hc _]]].
  fold s1 in Hc, Hstay.
  assert (Hrow : In (completion_row now1 uid tid (Tasks.reward_ksh task) body)
                    (completed_today uid now2 (sweep now2 s1))).
  { unfold completed_today. apply filter_In. split.
    - unfold sweep, purged. simpl. apply filter_In. split.
      + rewrite Hc. apply in_or_app. right. now left.
      + simpl. now rewrite Hstay.
    - simpl. rewrite Z.eqb_refl, Hday, Z.eqb_refl. reflexivity. }
  unfold run_outcome. rewrite get_tasks_None. cbv zeta.
  destruct (5 <=? _)%nat; cbn [fst]; eexists; (split; [reflexivity|]); split.
  1,3: intros t flag Hin; now apply marked_In in Hin.
  all: intros t flag Hin Hid; apply marked_In in Hin; apply Hin;
    eexists; split; [exact Hrow|]; simpl; congruence.
Qed.

Lemma completed_task_is_marked_witness :
  exists l,
    run_outcome (get_tasks Demo.in_order Demo.t2 1) Demo.after_first
    = Returned (Json l)
    /\ forall t flag, In (t, flag) l -> Tasks.id t = 7 -> flag = true.
Proof.
  destruct (completed_task_is_marked Demo.in_order Demo.t1 Demo.t2 1 7 10
              Demo.body Demo.store eq_refl eq_refl eq_refl) as [l [H1 [_ H2]]].
  exists l. split; [exact H1|exact H2].
Defined.

(** ** Invariants that every statement keeps *)

Section Preserves.
Variable I : db -> Prop.

Lemma preserves_ret {A : Type} (a : A) : preserves I (ret a).
Proof. apply keeps_ret. auto. Qed.

Lemma preserves_throw {A : Type} : preserves I (@throw A).
Proof. apply keeps_throw. Qed.

Lemma preserves_query {A : Type} (q : db -> A) : preserves I (query q).
Proof.
  eapply keeps_weaken; [apply (keeps_query I (fun _ => True))| |]; auto.
Qed.

Lemma preserves_bind {A B : Type} (m : M A) (k : A -> M B) :
  preserves I m -> (forall a, preserves I (k a)) -> preserves I (bind m k).
Proof. intros Hm Hk. eapply keeps_bind; [exact Hm|]. exact Hk. Qed.

Lemma preserves_run_checked stmt :
  (forall s s', I s -> stmt s = Some s' -> I s') ->
  preserves I (run_checked stmt).
Proof. intros H. apply keeps_run_checked. intros s s' HI _ E. eauto. Qed.

Lemma preserves_run stmt :
  (forall s, I s -> I (stmt s)) -> preserves I (run stmt).
Proof. intros H. apply keeps_run. auto. Qed.

Lemma preserves_for_of {A : Type} (l : list A) (body : A -> M unit) :
  (forall x, preserves I (body x)) -> preserves I (for_of l body).
Proof. intros H. now apply keeps_for_of. Qed.

Lemma preserves_try_catch {A : Type} (m h : M A) :
  preserves I m -> preserves I h -> preserves I (try_catch m h).
Proof. intros Hm Hh. now apply keeps_try_catch. Qed.

Lemma preserves_snd {A : Type} (m : M A) f s :
  preserves I m -> I s -> I (snd (m f s)).
Proof. intros Hm H. exact (proj1 (Hm f s H Logic.I)). Qed.

Hypothesis Hstep : forall s s', I s -> write_step s s' -> I s'.
Hypothesis Hensure : forall shuffle now uid,
  preserves I (ensureDailyTasks shuffle now uid).

Lemma preserves_step (stmt : db -> db) :
  (forall s, write_step s (stmt s)) -> preserves I (run stmt).
Proof. intros H. apply preserves_run. intros s Hs. eapply Hstep; eauto. Qed.

Lemma preserves_step_checked (stmt : db -> option db) :
  (forall s s', stmt s = Some s' -> write_step s s') ->
  preserves I (run_checked stmt).
Proof.
  intros H. apply preserves_run_checked. intros s s' Hs E.
  eapply Hstep; eauto.
Qed.

Lemma preserves_purgeDeletedAccounts now : preserves I (purgeDeletedAccounts now).
Proof.
  unfold purgeDeletedAccounts.
  apply preserves_bind; [apply preserves_query|intros ids].
  apply preserves_for_of. intros uid. unfold purge_account.
  repeat (apply preserves_bind; [apply preserves_step; constructor|intros _]).
  apply preserves_step. constructor.
Qed.

Lemma preserves_referral_step uid : preserves I (referral_step uid).
Proof.
  unfold referral_step.
  apply preserves_bind; [apply preserves_query|intros [me|]];
    [|apply preserves_ret].
  destruct (Users.referred_by me) as [r|]; [|apply preserves_ret].
  destruct (r =? 0); [apply preserves_ret|].
  apply preserves_bind; [apply preserves_query|intros done].
  destruct (List.length done =? 1)%nat; [|apply preserves_ret].
  apply preserves_bind; [apply preserves_query|intros [row|]];
    [apply preserves_ret|].
  apply preserves_bind; [|intros _; apply preserves_step; constructor].
  apply preserves_step_checked. intros s s' E.
  eapply step_insert_referral_reward. exact E.
Qed.

Lemma preserves_get_health now : preserves I (get_health now).
Proof.
  unfold get_health.
  apply preserves_bind; [apply preserves_purgeDeletedAccounts|intros _].
  apply preserves_ret.
Qed.

Lemma preserves_get_tasks shuffle now uid : preserves I (get_tasks shuffle now uid).
Proof.
  unfold get_tasks.
  apply preserves_bind; [apply preserves_purgeDeletedAccounts|intros _].
  apply preserves_bind; [apply Hensure|intros l].
  apply preserves_bind; [apply preserves_query|intros done].
  apply preserves_ret.
Qed.

Lemma preserves_post_tasks_complete now uid tid body :
  preserves I (post_tasks_complete now uid tid body).
Proof.
  unfold post_tasks_complete. cbv zeta.
  apply preserves_bind; [apply preserves_purgeDeletedAccounts|intros _].
  apply preserves_bind; [apply preserves_query|intros [task|]];
    [|apply preserves_ret].
  apply preserves_bind; [apply preserves_query|intros [d|]];
    [|apply preserves_ret].
  apply preserves_bind; [apply preserves_query|intros cnt].
  destruct (daily_limit <=? List.length cnt)%nat; [apply preserves_ret|].
  apply preserves_bind.
  { apply preserves_step_checked. intros s s' E.
    eapply step_insert_task_completion. exact E. }
  intros _. apply preserves_bind; [apply preserves_step; constructor|intros _].
  apply preserves_bind; [apply preserves_referral_step|intros _].
  apply preserves_bind; [apply preserves_query|intros [u|]];
    [apply preserves_ret|apply preserves_throw].
Qed.

Lemma preserves_post_referrals_redeem uid :
  preserves I (post_referrals_redeem uid).
Proof.
  unfold post_referrals_redeem.
  apply preserves_bind; [apply preserves_query|intros [u|]];
    [|apply preserves_ret].
  destruct (Users.bonus_ksh u <? redeem_block); [apply preserves_ret|].
  apply preserves_bind; [apply preserves_step; constructor|intros _].
  apply preserves_bind; [apply preserves_query|intros updated].
  apply preserves_ret.
Qed.

Lemma preserves_post_withdrawals uid body :
  preserves I (post_withdrawals uid body).
Proof.
  unfold post_withdrawals. apply preserves_try_catch; [|apply preserves_ret].
  destruct (negb (schema_ok body)); [apply preserves_throw|].
  apply preserves_bind; [apply preserves_query|intros [u|]];
    [|apply preserves_ret].
  destruct (negb (Qle_bool _ _)); [apply preserves_ret|].
  apply preserves_bind; [apply preserves_step; constructor|intros _].
  apply preserves_bind; [apply preserves_step; constructor|intros _].
  apply preserves_ret.
Qed.

Lemma preserves_post_me_delete_request now uid :
  preserves I (post_me_delete_request now uid).
Proof.
  unfold post_me_delete_request. cbv zeta.
  apply preserves_bind; [apply preserves_step; constructor|intros _].
  apply preserves_ret.
Qed.

Lemma closed_serve_with f r s : I s -> I (serve_with f r s).
Proof.
  intros H.
  destruct r as [now|shuffle now uid|now uid tid body|uid|uid body|now uid];
    cbn [serve_with]; apply preserves_snd; trivial.
  - apply preserves_get_health.
  - apply preserves_get_tasks.
  - apply preserves_post_tasks_complete.
  - apply preserves_post_referrals_redeem.
  - apply preserves_post_withdrawals.
  - apply preserves_post_me_delete_request.
Qed.

Lemma closed_serve_all_with rs s : I s -> I (serve_all_with rs s).
Proof.
  unfold serve_all_with. revert s.
  induction rs as [|[f r] rs IH]; intros s H; simpl; trivial.
  apply IH. now apply closed_serve_with.
Qed.
End Preserves.

Lemma preserves_ensureDailyTasks (I : db -> Prop) :
  (forall s s', I s -> write_step s s' -> I s') ->
  (forall uid today tid s, I s -> I (insert_or_ignore_daily_task uid today tid s)) ->
  forall shuffle now uid, preserves I (ensureDailyTasks shuffle now uid).
Proof.
  intros Hstep Hins shuffle now uid. unfold ensureDailyTasks. cbv zeta.
  apply preserves_bind; [apply preserves_query|intros existing].
  destruct (5 <=? List.length existing)%nat; [apply preserves_ret|].
  apply preserves_bind.
  { apply preserves_run. intros s H. eapply Hstep; [exact H|constructor]. }
  intros _. apply preserves_bind; [apply preserves_query|intros picked].
  apply preserves_bind; [|intros _; apply preserves_ret].
  apply preserves_for_of. intros t. apply preserves_run. intros s. apply Hins.
Qed.

(** ** What no request writes *)

Lemma same_accounts_refl s : same_accounts s s.
Proof. split; trivial. intros u Hu. exists u. auto. Qed.

Lemma same_accounts_trans s1 s2 s3 :
  same_accounts s1 s2 -> same_accounts s2 s3 -> same_accounts s1 s3.
Proof.
  intros [T1 U1] [T2 U2]. split; [congruence|].
  intros u3 H3. destruct (U2 u3 H3) as [u2 [H2 [Ei Er]]].
  destruct (U1 u2 H2) as [u1 [H1 [Ei' Er']]]. exists u1.
  repeat split; congruence.
Qed.

Lemma same_accounts_users s s' :
  tasks s' = tasks s -> users s' = users s -> same_accounts s s'.
Proof.
  intros Ht Hu. split; trivial. rewrite Hu. intros u H. exists u. auto.
Qed.

Lemma same_accounts_update (p : Users.row -> bool) f s :
  (forall u, Users.id (f u) = Users.id u) ->
  (forall u, Users.referred_by (f u) = Users.referred_by u) ->
  same_accounts s (set_users (update_where p f) s).
Proof.
  intros Hid Href. split; trivial. simpl. intros u' Hu'.
  apply In_update_where in Hu'. destruct Hu' as [u [Hu ->]]. exists u.
  destruct (p u); auto.
Qed.

Lemma same_accounts_step s s' : write_step s s' -> same_accounts s s'.
Proof.
  intros Hstep.
  destruct Hstep as
    [uid s|uid s|uid s|uid s|uid s|uid requested effective s|uid today s
    |uid tid reward ans now s s' E|uid amount_ s|uid s
    |referrer referred s s' E|uid s|uid amount_ksh phone_ method_ s];
    try (unfold insert_task_completion in E; cbv zeta in E;
         destruct (existsb _ (task_completions s)); [discriminate|];
         injection E as <-);
    try (unfold insert_referral_reward in E;
         destruct (existsb _ (referral_rewards s)); [discriminate|];
         injection E as <-);
    try (now apply same_accounts_users);
    try (now apply same_accounts_update).
  split; trivial. simpl. intros u Hu. apply filter_In in Hu. exists u. tauto.
Qed.

Lemma same_accounts_insert_daily uid today tid s :
  same_accounts s (insert_or_ignore_daily_task uid today tid s).
Proof.
  unfold insert_or_ignore_daily_task.
  destruct (existsb _ (daily_tasks s)); now apply same_accounts_users.
Qed.

Lemma same_accounts_serve_with f r s : same_accounts s (serve_with f r s).
Proof.
  apply (closed_serve_with (same_accounts s)).
  - intros t t' H Hstep. apply (same_accounts_trans s t t'); trivial.
    now apply same_accounts_step.
  - apply preserves_ensureDailyTasks.
    + intros t t' H Hstep. apply (same_accounts_trans s t t'); trivial.
      now apply same_accounts_step.
    + intros uid today tid t H. apply (same_accounts_trans s t _); trivial.
      apply same_accounts_insert_daily.
  - apply same_accounts_refl.
Qed.

(** X9.  No request creates an account, gives an account another id,
    changes who referred it, or writes the catalog: whatever requests are
    served and wherever they stop, every account of the store they leave
    is an account of the store they started from, with the same id and
    the same referrer, and the catalog is the same list of tasks. *)
Theorem requests_keep_accounts_and_catalog (rs : list (fault * request))
    (s : db) :
  same_accounts s (serve_all_with rs s).
Proof.
  unfold serve_all_with. revert s.
  induction rs as [|[f r] rs IH]; intros s; simpl;
    [apply same_accounts_refl|].
  apply (same_accounts_trans s (serve_with f r s)); [|apply IH].
  apply same_accounts_serve_with.
Qed.

(** ** At most five tasks a day *)

Lemma assignments_filter_le uid day (p : DailyTasks.row -> bool) s s' :
  daily_tasks s' = filter p (daily_tasks s) ->
  (List.length (assignments_of uid day s') <= List.length (assignments_of uid day s))%nat.
Proof.
  intros E. unfold assignments_of. rewrite E, filter_filter.
  apply filter_and_length_le.
Qed.

Lemma assignments_within_five_same s s' :
  daily_tasks s' = daily_tasks s ->
  assignments_within_five s -> assignments_within_five s'.
Proof. unfold assignments_within_five, assignments_of. now intros ->. Qed.

Lemma assignments_within_five_step s s' :
  assignments_within_five s -> write_step s s' -> assignments_within_five s'.
Proof.
  intros H Hstep.
  destruct Hstep as
    [uid s|uid s|uid s|uid s|uid s|uid requested effective s|uid today s
    |uid tid reward ans now s s' E|uid amount_ s|uid s
    |referrer referred s s' E|uid s|uid amount_ksh phone_ method_ s];
    try (unfold insert_task_completion in E; cbv zeta in E;
         destruct (existsb _ (task_completions s)); [discriminate|];
         injection E as <-);
    try (unfold insert_referral_reward in E;
         destruct (existsb _ (referral_rewards s)); [discriminate|];
         injection E as <-);
    try (now apply (assignments_within_five_same s)).
  - intros u d. specialize (H u d).
    pose proof (assignments_filter_le u d
                  (fun r => negb (DailyTasks.user_id r =? uid)) s
                  (delete_daily_tasks_of uid s) eq_refl). lia.
  - intros u d. specialize (H u d).
    pose proof (assignments_filter_le u d
                  (fun r => negb (is_assignment uid today r)) s
                  (delete_daily_tasks_on uid today s) eq_refl). lia.
Qed.

Lemma assignments_insert uid today tid u d s :
  (List.length (assignments_of u d (insert_or_ignore_daily_task uid today tid s))
   <= List.length (assignments_of u d s)
      + (if is_assignment u d (DailyTasks.mk uid today tid) then 1 else 0))%nat.
Proof.
  unfold insert_or_ignore_daily_task.
  destruct (existsb _ (daily_tasks s)); [lia|].
  unfold assignments_of. simpl. rewrite filter_app, length_app. simpl.
  destruct (is_assignment u d (DailyTasks.mk uid today tid)); simpl; lia.
Qed.

Lemma assignments_delete_on uid today s :
  assignments_of uid today (delete_daily_tasks_on uid today s) = [].
Proof.
  unfold assignments_of, delete_daily_tasks_on, delete_where. simpl.
  rewrite filter_filter. apply filter_none. intros d _.
  now destruct (is_assignment uid today d).
Qed.

Lemma is_assignment_other uid today u d tid :
  is_assignment u d (DailyTasks.mk uid today tid) = true ->
  u = uid /\ d = today.
Proof.
  unfold is_assignment. simpl. intros H. apply andb_true_iff in H.
  destruct H as [H1 H2]. apply Z.eqb_eq in H1. apply String.eqb_eq in H2.
  auto.
Qed.

Lemma keeps_insert_loop uid today (l : list Tasks.row) :
  keeps assignments_within_five
    (fun s => (List.length (assignments_of uid today s) + List.length l <= 5)%nat)
    (for_of l (fun t => run (insert_or_ignore_daily_task uid today (Tasks.id t))))
    (fun _ _ => True).
Proof.
  induction l as [|t l IH]; simpl.
  - apply keeps_ret. auto.
  - apply keeps_bind
      with (Q := fun _ s =>
                   (List.length (assignments_of uid today s) + List.length l
                    <= 5)%nat);
      [|intros []; exact IH].
    apply keeps_run. intros s H Hlen.
    assert (Hown := assignments_insert uid today (Tasks.id t) uid today s).
    rewrite is_assignment_mk in Hown. split; [|simpl in Hlen; lia].
    intros u d.
    pose proof (assignments_insert uid today (Tasks.id t) u d s) as Hud.
    destruct (is_assignment u d (DailyTasks.mk uid today (Tasks.id t))) eqn:E.
    + apply is_assignment_other in E. destruct E as [-> ->].
      simpl in Hlen. lia.
    + specialize (H u d). lia.
Qed.

Lemma assignments_within_five_ensure shuffle now uid :
  preserves assignments_within_five (ensureDailyTasks shuffle now uid).
Proof.
  unfold preserves, ensureDailyTasks. cbv zeta.
  eapply keeps_bind; [apply keeps_query|]. intros existing.
  destruct (5 <=? List.length existing)%nat; [apply keeps_ret; auto|].
  eapply keeps_bind.
  { apply keeps_run
      with (Q := fun _ s =>
                   assignments_of uid (Clock.dayUTC now) s = []).
    intros s H _. split; [|apply assignments_delete_on].
    eapply assignments_within_five_step; [exact H|constructor]. }
  intros []. eapply keeps_bind; [apply keeps_query|]. intros picked.
  apply keeps_bind with (Q := fun _ _ => True);
    [|intros []; apply keeps_ret; auto].
  eapply keeps_weaken;
    [apply (keeps_insert_loop uid (Clock.dayUTC now) picked)| |auto].
  intros s _ [Hnone ->]. rewrite Hnone. unfold pick_tasks.
  rewrite length_firstn. change (List.length (@nil DailyTasks.row)) with 0%nat.
  lia.
Qed.

(** X10.  No user ever has more than five tasks assigned on a day: from a
    store where that holds, every store that requests lead to is such a
    store, whatever the random order of the draw gives and wherever a
    request stops. *)
Theorem at_most_five_assignments_a_day (rs : list (fault * request)) (s : db)
    (Hinit : assignments_within_five s) :
  assignments_within_five (serve_all_with rs s).
Proof.
  apply closed_serve_all_with; trivial.
  - exact assignments_within_five_step.
  - exact assignments_within_five_ensure.
Qed.

Lemma at_most_five_assignments_a_day_witness :
  assignments_within_five
    (serve_all_with
       [(None, GetTasks Demo.in_order Demo.t1 1);
        (Some 3%nat, GetTasks Demo.reversed Demo.t2 1)]
       Demo.after_catalog_change).
Proof.
  apply at_most_five_assignments_a_day.
  intros uid day. unfold assignments_of.
  eapply Nat.le_trans; [apply filter_length_le|]. vm_compute. lia.
Defined.

(** ** A request of an account that is gone *)

Lemma update_where_none {A : Type} (p : A -> bool) (f : A -> A) l :
  (forall x, In x l -> p x = false) -> update_where p f l = l.
Proof.
  intros H. unfold update_where. rewrite <- (map_id l) at 2.
  apply map_ext_in. intros x Hx. now rewrite (H x Hx).
Qed.

Lemma credit_balance_nobody uid amount s :
  lookup_user uid s = None -> credit_balance uid amount s = s.
Proof.
  intros H. unfold credit_balance, set_users.
  rewrite update_where_none; [now destruct s|].
  intros x Hx. exact (find_none _ _ H x Hx).
Qed.

(** X11.  A token outlives its account: the completion handler does not
    check that the caller still has a row in [users].  When it has none
    and the task is active, assigned to that id today, under the daily
    limit and not recorded in this second, the handler inserts the
    completion record, credits nobody, grants no referral bonus, and then
    fails reading the balance back instead of answering: the store keeps a
    completion record of a user who does not exist. *)
Theorem completion_of_missing_account_is_recorded (now uid tid : Z)
    (body : complete_body) (s : db) (task : Tasks.row) (d : DailyTasks.row)
    (Hgone : lookup_user uid (sweep now s) = None)
    (Htask : active_task tid (sweep now s) = Some task)
    (Hassigned : assigned_today uid (Clock.dayUTC now) tid (sweep now s) = Some d)
    (Hlimit : (List.length (completed_today uid now (sweep now s)) < daily_limit)%nat)
    (Hfresh : existsb (fun c => (TaskCompletions.user_id c =? uid)
                                && (TaskCompletions.task_id c =? tid)
                                && (TaskCompletions.created_at c
                                    =? Clock.sql_datetime now))
                (task_completions (sweep now s)) = false) :
  let h := post_tasks_complete now uid tid body in
  run_outcome h s = Rejected
  /\ task_completions (run_store h s)
     = task_completions (sweep now s)
       ++ [completion_row now uid tid (Tasks.reward_ksh task) body]
  /\ users (run_store h s) = users (sweep now s)
  /\ referral_rewards (run_store h s) = referral_rewards (sweep now s)
  /\ forall v, In v (users (run_store h s)) -> Users.id v <> uid.
Proof.
  cbv zeta. unfold run_outcome, run_store.
  rewrite post_tasks_complete_None. cbv zeta. rewrite Htask, Hassigned.
  apply Nat.leb_gt in Hlimit. rewrite Hlimit.
  unfold insert_task_completion. cbv zeta. rewrite Hfresh.
  set (s1 := set_task_completions _ (sweep now s)).
  assert (H1 : lookup_user uid s1 = None) by exact Hgone.
  rewrite (credit_balance_nobody uid _ s1 H1).
  unfold referral_effect. rewrite !H1. cbn [fst snd].
  do 4 (split; [reflexivity|]).
  intros v Hv E. pose proof (find_none _ _ Hgone v Hv) as Hn.
  simpl in Hn. apply Z.eqb_neq in Hn. contradiction.
Qed.

Lemma completion_of_missing_account_is_recorded_witness :
  let s := run_store (get_tasks Demo.in_order Demo.t1 9) Demo.small_catalog_store in
  run_outcome (post_tasks_complete Demo.t1 9 2 Demo.body) s = Rejected
  /\ task_completions (run_store (post_tasks_complete Demo.t1 9 2 Demo.body) s)
     = [completion_row Demo.t1 9 2 12 Demo.body].
Proof.
  cbv zeta.
  pose proof (completion_of_missing_account_is_recorded Demo.t1 9 2 Demo.body
                (run_store (get_tasks Demo.in_order Demo.t1 9)
                   Demo.small_catalog_store)
                (Demo.caption 2) (DailyTasks.mk 9 "2026-01-18" 2)
                eq_refl eq_refl eq_refl) as H.
  cbv zeta in H. refine (let H' := H _ eq_refl in conj (proj1 H') (proj1 (proj2 H'))).
  vm_compute. lia.
Defined.

(** ** Rounding to the nearest Number *)

Module Binary64Facts.
Import Binary64.

Lemma pow2_pos k : 0 <= k -> 0 < 2 ^ k.
Proof. intros. apply Z.pow_pos_nonneg; lia. Qed.

Lemma unit_split e k : -1074 <= e -> e <= k -> 2 ^ (k + 1074) = 2 ^ (k - e) * 2 ^ (e + 1074).
Proof. intros. rewrite <- Z.pow_add_r by lia. f_equal. lia. Qed.

Lemma pow2_succ k : 0 < k -> 2 ^ k = 2 * 2 ^ (k - 1).
Proof. intros. replace k with (Z.succ (k - 1)) at 1 by lia. apply Z.pow_succ_r. lia. Qed.

Lemma scaled_nonneg m e : scaled (mk false m e) = m * 2 ^ (e + 1074).
Proof. reflexivity. Qed.

Lemma round_small m e :
  0 <= m -> -1074 <= e -> Z.log2 m < 53 -> round false m e = mk false m e.
Proof.
  intros Hm He Hl. unfold round.
  destruct (Z.leb_spec (Z.max (Z.log2 m + 1 - 53) (-1074 - e)) 0); [reflexivity | lia].
Qed.

Lemma small_below m : 0 <= m -> Z.log2 m < 53 -> m < 2 ^ 53.
Proof.
  intros Hm Hl. destruct (Z.eq_dec m 0) as [-> | Hn]; [reflexivity |].
  apply Z.log2_lt_pow2; lia.
Qed.

Lemma large_quotient m s :
  0 <= m -> s = Z.log2 m - 52 -> 0 < s -> 2 ^ 52 <= m / 2 ^ s < 2 ^ 53.
Proof.
  intros Hm -> Hs.
  assert (Hpos : 0 < m).
  { destruct (Z.eq_dec m 0) as [-> | ?]; [simpl in Hs; lia | lia]. }
  pose proof (Z.log2_spec m Hpos) as [Hlo Hhi].
  pose proof (pow2_pos (Z.log2 m - 52) ltac:(lia)) as HP.
  replace (Z.log2 m) with (52 + (Z.log2 m - 52)) in Hlo at 1 by lia.
  replace (Z.succ (Z.log2 m)) with (53 + (Z.log2 m - 52)) in Hhi by lia.
  rewrite Z.pow_add_r in Hlo, Hhi by lia.
  split.
  - apply Z.div_le_lower_bound; lia.
  - apply Z.div_lt_upper_bound; lia.
Qed.

Lemma round_large m e s :
  0 <= m -> -1074 <= e -> s = Z.log2 m - 52 -> 0 < s ->
  exists q',
    m / 2 ^ s <= q' <= m / 2 ^ s + 1 /\
    (2 * (m mod 2 ^ s) < 2 ^ s -> q' = m / 2 ^ s) /\
    negative (round false m e) = false /\
    0 <= mant (round false m e) < 2 ^ 53 /\
    e <= expo (round false m e) /\
    scaled (round false m e) = q' * 2 ^ s * 2 ^ (e + 1074).
Proof.
  intros Hm He Hs Hpos.
  pose proof (large_quotient m s Hm Hs Hpos) as Hq.
  unfold round.
  replace (Z.max (Z.log2 m + 1 - 53) (-1074 - e)) with s by lia.
  destruct (Z.leb_spec s 0) as [? | _]; [lia |].
  set (q := m / 2 ^ s) in *. set (R := m mod 2 ^ s).
  set (up := (2 ^ (s - 1) <? R) || ((R =? 2 ^ (s - 1)) && Z.odd q)).
  exists (if up then q + 1 else q).
  assert (Hup : 2 * R < 2 ^ s -> up = false).
  { intros H. rewrite (pow2_succ s Hpos) in H. unfold up.
    destruct (Z.ltb_spec (2 ^ (s - 1)) R); [lia |].
    destruct (Z.eqb_spec R (2 ^ (s - 1))); [lia | reflexivity]. }
  split; [destruct up; lia |].
  split; [intros H; rewrite (Hup H); reflexivity |].
  destruct (Z.eqb_spec (if up then q + 1 else q) (2 ^ 53)) as [E | E].
  - rewrite E. cbn [negative mant expo]. rewrite scaled_nonneg.
    repeat split; try lia.
    replace (e + s + 1 + 1074) with (1 + s + (e + 1074)) by lia.
    rewrite !Z.pow_add_r by lia. lia.
  - cbn [negative mant expo]. rewrite scaled_nonneg.
    repeat split; try (destruct up; lia).
    replace (e + s + 1074) with (s + (e + 1074)) by lia.
    rewrite Z.pow_add_r by lia. lia.
Qed.

Lemma round_shape m e :
  0 <= m -> -1074 <= e ->
  negative (round false m e) = false /\
  0 <= mant (round false m e) < 2 ^ 53 /\ e <= expo (round false m e).
Proof.
  intros Hm He. destruct (Z_lt_ge_dec (Z.log2 m) 53) as [Hl | Hl].
  - rewrite (round_small m e Hm He Hl). cbn. pose proof (small_below m Hm Hl). lia.
  - destruct (round_large m e (Z.log2 m - 52) Hm He eq_refl ltac:(lia)) as (q' & _ & _ & H1 & H2 & H3 & _).
    auto.
Qed.

(** Rounding does not pass a number of the format above the exact value. *)
Lemma round_le m e c :
  0 <= m -> -1074 <= e ->
  negative c = false -> 0 <= mant c < 2 ^ 53 -> -1074 <= expo c ->
  m * 2 ^ (e + 1074) <= scaled c ->
  scaled (round false m e) <= scaled c.
Proof.
  intros Hm He Hs Hc Hec Hle.
  destruct (Z_lt_ge_dec (Z.log2 m) 53) as [Hl | Hl].
  { rewrite (round_small m e Hm He Hl). exact Hle. }
  set (s := Z.log2 m - 52).
  assert (Hpos : 0 < s) by (unfold s; lia).
  destruct (round_large m e s Hm He eq_refl Hpos) as (q' & Hq' & Hdown & _ & _ & _ & ->).
  pose proof (large_quotient m s Hm eq_refl Hpos) as Hq.
  pose proof (Z.div_mod m (2 ^ s) ltac:(pose proof (pow2_pos s); lia)) as Hdiv.
  pose proof (Z.mod_pos_bound m (2 ^ s) (pow2_pos s ltac:(lia))) as HR.
  destruct c as [sg C Ec]. cbn [negative mant expo] in *. subst sg.
  rewrite scaled_nonneg in *.
  pose proof (pow2_pos s ltac:(lia)) as HP.
  pose proof (pow2_pos (e + 1074) ltac:(lia)) as HV.
  set (q := m / 2 ^ s) in *. set (R := m mod 2 ^ s) in *.
  set (P := 2 ^ s) in *. set (V := 2 ^ (e + 1074)) in *.
  destruct (Z_le_gt_dec (e + s) Ec) as [Hge | Hlt].
  - rewrite (unit_split (e + s) Ec) in * by lia.
    replace (e + s + 1074) with (s + (e + 1074)) in * by lia.
    rewrite Z.pow_add_r in * by lia. fold P V in Hle |- *.
    pose proof (pow2_pos (Ec - (e + s)) ltac:(lia)) as HG.
    set (G := 2 ^ (Ec - (e + s))) in *.
    assert (Hm' : m <= C * G * P).
    { apply Z.mul_le_mono_pos_r with (p := V); [exact HV |]. lia. }
    assert (q' <= C * G).
    { destruct (Z_lt_ge_dec q (C * G)); [lia |].
      assert (q = C * G) by nia. rewrite Hdown; nia. }
    apply Z.mul_le_mono_nonneg_r with (p := P * V) in H; [| nia]. lia.
  - exfalso.
    pose proof (unit_split Ec (e + s - 1) ltac:(lia) ltac:(lia)) as E1.
    assert (E : 2 ^ (e + s - 1 + 1074) = 2 ^ (s - 1) * V).
    { unfold V. rewrite <- Z.pow_add_r by lia. f_equal. lia. }
    rewrite E in E1.
    pose proof (pow2_pos (Ec + 1074) ltac:(lia)) as HW.
    pose proof (pow2_pos (e + s - 1 - Ec) ltac:(lia)) as HG.
    pose proof (pow2_succ s Hpos) as HP2. fold P in HP2.
    set (W := 2 ^ (Ec + 1074)) in *. set (G := 2 ^ (e + s - 1 - Ec)) in *.
    set (H := 2 ^ (s - 1)) in *.
    assert (2 ^ 52 * P * V <= C * W) by nia.
    assert (2 ^ 53 * (G * W) <= C * W) by nia.
    nia.
Qed.

(** Nor below a number of the format under the exact value. *)
Lemma round_ge m e c :
  0 <= m -> -1074 <= e ->
  negative c = false -> 0 <= mant c < 2 ^ 53 -> -1074 <= expo c ->
  scaled c <= m * 2 ^ (e + 1074) ->
  scaled c <= scaled (round false m e).
Proof.
  intros Hm He Hs Hc Hec Hle.
  destruct (Z_lt_ge_dec (Z.log2 m) 53) as [Hl | Hl].
  { rewrite (round_small m e Hm He Hl). exact Hle. }
  set (s := Z.log2 m - 52).
  assert (Hpos : 0 < s) by (unfold s; lia).
  destruct (round_large m e s Hm He eq_refl Hpos) as (q' & Hq' & _ & _ & _ & _ & ->).
  pose proof (large_quotient m s Hm eq_refl Hpos) as Hq.
  pose proof (Z.div_mod m (2 ^ s) ltac:(pose proof (pow2_pos s); lia)) as Hdiv.
  pose proof (Z.mod_pos_bound m (2 ^ s) (pow2_pos s ltac:(lia))) as HR.
  destruct c as [sg C Ec]. cbn [negative mant expo] in *. subst sg.
  rewrite scaled_nonneg in *.
  pose proof (pow2_pos s ltac:(lia)) as HP.
  pose proof (pow2_pos (e + 1074) ltac:(lia)) as HV.
  set (q := m / 2 ^ s) in *. set (R := m mod 2 ^ s) in *.
  set (P := 2 ^ s) in *. set (V := 2 ^ (e + 1074)) in *.
  destruct (Z_le_gt_dec (e + s) Ec) as [Hge | Hlt].
  - rewrite (unit_split (e + s) Ec) in * by lia.
    replace (e + s + 1074) with (s + (e + 1074)) in * by lia.
    rewrite Z.pow_add_r in * by lia. fold P V in Hle |- *.
    pose proof (pow2_pos (Ec - (e + s)) ltac:(lia)) as HG.
    set (G := 2 ^ (Ec - (e + s))) in *.
    assert (Hm' : C * G * P <= m).
    { apply Z.mul_le_mono_pos_r with (p := V); [exact HV |]. lia. }
    assert (C * G <= q') by nia.
    apply Z.mul_le_mono_nonneg_r with (p := P * V) in H; [| nia]. lia.
  - pose proof (unit_split Ec (e + s - 1) ltac:(lia) ltac:(lia)) as E1.
    assert (E : 2 ^ (e + s - 1 + 1074) = 2 ^ (s - 1) * V).
    { unfold V. rewrite <- Z.pow_add_r by lia. f_equal. lia. }
    rewrite E in E1.
    pose proof (pow2_pos (Ec + 1074) ltac:(lia)) as HW.
    pose proof (pow2_pos (e + s - 1 - Ec) ltac:(lia)) as HG.
    pose proof (pow2_succ s Hpos) as HP2. fold P in HP2.
    set (W := 2 ^ (Ec + 1074)) in *. set (G := 2 ^ (e + s - 1 - Ec)) in *.
    set (H := 2 ^ (s - 1)) in *.
    assert (C * W <= 2 ^ 53 * (G * W)) by nia.
    assert (2 ^ 52 * P * V <= q' * P * V).
    { apply Z.mul_le_mono_nonneg_r; [nia |]. apply Z.mul_le_mono_nonneg_r; lia. }
    nia.
Qed.

(** A value under the midpoint above a number of 53 bits rounds no higher than that number. *)
Lemma round_under_midpoint m e c :
  0 <= m -> -1074 <= e ->
  negative c = false -> 2 ^ 52 <= mant c < 2 ^ 53 -> -1074 <= expo c ->
  2 * (m * 2 ^ (e + 1074)) < (2 * mant c + 1) * 2 ^ (expo c + 1074) ->
  scaled (round false m e) <= scaled c.
Proof.
  intros Hm He Hs Hc Hec Hmid.
  destruct (Z_le_gt_dec (m * 2 ^ (e + 1074)) (scaled c)) as [Hle | Hgt].
  { apply round_le; auto; lia. }
  destruct c as [sg C Ec]. cbn [negative mant expo] in *. subst sg.
  rewrite scaled_nonneg in *.
  pose proof (pow2_pos (e + 1074) ltac:(lia)) as HV.
  pose proof (pow2_pos (Ec + 1074) ltac:(lia)) as HW.
  destruct (Z_lt_ge_dec (Z.log2 m) 53) as [Hl | Hl].
  { exfalso. pose proof (small_below m Hm Hl) as Hb.
    destruct (Z_le_gt_dec Ec e) as [Hge | Hlt].
    - rewrite (unit_split Ec e) in * by lia.
      pose proof (pow2_pos (e - Ec) ltac:(lia)) as HG.
      set (W := 2 ^ (Ec + 1074)) in *. set (G := 2 ^ (e - Ec)) in *.
      assert (C < m * G) by nia. assert (2 * (m * G) < 2 * C + 1) by nia. lia.
    - rewrite (unit_split e Ec) in * by lia.
      pose proof (pow2_pos (Ec - e) ltac:(lia)) as HG.
      pose proof (pow2_succ (Ec - e) ltac:(lia)) as HG2.
      pose proof (pow2_pos (Ec - e - 1) ltac:(lia)) as HG3.
      set (V := 2 ^ (e + 1074)) in *. set (G := 2 ^ (Ec - e)) in *.
      set (G' := 2 ^ (Ec - e - 1)) in *.
      assert (C * G < m) by nia. nia. }
  set (s := Z.log2 m - 52).
  assert (Hpos : 0 < s) by (unfold s; lia).
  destruct (round_large m e s Hm He eq_refl Hpos) as (q' & Hq' & Hdown & _ & _ & _ & ->).
  pose proof (large_quotient m s Hm eq_refl Hpos) as Hq.
  pose proof (Z.div_mod m (2 ^ s) ltac:(pose proof (pow2_pos s); lia)) as Hdiv.
  pose proof (Z.mod_pos_bound m (2 ^ s) (pow2_pos s ltac:(lia))) as HR.
  pose proof (pow2_pos s ltac:(lia)) as HP.
  set (q := m / 2 ^ s) in *. set (R := m mod 2 ^ s) in *.
  set (P := 2 ^ s) in *.
  assert (Ee : Ec = e + s).
  { destruct (Z.lt_trichotomy Ec (e + s)) as [Hlt | [E | Hgt']]; [exfalso | exact E | exfalso].
    - pose proof (unit_split Ec (e + s - 1) ltac:(lia) ltac:(lia)) as E1.
      assert (E : 2 ^ (e + s - 1 + 1074) = 2 ^ (s - 1) * 2 ^ (e + 1074)).
      { rewrite <- Z.pow_add_r by lia. f_equal. lia. }
      rewrite E in E1.
      pose proof (pow2_pos (e + s - 1 - Ec) ltac:(lia)) as HG.
      pose proof (pow2_succ s Hpos) as HP2. fold P in HP2.
      pose proof (pow2_pos (s - 1) ltac:(lia)) as HH.
      set (V := 2 ^ (e + 1074)) in *. set (W := 2 ^ (Ec + 1074)) in *.
      set (G := 2 ^ (e + s - 1 - Ec)) in *. set (H := 2 ^ (s - 1)) in *.
      assert (2 * (2 ^ 52 * P * V) <= 2 * (m * V)) by nia.
      assert ((2 * C + 1) * W < 2 ^ 54 * W) by nia.
      assert (2 ^ 53 * (H * V) * 2 < 2 ^ 54 * W) by nia.
      nia.
    - pose proof (unit_split (e + s + 1) Ec ltac:(lia) ltac:(lia)) as E1.
      assert (E : 2 ^ (e + s + 1 + 1074) = 2 * P * 2 ^ (e + 1074)).
      { replace (e + s + 1 + 1074) with (1 + s + (e + 1074)) by lia.
        rewrite !Z.pow_add_r by lia. reflexivity. }
      rewrite E in E1.
      pose proof (pow2_pos (Ec - (e + s + 1)) ltac:(lia)) as HG.
      set (V := 2 ^ (e + 1074)) in *. set (W := 2 ^ (Ec + 1074)) in *.
      set (G := 2 ^ (Ec - (e + s + 1))) in *.
      assert (m * V < 2 ^ 53 * P * V) by nia.
      assert (2 ^ 52 * (2 * P * V) <= C * W) by nia.
      nia. }
  subst Ec.
  assert (EP : 2 ^ (e + s + 1074) = P * 2 ^ (e + 1074)).
  { replace (e + s + 1074) with (s + (e + 1074)) by lia. apply Z.pow_add_r; lia. }
  rewrite EP in *.
  set (V := 2 ^ (e + 1074)) in *.
  assert (C * P < m).
  { apply Z.mul_lt_mono_pos_r with (p := V); [exact HV | lia]. }
  assert (2 * m < (2 * C + 1) * P).
  { apply Z.mul_lt_mono_pos_r with (p := V); [exact HV | lia]. }
  assert (q = C) by nia.
  rewrite Hdown by nia. subst q. lia.
Qed.

Lemma of_Z_small k : 0 <= k < 2 ^ 53 -> of_Z k = mk false k 0.
Proof.
  intros Hk. unfold of_Z.
  destruct (Z.ltb_spec k 0) as [? | _]; [lia |].
  rewrite Z.abs_eq by lia. apply round_small; try lia.
  destruct (Z.eq_dec k 0) as [-> | Hn]; [reflexivity |].
  apply Z.log2_lt_pow2; lia.
Qed.

(** The largest Number under 1 is [1 - 2 ^ -53]. *)
Lemma unit_interval_bound r : unit_interval r -> scaled r <= 2 ^ 1074 - 2 ^ 1021.
Proof.
  intros ([Hm He] & Hs & Hlt). destruct r as [sg m e]. cbn [negative mant expo] in *. subst sg.
  rewrite scaled_nonneg in *.
  change (2 ^ 1074) with (2 ^ 53 * 2 ^ 1021) in *.
  destruct (Z_le_gt_dec (-53) e) as [Hge | Hlt'].
  - rewrite (unit_split (-53) e) in * by lia. change (2 ^ (-53 + 1074)) with (2 ^ 1021) in *.
    pose proof (pow2_pos 1021 ltac:(lia)) as HW. set (W := 2 ^ 1021) in *.
    assert (m * 2 ^ (e - -53) < 2 ^ 53).
    { apply Z.mul_lt_mono_pos_r with (p := W); [exact HW | lia]. }
    nia.
  - pose proof (unit_split e (-54) ltac:(lia) ltac:(lia)) as E.
    change (2 ^ (-54 + 1074)) with (2 ^ 1020) in E.
    change (2 ^ 1021) with (2 * 2 ^ 1020). rewrite E.
    pose proof (pow2_pos (-54 - e) ltac:(lia)) as HG.
    pose proof (pow2_pos (e + 1074) ltac:(lia)) as HV.
    set (G := 2 ^ (-54 - e)) in *. set (V := 2 ^ (e + 1074)) in *.
    nia.
Qed.

Lemma floor_lt d n :
  negative d = false -> -1074 <= expo d -> scaled d < n * 2 ^ 1074 -> floor d < n.
Proof.
  intros Hs He Hlt. destruct d as [sg m e]. cbn [negative mant expo] in *. subst sg.
  rewrite scaled_nonneg in Hlt. unfold floor, signed. cbn [negative mant expo].
  destruct (Z.leb_spec 0 e) as [Hge | Hneg].
  - rewrite Z.pow_add_r in Hlt by lia.
    apply Z.mul_lt_mono_pos_r with (p := 2 ^ 1074); [reflexivity | lia].
  - apply Z.div_lt_upper_bound; [apply pow2_pos; lia |].
    pose proof (unit_split e 0 ltac:(lia) ltac:(lia)) as E.
    change (0 + 1074) with 1074 in E. change (0 - e) with (- e) in E. rewrite E in Hlt.
    pose proof (pow2_pos (e + 1074) ltac:(lia)) as HV.
    apply Z.mul_lt_mono_pos_r with (p := 2 ^ (e + 1074)); [exact HV | lia].
Qed.

Lemma floor_ge d n :
  negative d = false -> -1074 <= expo d -> n * 2 ^ 1074 <= scaled d -> n <= floor d.
Proof.
  intros Hs He Hle. destruct d as [sg m e]. cbn [negative mant expo] in *. subst sg.
  rewrite scaled_nonneg in Hle. unfold floor, signed. cbn [negative mant expo].
  destruct (Z.leb_spec 0 e) as [Hge | Hneg].
  - rewrite Z.pow_add_r in Hle by lia.
    apply Z.mul_le_mono_pos_r with (p := 2 ^ 1074); [reflexivity | lia].
  - apply Z.div_le_lower_bound; [apply pow2_pos; lia |].
    pose proof (unit_split e 0 ltac:(lia) ltac:(lia)) as E.
    change (0 + 1074) with 1074 in E. change (0 - e) with (- e) in E. rewrite E in Hle.
    pose proof (pow2_pos (e + 1074) ltac:(lia)) as HV.
    apply Z.mul_le_mono_pos_r with (p := 2 ^ (e + 1074)); [exact HV | lia].
Qed.

(** The exact sum of two Numbers that are not negative, as [add] rounds it. *)
Lemma add_nonneg a b :
  negative a = false -> negative b = false -> 0 <= mant a -> 0 <= mant b ->
  -1074 <= expo a -> -1074 <= expo b ->
  exists m e, add a b = round false m e /\ 0 <= m /\ -1074 <= e /\
              m * 2 ^ (e + 1074) = scaled a + scaled b.
Proof.
  intros Ha Hb Hma Hmb Hea Heb.
  destruct a as [sa A Ea], b as [sb B Eb]. cbn [negative mant expo] in *. subst sa sb.
  unfold add, signed. cbn [negative mant expo].
  set (e := Z.min Ea Eb).
  pose proof (pow2_pos (Ea - e) ltac:(lia)) as H1.
  pose proof (pow2_pos (Eb - e) ltac:(lia)) as H2.
  set (sum := A * 2 ^ (Ea - e) + B * 2 ^ (Eb - e)).
  assert (Hsum : 0 <= sum) by (unfold sum; nia).
  exists sum, e.
  destruct (Z.ltb_spec sum 0) as [? | _]; [lia |].
  rewrite Z.abs_eq by exact Hsum.
  repeat split; try lia.
  rewrite !scaled_nonneg, (unit_split e Ea), (unit_split e Eb) by lia.
  unfold sum. ring.
Qed.

(** A product of a draw and a whole number [k] stays a Number under [k]. *)
Lemma mul_below r k :
  unit_interval r -> 0 <= k < 2 ^ 53 -> fits k = true ->
  let y := mul r (of_Z k) in
  negative y = false /\ 0 <= mant y < 2 ^ 53 /\ -1074 <= expo y /\
  scaled y <= scaled (below k).
Proof.
  intros Hr Hk Hfits y.
  pose proof (unit_interval_bound r Hr) as Hb.
  destruct Hr as ([Hm He] & Hs & _).
  unfold fits in Hfits. rewrite !andb_true_iff in Hfits.
  destruct Hfits as ((((F1 & F2) & F3) & F4) & _).
  apply Z.leb_le in F1, F3. apply Z.ltb_lt in F2, F4.
  assert (Ey : y = round false (mant r * k) (expo r)).
  { unfold y, mul. rewrite (of_Z_small k Hk), Hs. cbn [negative mant expo xorb].
    rewrite Z.add_0_r. reflexivity. }
  rewrite Ey.
  assert (Hmk : 0 <= mant r * k) by nia.
  destruct (round_shape (mant r * k) (expo r) Hmk ltac:(lia)) as (S1 & S2 & S3).
  split; [exact S1 |]. split; [exact S2 |]. split; [lia |].
  apply round_under_midpoint; try lia; try reflexivity.
  destruct r as [sg m e]. cbn [negative mant expo] in *. subst sg.
  rewrite scaled_nonneg in Hb.
  eapply Z.le_lt_trans; [| exact F4].
  apply Z.mul_le_mono_nonneg_l; [lia |].
  replace (m * k * 2 ^ (e + 1074)) with (k * (m * 2 ^ (e + 1074))) by ring.
  apply Z.mul_le_mono_nonneg_l; lia.
Qed.

Lemma in_range lo n k :
  Z.of_nat lo <= k < Z.of_nat lo + Z.of_nat n ->
  In k (map Z.of_nat (seq lo n)).
Proof.
  intros H. apply in_map_iff. exists (Z.to_nat k).
  split; [lia | apply in_seq; lia].
Qed.

Lemma fits_four_digits : fits 9000 = true.
Proof. vm_compute. reflexivity. Qed.

Lemma fits_rewards k : 1 <= k <= 21 -> fits k = true.
Proof.
  intros Hk.
  assert (H : forallb fits (map Z.of_nat (seq 1 21)) = true)
    by (vm_compute; reflexivity).
  rewrite forallb_forall in H. apply H. apply in_range. lia.
Qed.

(** [Math.floor(Math.random() * k)] is one of [0 .. k - 1]. *)
Lemma random_block r k :
  unit_interval r -> 0 < k < 2 ^ 53 -> fits k = true ->
  0 <= floor (mul r (of_Z k)) < k.
Proof.
  intros Hr Hk Hfits.
  destruct (mul_below r k Hr ltac:(lia) Hfits) as (Hs & Hm & He & Hle).
  unfold fits in Hfits. rewrite !andb_true_iff in Hfits.
  destruct Hfits as (_ & Hlt). apply Z.ltb_lt in Hlt.
  split.
  - apply floor_ge; trivial. unfold scaled, signed. rewrite Hs.
    pose proof (pow2_pos (expo (mul r (of_Z k)) + 1074) ltac:(lia)). nia.
  - apply floor_lt; trivial. lia.
Qed.

(** [Math.floor(1000 + Math.random() * 9000)] is one of [1000 .. 9999]. *)
Lemma random_four_digits r :
  unit_interval r ->
  1000 <= floor (add (of_Z 1000) (mul r (of_Z 9000))) <= 9999.
Proof.
  intros Hr.
  destruct (mul_below r 9000 Hr ltac:(lia) fits_four_digits) as (Hs & Hm & He & Hle).
  set (y := mul r (of_Z 9000)) in *.
  rewrite (of_Z_small 1000) by lia.
  destruct (add_nonneg (mk false 1000 0) y eq_refl Hs ltac:(simpl; lia)
              ltac:(lia) ltac:(simpl; lia) He) as (m & e & -> & H0 & H1 & Hsum).
  rewrite scaled_nonneg in Hsum. change (2 ^ (0 + 1074)) with (2 ^ 1074) in Hsum.
  destruct (round_shape m e H0 H1) as (S1 & S2 & S3).
  assert (Hy : 0 <= scaled y).
  { unfold scaled, signed. rewrite Hs.
    pose proof (pow2_pos (expo y + 1074) ltac:(lia)). nia. }
  assert (Hup : 1000 * 2 ^ 1074 + scaled (below 9000) <= scaled (below 10000))
    by (vm_compute; discriminate).
  assert (Hlt : scaled (below 10000) < 10000 * 2 ^ 1074)
    by (vm_compute; reflexivity).
  set (W := 2 ^ 1074) in *.
  split.
  - apply floor_ge; trivial; [lia |]. fold W.
    apply Z.le_trans with (scaled (mk false 1000 0)); [apply Z.le_refl |].
    apply round_ge; trivial; cbn [negative mant expo]; try lia.
    rewrite Hsum, scaled_nonneg. change (2 ^ (0 + 1074)) with W. lia.
  - assert (floor (round false m e) < 10000); [| lia].
    apply floor_lt; trivial; [lia |]. fold W.
    eapply Z.le_lt_trans; [| exact Hlt].
    apply round_le; trivial; try reflexivity.
    + unfold below. cbn [mant]. vm_compute. split; [discriminate | reflexivity].
    + vm_compute. discriminate.
    + rewrite Hsum. lia.
Qed.

Lemma lands_rewards k j : 1 <= k <= 21 -> 0 <= j < k -> Seed.lands k j = true.
Proof.
  intros Hk Hj.
  assert (H : forallb (fun k => forallb (Seed.lands k)
                                  (map Z.of_nat (seq 0 (Z.to_nat k))))
                      (map Z.of_nat (seq 1 21)) = true)
    by (vm_compute; reflexivity).
  rewrite forallb_forall in H. specialize (H k (in_range 1 21 k ltac:(lia))).
  rewrite forallb_forall in H. apply H. apply in_range. lia.
Qed.

(** Some value of [Math.random()] lands in each of the [k] blocks. *)
Lemma draw_for_lands k j :
  1 <= k <= 21 -> 0 <= j < k ->
  unit_interval (Seed.draw_for k j)
  /\ floor (mul (Seed.draw_for k j) (of_Z k)) = j.
Proof.
  intros Hk Hj. pose proof (lands_rewards k j Hk Hj) as H.
  unfold Seed.lands in H. cbv zeta in H. rewrite !andb_true_iff in H.
  destruct H as (((H1 & H2) & H3) & H4).
  apply Z.leb_le in H1. apply Z.ltb_lt in H2, H3. apply Z.eqb_eq in H4.
  split; [| exact H4].
  split; [split; [lia | simpl; lia] |]. split; [reflexivity | exact H3].
Qed.

(** On the sample values the rounding, the product and the sum are those
    of the library's IEEE 754 operations at 53 bits. *)
Lemma round_as_SpecFloat :
  forallb (fun me => same_number (round false (fst me) (snd me))
                       (SpecFloat.binary_normalize 53 1024 (fst me) (snd me) false))
          Cases.exact_values = true.
Proof. vm_compute. reflexivity. Qed.

Lemma mul_as_SpecFloat :
  forallb (fun r =>
     forallb (fun k =>
        same_number (mul r (of_Z k))
          (SpecFloat.SFmul 53 1024 (as_SpecFloat r) (as_SpecFloat (of_Z k))))
       Cases.factors) Cases.draws = true.
Proof. vm_compute. reflexivity. Qed.

Lemma add_as_SpecFloat :
  forallb (fun r =>
     forallb (fun k =>
        same_number (add (of_Z 1000) (mul r (of_Z k)))
          (SpecFloat.SFadd 53 1024 (as_SpecFloat (of_Z 1000))
             (SpecFloat.SFmul 53 1024 (as_SpecFloat r) (as_SpecFloat (of_Z k)))))
       Cases.factors) Cases.draws = true.
Proof. vm_compute. reflexivity. Qed.

Lemma unit_interval_samples :
  unit_interval Cases.half /\ unit_interval Cases.draw_0_3444444444444444
  /\ unit_interval Cases.draw_0_1111111111111111
  /\ unit_interval Cases.largest_draw.
Proof.
  repeat split; try reflexivity; vm_compute; discriminate.
Qed.

End Binary64Facts.

Import Binary64Facts.

(** ** Referral codes *)

Lemma length_append_string (a b : string) :
  String.length (a ++ b)%string = (String.length a + String.length b)%nat.
Proof. induction a as [|c a IH]; simpl; [reflexivity|now rewrite IH]. Qed.

Lemma all_chars_append p (a b : string) :
  Js.all_chars p (a ++ b)%string = Js.all_chars p a && Js.all_chars p b.
Proof.
  induction a as [|c a IH]; simpl; [reflexivity|].
  now rewrite IH, andb_assoc.
Qed.

Lemma all_chars_keep p (s : string) : Js.all_chars p (Js.keep p s) = true.
Proof.
  induction s as [|c s IH]; simpl; trivial.
  destruct (p c) eqn:E; simpl; [now rewrite E|trivial].
Qed.

Lemma all_chars_slice0 p n (s : string) :
  Js.all_chars p s = true -> Js.all_chars p (Clock.slice0 n s) = true.
Proof.
  revert s. induction n as [|n IH]; intros [|c s]; simpl; trivial.
  intros H. apply andb_true_iff in H. destruct H as [Hc Hs].
  now rewrite Hc, IH.
Qed.

Lemma length_slice0 n (s : string) :
  (String.length (Clock.slice0 n s) <= n)%nat.
Proof.
  revert s. induction n as [|n IH]; intros [|c s]; simpl; try lia.
  specialize (IH s). lia.
Qed.

Lemma length_map_chars f (s : string) :
  String.length (Js.map_chars f s) = String.length s.
Proof. induction s as [|c s IH]; simpl; [reflexivity|now rewrite IH]. Qed.

Lemma to_upper_alnum c :
  Js.is_alnum c = true -> Js.is_upper_or_digit (Js.to_upper c) = true.
Proof.
  destruct c as [[] [] [] [] [] [] [] []]; vm_compute; trivial.
Qed.

Lemma all_chars_to_upper (s : string) :
  Js.all_chars Js.is_alnum s = true ->
  Js.all_chars Js.is_upper_or_digit (Js.map_chars Js.to_upper s) = true.
Proof.
  induction s as [|c s IH]; simpl; trivial.
  intros H. apply andb_true_iff in H. destruct H as [Hc Hs].
  now rewrite (to_upper_alnum c Hc), IH.
Qed.

Lemma referral_base_shape (username : string) :
  (1 <= String.length (referral_base username) <= 6)%nat
  /\ Js.all_chars Js.is_upper_or_digit (referral_base username) = true.
Proof.
  unfold referral_base.
  pose proof (length_slice0 6 (Js.keep Js.is_alnum username)) as Hlen.
  pose proof (all_chars_to_upper _
                (all_chars_slice0 Js.is_alnum 6 _
                   (all_chars_keep Js.is_alnum username))) as Hall.
  rewrite <- (length_map_chars Js.to_upper) in Hlen.
  destruct (Js.map_chars Js.to_upper
              (Clock.slice0 6 (Js.keep Js.is_alnum username))) as [|c b].
  - split; [simpl; lia|reflexivity].
  - split; [simpl in *; lia|exact Hall].
Qed.

Lemma digit_is_digit n : Js.is_upper_or_digit (Clock.digit n) = true.
Proof.
  unfold Clock.digit, Js.is_upper_or_digit.
  assert (H : (Z.to_nat (n mod 10) < 10)%nat).
  { pose proof (Z.mod_pos_bound n 10). lia. }
  rewrite nat_ascii_embedding by lia. cbv zeta.
  apply orb_true_iff. left. apply andb_true_iff.
  split; apply Nat.leb_le; lia.
Qed.

Lemma digits_four fuel n :
  1000 <= n <= 9999 -> Js.digits (S (S (S (S fuel)))) n = Clock.pad4 n.
Proof.
  intros H. cbn [Js.digits].
  assert (E1 : (n <? 10) = false) by (apply Z.ltb_ge; lia).
  assert (E2 : (n / 10 <? 10) = false) by (apply Z.ltb_ge; div_lia).
  assert (E3 : (n / 10 / 10 <? 10) = false) by (apply Z.ltb_ge; div_lia).
  assert (E4 : (n / 10 / 10 / 10 <? 10) = true) by (apply Z.ltb_lt; div_lia).
  rewrite E1, E2, E3, E4. unfold Clock.pad4, Clock.pad2.
  replace (n / 100 / 10) with (n / 10 / 10 / 10) by div_lia.
  replace (n / 100) with (n / 10 / 10) by div_lia.
  reflexivity.
Qed.

Lemma number_to_string_four n :
  1000 <= n <= 9999 -> Js.number_to_string n = Clock.pad4 n.
Proof.
  intros H. unfold Js.number_to_string.
  assert (E : (n <? 0) = false) by (apply Z.ltb_ge; lia). rewrite E.
  assert (Hlog : 9 <= Z.log2 n).
  { change 9 with (Z.log2 1000). apply Z.log2_le_mono. lia. }
  destruct (Z.to_nat (Z.log2 n)) as [|[|[|f]]] eqn:Ef; try lia.
  now apply digits_four.
Qed.

(** X12.  A referral code is a base and four digits.  For every username
    and every Number [Math.random()] can return, from 0 to the largest
    under 1, with the product and the sum rounded as Numbers are, the code
    is the base, one to six capital letters and digits of ASCII (the first
    six letters and digits of the username in capitals, or USER when it
    has none), followed by the four digits of a number from 1000 to 9999;
    so it has five to ten characters, all capital letters and digits. *)
Theorem makeReferralCode_is_base_and_four_digits (username : string)
    (random : Binary64.t)
    (Hrandom : Binary64.unit_interval random) :
  let code := makeReferralCode username random in
  let base := referral_base username in
  exists n,
    1000 <= n <= 9999
    /\ code = (base ++ Clock.pad4 n)%string
    /\ (1 <= String.length base <= 6)%nat
    /\ (5 <= String.length code <= 10)%nat
    /\ Js.all_chars Js.is_upper_or_digit code = true
    /\ (Js.keep Js.is_alnum username = EmptyString -> base = "USER").
Proof.
  cbv zeta. unfold makeReferralCode. cbv zeta.
  set (n := Binary64.floor _).
  assert (Hn : 1000 <= n <= 9999) by now apply random_four_digits.
  destruct (referral_base_shape username) as [Hlen Hall].
  exists n. split; [exact Hn|].
  rewrite (number_to_string_four n Hn).
  split; [reflexivity|]. split; [exact Hlen|]. split; [|split].
  - rewrite length_append_string.
    change (String.length (Clock.pad4 n)) with 4%nat. lia.
  - rewrite all_chars_append, Hall. unfold Clock.pad4, Clock.pad2.
    cbn [Js.all_chars String.append andb]. now rewrite !digit_is_digit.
  - intros E. unfold referral_base. now rewrite E.
Qed.

Lemma makeReferralCode_is_base_and_four_digits_witness :
  exists n,
    1000 <= n <= 9999
    /\ makeReferralCode "j.doe_42!x" Cases.half
       = (referral_base "j.doe_42!x" ++ Clock.pad4 n)%string
    /\ referral_base "j.doe_42!x" = "JDOE42"
    /\ makeReferralCode "j.doe_42!x" Cases.half = "JDOE425500".
Proof.
  destruct (makeReferralCode_is_base_and_four_digits "j.doe_42!x" Cases.half)
    as [n [Hn [E _]]]; [apply unit_interval_samples|].
  exists n. split; [exact Hn|]. split; [exact E|]. split; reflexivity.
Defined.

(** Where rounding shows: at 0.3444444444444444 the exact value of
    [1000 + random * 9000] is just under 4100, and the Number nearest to it
    is 4100. *)
Lemma makeReferralCode_rounds_up_to_4100 :
  makeReferralCode "abc" Cases.draw_0_3444444444444444 = "ABC4100"
  /\ makeReferralCode "abc" Cases.largest_draw = "ABC9999"
  /\ makeReferralCode "abc" (Binary64.mk false 0 0) = "ABC1000".
Proof. repeat split; vm_compute; reflexivity. Qed.

Lemma retry_referral_code_spec taken username random tries i :
  exists k, (k <= tries)%nat
    /\ retry_referral_code tries taken username random i
         (makeReferralCode username (random i))
       = makeReferralCode username (random (i + k)%nat)
    /\ (forall j, (j < k)%nat ->
          taken (makeReferralCode username (random (i + j)%nat)) = true)
    /\ ((k < tries)%nat ->
        taken (makeReferralCode username (random (i + k)%nat)) = false).
Proof.
  revert i. induction tries as [|tries IH]; intros i.
  - exists 0%nat. rewrite Nat.add_0_r. simpl. repeat split; intros; lia.
  - simpl. destruct (taken (makeReferralCode username (random i))) eqn:E.
    + destruct (IH (S i)) as [k [Hk [Hr [Hbefore Hfree]]]].
      exists (S k). rewrite Nat.add_succ_r. simpl in Hr.
      split; [lia|]. split; [exact Hr|]. split.
      * intros [|j] Hj; [now rewrite Nat.add_0_r|].
        rewrite Nat.add_succ_r. apply (Hbefore j). lia.
      * intros Hlt. apply Hfree. lia.
    + exists 0%nat. rewrite Nat.add_0_r.
      split; [lia|]. split; [reflexivity|]. split; [intros; lia|auto].
Qed.

(** X13.  Registration tries at most nine codes for one username.  The
    code it goes on to insert is the first of the first eight candidates
    that no user has; when all eight are taken it is the ninth candidate,
    which is not looked up at all. *)
Theorem fresh_referral_code_is_first_free_of_eight
    (taken : string -> bool) (username : string)
    (random : nat -> Binary64.t) :
  let candidate i := makeReferralCode username (random i) in
  exists k, (k <= 8)%nat
    /\ fresh_referral_code taken username random = candidate k
    /\ (forall j, (j < k)%nat -> taken (candidate j) = true)
    /\ ((k < 8)%nat -> taken (candidate k) = false)
    /\ ((forall j, (j < 8)%nat -> taken (candidate j) = true) -> k = 8%nat).
Proof.
  cbv zeta. unfold fresh_referral_code.
  destruct (retry_referral_code_spec taken username random 8 0)
    as [k [Hk [Hr [Hbefore Hfree]]]].
  exists k. simpl in *. repeat split; trivial.
  intros Hall. destruct (Nat.eq_dec k 8) as [|Hne]; trivial.
  assert (Hlt : (k < 8)%nat) by lia.
  rewrite (Hall k Hlt) in Hfree. specialize (Hfree Hlt). discriminate.
Qed.

(** ** The seeded catalog *)

Lemma types_in_range t :
  In t Seed.TYPES -> 10 <= Seed.base t /\ Seed.base t <= Seed.max t <= 30.
Proof. intros [<-|[<-|[<-|[<-|[<-|[]]]]]]; simpl; lia. Qed.

Lemma rewardFor_in_range t random :
  In t Seed.TYPES -> Binary64.unit_interval random ->
  Seed.base t <= Seed.rewardFor t random <= Seed.max t
  /\ 10 <= Seed.rewardFor t random <= 30.
Proof.
  intros Hin Hr. destruct (types_in_range t Hin) as [Hb [Hbm Hm]].
  unfold Seed.rewardFor. cbv zeta.
  assert (Hk : 1 <= Seed.max t - Seed.base t + 1 <= 21) by lia.
  assert (Hk' : 0 < Seed.max t - Seed.base t + 1 < 2 ^ 53) by lia.
  pose proof (random_block random _ Hr Hk' (fits_rewards _ Hk)). lia.
Qed.

(** X14.  A seeded reward is between 10 and 30 whatever the draw.  For a
    Number [Math.random()] can return, from 0 to the largest under 1, with
    the product rounded as Numbers are, and a type whose range lies within
    10..30, as that of every type of [TYPES] does, the reward is between
    the base and the maximum of the type, and every whole amount of that
    range is the reward of some such Number. *)
Theorem rewardFor_between_base_and_max (t : Seed.task_type)
    (random : Binary64.t) :
  10 <= Seed.rewardFor t random <= 30
  /\ (Binary64.unit_interval random ->
      10 <= Seed.base t -> Seed.base t <= Seed.max t -> Seed.max t <= 30 ->
      Seed.base t <= Seed.rewardFor t random <= Seed.max t)
  /\ (In t Seed.TYPES -> 10 <= Seed.base t /\ Seed.base t <= Seed.max t <= 30)
  /\ (10 <= Seed.base t -> Seed.max t <= 30 ->
      forall r, Seed.base t <= r <= Seed.max t ->
        exists draw, Binary64.unit_interval draw
                     /\ Seed.rewardFor t draw = r).
Proof.
  unfold Seed.rewardFor. cbv zeta. split; [lia|]. split; [|split].
  - intros Hrandom Hb Hbm Hm.
    assert (Hk : 1 <= Seed.max t - Seed.base t + 1 <= 21) by lia.
    assert (Hk' : 0 < Seed.max t - Seed.base t + 1 < 2 ^ 53) by lia.
    pose proof (random_block random _ Hrandom Hk' (fits_rewards _ Hk)). lia.
  - apply types_in_range.
  - intros Hb Hm r Hr.
    destruct (draw_for_lands (Seed.max t - Seed.base t + 1) (r - Seed.base t)
                ltac:(lia) ltac:(lia)) as [Hdraw Hfloor].
    exists (Seed.draw_for (Seed.max t - Seed.base t + 1) (r - Seed.base t)).
    split; [exact Hdraw|]. rewrite Hfloor. lia.
Qed.

(** Where rounding shows: at 0.1111111111111111 the exact value of
    [random * 9] is just under 1, and the Number nearest to it is 1. *)
Lemma rewardFor_rounds_up_to_11 :
  Seed.rewardFor (Seed.mkType "audio_transcription" (Some "audio") 10 18)
                 Cases.draw_0_1111111111111111 = 11
  /\ Seed.rewardFor (Seed.mkType "audio_transcription" (Some "audio") 10 18)
                    Cases.largest_draw = 18
  /\ Seed.rewardFor (Seed.mkType "video_transcription" (Some "video") 18 30)
                    Cases.largest_draw = 30.
Proof. repeat split; vm_compute; reflexivity. Qed.

Lemma NoDup_map_injective {A B : Type} (f : A -> B) (l : list A) :
  (forall x y, f x = f y -> x = y) -> NoDup l -> NoDup (map f l).
Proof.
  intros Hf Hl. induction Hl as [|x l Hx Hl IH]; simpl; constructor; trivial.
  intros Hin. apply in_map_iff in Hin. destruct Hin as [y [E Hy]].
  apply Hf in E. now subst y.
Qed.

Lemma length_filter_map {A B : Type} (p : B -> bool) (f : A -> B) (l : list A) :
  List.length (filter p (map f l)) = List.length (filter (fun x => p (f x)) l).
Proof.
  induction l as [|x l IH]; simpl; trivial.
  destruct (p (f x)); simpl; now rewrite IH.
Qed.

Lemma type_of_index_In i : In (Seed.type_of_index i) Seed.TYPES.
Proof.
  unfold Seed.type_of_index. apply nth_In.
  apply Nat.mod_upper_bound. discriminate.
Qed.

Lemma seed_row_shape last_id random i :
  (forall j, Binary64.unit_interval (random j)) ->
  let t := Seed.seed_row last_id random i in
  is_active t = true
  /\ exists ty, In ty Seed.TYPES
                /\ Tasks.category t = Seed.type ty
                /\ Seed.base ty <= Tasks.reward_ksh t <= Seed.max ty
                /\ 10 <= Tasks.reward_ksh t <= 30.
Proof.
  intros Hr. cbv zeta. split; [reflexivity|].
  exists (Seed.type_of_index i). pose proof (type_of_index_In i) as Hin.
  split; [exact Hin|]. split; [reflexivity|].
  destruct (rewardFor_in_range (Seed.type_of_index i) (random i)) as [H1 H2].
  - exact Hin.
  - apply Hr.
  - simpl. split; trivial.
Qed.

(** X15.  The seeding at the end of [initDb] fills an empty catalog once.
    It leaves a catalog that has a task alone; run on an empty one, with
    every draw a Number [Math.random()] can return and the products
    rounded as Numbers are, it adds 2500 active tasks with ids of their own, 500
    of each of the five types, each with a reward within the range of its
    type and so between 10 and 30; and seeding again changes nothing.
    The catalog it leaves has the unique ids and the rewards that are not
    negative which the allocation and the ledger rely on. *)
Theorem seed_tasks_fills_an_empty_catalog_once
    (last_id last_id' : Z) (random random' : nat -> Binary64.t) (s : db)
    (Hrandom : forall i, Binary64.unit_interval (random i)) :
  let s' := Seed.seed_tasks last_id random s in
  (tasks s <> [] -> s' = s)
  /\ Seed.seed_tasks last_id' random' s' = s'
  /\ (tasks s = [] ->
      List.length (tasks s') = 2500%nat
      /\ tasks_unique s'
      /\ rewards_nonneg s'
      /\ (forall t, In t (tasks s') ->
            is_active t = true
            /\ exists ty, In ty Seed.TYPES
                          /\ Tasks.category t = Seed.type ty
                          /\ Seed.base ty <= Tasks.reward_ksh t <= Seed.max ty
                          /\ 10 <= Tasks.reward_ksh t <= 30)
      /\ (forall ty, In ty Seed.TYPES ->
            List.length
              (filter (fun t => String.eqb (Tasks.category t) (Seed.type ty))
                      (tasks s'))
            = 500%nat))
  /\ users s' = users s /\ daily_tasks s' = daily_tasks s
  /\ task_completions s' = task_completions s
  /\ withdrawals s' = withdrawals s
  /\ referral_rewards s' = referral_rewards s.
Proof.
  cbv zeta. unfold Seed.seed_tasks.
  destruct (tasks s) as [|t0 ts] eqn:Ets.
  - cbn [List.length Nat.ltb Nat.leb].
    change (tasks (with_catalog ?c s)) with c.
    split; [congruence|]. split; [reflexivity|].
    split; [|repeat split].
    intros _. cbn [tasks with_catalog].
    assert (Hshape : forall t,
              In t (map (Seed.seed_row last_id random) (seq 1 Seed.TOTAL)) ->
              is_active t = true
              /\ exists ty, In ty Seed.TYPES
                            /\ Tasks.category t = Seed.type ty
                            /\ Seed.base ty <= Tasks.reward_ksh t <= Seed.max ty
                            /\ 10 <= Tasks.reward_ksh t <= 30).
    { intros t Ht. apply in_map_iff in Ht. destruct Ht as [i [<- _]].
      now apply seed_row_shape. }
    split; [now rewrite length_map, length_seq|]. split; [|split; [|split]].
    + unfold tasks_unique. cbn [tasks with_catalog]. rewrite map_map.
      apply NoDup_map_injective; [|apply seq_NoDup].
      intros x y E. simpl in E. lia.
    + intros t Ht. cbn [tasks with_catalog] in Ht.
      destruct (Hshape t Ht) as [_ [ty [_ [_ [_ H10]]]]]. lia.
    + exact Hshape.
    + intros ty Hty. rewrite length_filter_map.
      destruct Hty as [<-|[<-|[<-|[<-|[<-|[]]]]]]; vm_compute; reflexivity.
  - cbn [List.length Nat.ltb Nat.leb]. rewrite Ets.
    cbn [List.length Nat.ltb Nat.leb].
    split; [reflexivity|]. split; [reflexivity|].
    split; [discriminate|repeat split].
Qed.

Lemma seed_tasks_fills_an_empty_catalog_once_witness :
  List.length (tasks (Seed.seed_tasks 0 (fun _ => Cases.half) empty_db))
  = 2500%nat.
Proof.
  refine (proj1 (proj1 (proj2 (proj2
            (seed_tasks_fills_an_empty_catalog_once 0 0 (fun _ => Cases.half)
               (fun _ => Cases.half) empty_db _))) eq_refl)).
  intros i. apply unit_interval_samples.
Defined.

(** ** The countdown of the task page *)

Lemma diff_to_midnight_eq offset now :
  Client.diff_to_midnight offset now
  = Clock.msPerDay - Clock.nairobi_time_of_day now.
Proof.
  unfold Client.diff_to_midnight, Client.setHours24, Client.local_time,
    Clock.nairobi_time_of_day, Clock.nairobi, Clock.Day, Clock.msPerDay.
  cbv zeta.
  replace (now + offset * 60000 + 3 * 3600000 - offset * 60000)
    with (now + 3 * 3600000) by lia.
  div_lia.
Qed.

(** X16.  The countdown of the task page counts to the next midnight of
    Nairobi, whatever the (fixed) offset of the browser's zone: the time
    left is a day less the time of day in Nairobi, more than nothing and
    at most a day, so the text reads from [0h 0m] to [24h 0m], the latter
    exactly at a Nairobi midnight.  The instant it counts to is 21:00
    UTC: the server's day key is the same just before it and at it, and
    changes three hours later. *)
Theorem untilMidnight_counts_to_nairobi_midnight (offset now : Z) :
  let diff := Client.diff_to_midnight offset now in
  let h := diff / 3600000 in
  let m := (diff mod 3600000) / 60000 in
  diff = Clock.msPerDay - Clock.nairobi_time_of_day now
  /\ Client.diff_to_midnight offset now = Client.diff_to_midnight 0 now
  /\ 0 < diff <= Clock.msPerDay
  /\ Client.untilMidnight offset now
     = (Js.number_to_string h ++ "h " ++ Js.number_to_string m ++ "m")%string
  /\ 0 <= h <= 24 /\ 0 <= m <= 59
  /\ (Clock.nairobi_time_of_day now = 0 ->
      Client.untilMidnight offset now = "24h 0m")
  /\ Clock.nairobi_time_of_day (now + diff) = 0
  /\ (now + diff) mod Clock.msPerDay = 21 * 3600000
  /\ Clock.dayUTC (now + diff - 1) = Clock.dayUTC (now + diff)
  /\ (Calendar.in_four_digit_years (now + diff + 3 * 3600000 - 1) ->
      Calendar.in_four_digit_years (now + diff + 3 * 3600000) ->
      Clock.dayUTC (now + diff + 3 * 3600000 - 1)
      <> Clock.dayUTC (now + diff + 3 * 3600000)).
Proof.
  cbv zeta. rewrite !diff_to_midnight_eq.
  assert (Hunfold : Client.untilMidnight offset now
          = (Js.number_to_string
               ((Clock.msPerDay - Clock.nairobi_time_of_day now) / 3600000)
             ++ "h "
             ++ Js.number_to_string
                  ((Clock.msPerDay - Clock.nairobi_time_of_day now) mod 3600000
                   / 60000)
             ++ "m")%string).
  { unfold Client.untilMidnight. cbv zeta. now rewrite diff_to_midnight_eq. }
  set (tod := Clock.nairobi_time_of_day now) in *.
  assert (Htod : 0 <= tod < Clock.msPerDay).
  { unfold tod, Clock.nairobi_time_of_day. apply Z.mod_pos_bound. reflexivity. }
  assert (Hnow : tod = (now + 3 * 3600000) mod 86400000) by reflexivity.
  unfold Clock.msPerDay in *.
  split; [reflexivity|]. split; [reflexivity|]. split; [lia|].
  split; [exact Hunfold|]. split; [div_lia|]. split; [div_lia|].
  split.
  { intros H0. rewrite Hunfold, H0. reflexivity. }
  split.
  { unfold Clock.nairobi_time_of_day, Clock.nairobi, Clock.msPerDay.
    clear Hunfold. div_lia. }
  split; [clear Hunfold; div_lia|].
  split.
  { apply CalendarFacts.dayUTC_of_utc_date, CalendarFacts.utc_date_eq_iff.
    unfold Clock.Day, Clock.msPerDay. clear Hunfold. div_lia. }
  intros H1 H2 E.
  apply CalendarFacts.dayUTC_inj in E; trivial.
  apply CalendarFacts.utc_date_eq_iff in E.
  unfold Clock.Day, Clock.msPerDay in E. clear Hunfold H1 H2. div_lia.
Qed.

(** ** The allocator writes the caller's day only *)

Lemma same_but_assignments_delete uid today s0 s :
  same_but_assignments uid today s0 s ->
  same_but_assignments uid today s0 (delete_daily_tasks_on uid today s).
Proof.
  intros [A [B [C [D [E F]]]]]. repeat split; trivial.
  rewrite <- F. unfold other_assignments, delete_daily_tasks_on, delete_where.
  simpl. rewrite filter_filter. apply filter_ext. intros d.
  now destruct (is_assignment uid today d).
Qed.

Lemma same_but_assignments_insert uid today tid s0 s :
  same_but_assignments uid today s0 s ->
  same_but_assignments uid today s0 (insert_or_ignore_daily_task uid today tid s).
Proof.
  intros [A [B [C [D [E F]]]]]. unfold insert_or_ignore_daily_task.
  destruct (existsb _ (daily_tasks s)); repeat split; trivial.
  rewrite <- F. unfold other_assignments. simpl.
  rewrite filter_app. simpl. rewrite is_assignment_mk. simpl.
  apply app_nil_r.
Qed.

(** X17.  Drawing the daily tasks of a user writes nothing but that user's
    rows of [daily_tasks] for the current UTC day: wherever
    [ensureDailyTasks] stops, the users, the catalog, the completion
    records, the withdrawal requests and the reward rows are as they were,
    and so is every daily-task row of another user or of another day, in
    its place. *)
Theorem ensureDailyTasks_writes_own_day_only
    (shuffle : list Tasks.row -> list Tasks.row) (now uid : Z) (f : fault)
    (s : db) :
  same_but_assignments uid (Clock.dayUTC now) s
    (snd (ensureDailyTasks shuffle now uid f s))
  /\ forall v day, (v <> uid \/ day <> Clock.dayUTC now) ->
       assignments_of v day (snd (ensureDailyTasks shuffle now uid f s))
       = assignments_of v day s.
Proof.
  assert (H : same_but_assignments uid (Clock.dayUTC now) s
                (snd (ensureDailyTasks shuffle now uid f s))).
  { apply (preserves_snd (same_but_assignments uid (Clock.dayUTC now) s)).
    - unfold ensureDailyTasks. cbv zeta.
      apply preserves_bind; [apply preserves_query|intros existing].
      destruct (5 <=? List.length existing)%nat; [apply preserves_ret|].
      apply preserves_bind.
      { apply preserves_run. intros t. apply same_but_assignments_delete. }
      intros _. apply preserves_bind; [apply preserves_query|intros picked].
      apply preserves_bind; [|intros _; apply preserves_ret].
      apply preserves_for_of. intros t. apply preserves_run. intros t'.
      apply same_but_assignments_insert.
    - repeat split. }
  split; [exact H|]. intros v day Hother.
  destruct H as [_ [_ [_ [_ [_ H]]]]]. unfold other_assignments in H.
  assert (E : forall l,
            filter (is_assignment v day) l
            = filter (is_assignment v day)
                (filter (fun d => negb (is_assignment uid (Clock.dayUTC now) d)) l)).
  { intros l. rewrite filter_filter. apply filter_ext. intros d.
    destruct (is_assignment v day d) eqn:Ev; [|now rewrite andb_false_r].
    destruct (is_assignment uid (Clock.dayUTC now) d) eqn:Eu; trivial.
    exfalso. unfold is_assignment in Ev, Eu.
    apply andb_true_iff in Ev, Eu. destruct Ev as [E1 E2], Eu as [E3 E4].
    apply Z.eqb_eq in E1, E3. apply String.eqb_eq in E2, E4.
    destruct Hother; congruence. }
  unfold assignments_of. now rewrite E, H, <- E.
Qed.

(** ** What a day can pay *)

Lemma serve_is_serve_with r s : serve r s = serve_with None r s.
Proof. now destruct r. Qed.

Lemma complete_appends_task_reward now uid tid body s :
  let s' := run_store (post_tasks_complete now uid tid body) s in
  task_completions s' = task_completions (sweep now s)
  \/ exists task,
       In task (tasks s)
       /\ task_completions s'
          = task_completions (sweep now s)
            ++ [completion_row now uid tid (Tasks.reward_ksh task) body].
Proof.
  cbv zeta. unfold run_store. rewrite post_tasks_complete_None. cbv zeta.
  destruct (active_task tid (sweep now s)) as [task|] eqn:Et; [|now left].
  destruct (assigned_today uid (Clock.dayUTC now) tid (sweep now s)); [|now left].
  destruct (daily_limit <=? _)%nat; [now left|].
  unfold insert_task_completion. cbv zeta.
  destruct (existsb _ (task_completions (sweep now s))); [now left|].
  right. exists task. split; [now apply active_task_In in Et|].
  match goal with
  | |- context [lookup_user uid ?x] => destruct (lookup_user uid x)
  end; cbn [snd]; now rewrite task_completions_referral_effect.
Qed.

Lemma rewards_capped_serve cap r s :
  rewards_capped cap s -> rewards_capped cap (serve r s).
Proof.
  intros [Ht Hc]. split.
  - rewrite serve_is_serve_with.
    destruct (same_accounts_serve_with None r s) as [E _]. now rewrite E.
  - destruct r as [now|shuffle now uid|now uid tid body|uid|uid body|now uid].
    3: { cbn [serve].
         destruct (complete_appends_task_reward now uid tid body s)
           as [E|[task [Hin E]]]; cbv zeta in E; rewrite E.
         - intros c Hin. apply Hc. unfold sweep, purged in Hin. simpl in Hin.
           now apply filter_In in Hin.
         - intros c Hin'. apply in_app_or in Hin'. destruct Hin' as [Hin'|[<-|[]]].
           + apply Hc. unfold sweep, purged in Hin'. simpl in Hin'.
             now apply filter_In in Hin'.
           + simpl. now apply Ht. }
    all: match goal with
         | |- forall c, In c (task_completions (serve ?r ?s0)) -> _ =>
             destruct (serve_task_completions r s0)
               as [[p E]|[now' [uid' [tid' [body' [Er _]]]]]];
             [rewrite E; intros c Hin; apply filter_In in Hin; now apply Hc
             |discriminate Er]
         end.
Qed.

Lemma rewards_capped_serve_all cap rs s :
  rewards_capped cap s -> rewards_capped cap (serve_all rs s).
Proof.
  unfold serve_all. revert s.
  induction rs as [|r rs IH]; intros s H; simpl; trivial.
  apply IH. now apply rewards_capped_serve.
Qed.

Lemma sumZ_capped cap (l : list Z) :
  (forall x, In x l -> x <= cap) -> sumZ l <= Z.of_nat (List.length l) * cap.
Proof.
  induction l as [|x l IH]; intros H; [simpl; lia|].
  assert (Hx : x <= cap) by (apply H; now left).
  assert (Hl : sumZ l <= Z.of_nat (List.length l) * cap)
    by (apply IH; intros y Hy; apply H; now right).
  change (sumZ (x :: l)) with (x + sumZ l).
  change (List.length (x :: l)) with (S (List.length l)). lia.
Qed.

(** X18.  A day pays at most five rewards.  When no task of the catalog
    and no record carries more than [cap], and no user has more than five
    completion records on a UTC day, then after any run of requests no
    record carries more than [cap] and the records of a user on a UTC day
    add up to at most [5 * cap]: 150 for the seeded catalog, whose rewards
    are at most 30. *)
Theorem a_day_pays_at_most_five_rewards (cap : Z) (rs : list request) (s : db)
    (Hcap : 0 <= cap)
    (Hrewards : rewards_capped cap s)
    (Hlimit : within_daily_limit s) :
  let s' := serve_all rs s in
  rewards_capped cap s'
  /\ forall uid day, earned_on uid day s' <= 5 * cap.
Proof.
  cbv zeta.
  pose proof (rewards_capped_serve_all cap rs s Hrewards) as Hc.
  pose proof (within_daily_limit_serve_all rs s Hlimit) as Hl.
  split; [exact Hc|]. intros uid day. unfold earned_on.
  specialize (Hl uid day). unfold daily_limit in Hl.
  eapply Z.le_trans.
  - apply (sumZ_capped cap). intros x Hx. apply in_map_iff in Hx.
    destruct Hx as [c [<- Hin]]. apply (proj2 Hc).
    unfold completions_on in Hin. now apply filter_In in Hin.
  - rewrite length_map. nia.
Qed.

Lemma a_day_pays_at_most_five_rewards_witness :
  earned_on 1 20471
    (serve_all [PostComplete Demo.t1 1 7 Demo.body;
                PostComplete Demo.t2 1 7 Demo.body] Demo.store)
  <= 5 * 10.
Proof.
  refine (proj2 (a_day_pays_at_most_five_rewards 10
                   [PostComplete Demo.t1 1 7 Demo.body;
                    PostComplete Demo.t2 1 7 Demo.body] Demo.store _ _ _) 1 20471).
  - lia.
  - split.
    + intros t [<-|[]]. simpl. lia.
    + intros c [].
  - intros uid day. simpl. lia.
Defined.

(** ** A sweep that stops half way *)

Lemma purge_account_prefix uid f s :
  exists k, snd (purge_account uid f s) = purge_prefix k uid s.
Proof.
  destruct f as [[|[|[|[|[|n]]]]]|].
  - now exists 0%nat.
  - now exists 1%nat.
  - now exists 2%nat.
  - now exists 3%nat.
  - now exists 4%nat.
  - exists 5%nat. pose proof (purge_account_None uid s) as H.
    apply (f_equal snd) in H. exact H.
  - exists 5%nat. now rewrite purge_account_None.
Qed.

Lemma purge_account_Returned uid f s a f' :
  fst (purge_account uid f s) = (Returned a, f') ->
  snd (purge_account uid f s) = purged [uid] s.
Proof.
  destruct f as [[|[|[|[|[|n]]]]]|]; try discriminate; intros _.
  - pose proof (purge_account_None uid s) as H.
    apply (f_equal snd) in H. exact H.
  - now rewrite purge_account_None.
Qed.

Lemma purged_doomed_member now' uid s x :
  memZ uid (doomed now' s) = true ->
  memZ x ([uid] ++ doomed now' (purged [uid] s)) = memZ x (doomed now' s).
Proof.
  intros Hu. rewrite memZ_app. apply eq_true_iff_eq.
  rewrite orb_true_iff, !doomed_iff. split.
  - intros [H|[u [Hin [Hd E]]]].
    + unfold memZ in H. simpl in H. rewrite orb_false_r in H.
      apply Z.eqb_eq in H. subst x. now apply doomed_iff.
    + apply users_purged in Hin. exists u. tauto.
  - intros [u [Hin [Hd E]]]. destruct (x =? uid) eqn:Ex.
    + left. unfold memZ. simpl. now rewrite Ex.
    + right. exists u. split; [|tauto]. apply users_purged. split; trivial.
      unfold memZ. simpl. rewrite E, Ex. reflexivity.
Qed.

Lemma sweep_purged_due now' uid s :
  memZ uid (doomed now' s) = true -> sweep now' (purged [uid] s) = sweep now' s.
Proof.
  intros Hu. unfold sweep. rewrite purged_app. apply purged_ext.
  intros x. now apply purged_doomed_member.
Qed.

Lemma sweep_prefix_due now' k uid s :
  memZ uid (doomed now' s) = true ->
  sweep now' (purge_prefix k uid s) = sweep now' s.
Proof.
  intros Hu.
  destruct k as [|[|[|[|[|k]]]]]; [reflexivity| | | | |now apply sweep_purged_due].
  all: unfold purge_prefix, sweep, doomed, purged, delete_task_completions_of,
         delete_withdrawals_of, delete_daily_tasks_of,
         delete_referral_rewards_of, delete_where; simpl; f_equal;
       rewrite ?filter_filter; apply filter_ext; intros r;
       fold (doomed now' s);
       repeat match goal with
              | |- context [?a =? ?b] =>
                  let E := fresh "E" in
                  destruct (a =? b) eqn:E;
                  [apply Z.eqb_eq in E; rewrite ?E, ?Hu|]
              end; simpl; rewrite ?orb_true_r; reflexivity.
Qed.

Lemma filter_all {A : Type} (p : A -> bool) (l : list A) :
  filter p l = l -> forall x, In x l -> p x = true.
Proof.
  intros H x Hx. rewrite <- H in Hx. now apply filter_In in Hx.
Qed.

Lemma gone_prefix k uid s : gone uid s -> purge_prefix k uid s = s.
Proof.
  intros H. destruct k as [|[|[|[|[|k]]]]]; [reflexivity| | | | |exact H].
  all: unfold gone, purged in H; destruct s as [us ts ds cs ws rs];
       simpl in H; injection H as Hus Hds Hcs Hws Hrs;
       unfold purge_prefix, delete_task_completions_of, delete_withdrawals_of,
         delete_daily_tasks_of, delete_referral_rewards_of, delete_where,
         set_task_completions, set_withdrawals, set_daily_tasks,
         set_referral_rewards; simpl; f_equal;
       apply filter_true; intros x Hx.
  all: try (pose proof (filter_all _ _ Hds x Hx) as Hp);
       try (pose proof (filter_all _ _ Hcs x Hx) as Hp);
       try (pose proof (filter_all _ _ Hws x Hx) as Hp);
       try (pose proof (filter_all _ _ Hrs x Hx) as Hp);
       unfold memZ in Hp; simpl in Hp; rewrite ?orb_false_r in Hp; exact Hp.
Qed.

Lemma gone_purged_self uid s : gone uid (purged [uid] s).
Proof.
  unfold gone. rewrite purged_app. apply purged_ext. intros x.
  rewrite memZ_app. now destruct (memZ x [uid]).
Qed.

Lemma gone_purged id uid s : gone id s -> gone id (purged [uid] s).
Proof.
  unfold gone. intros H. rewrite purged_app.
  rewrite (purged_ext ([uid] ++ [id]) ([id] ++ [uid])).
  - rewrite <- purged_app. now rewrite H.
  - intros x. rewrite !memZ_app. apply orb_comm.
Qed.

Lemma due_or_gone_purged now' uid ids s :
  due_or_gone now' (uid :: ids) s -> due_or_gone now' ids (purged [uid] s).
Proof.
  intros H id Hid. destruct (id =? uid) eqn:E.
  - apply Z.eqb_eq in E. subst id. right. apply gone_purged_self.
  - destruct (H id (or_intror Hid)) as [Hd|Hg].
    + left. apply doomed_iff in Hd. destruct Hd as [u [Hin [Hd Hu]]].
      apply doomed_iff. exists u. split; [|tauto]. apply users_purged.
      split; trivial. unfold memZ. simpl. rewrite Hu, E. reflexivity.
    + right. now apply gone_purged.
Qed.

Lemma purge_loop_fault now' ids f s :
  due_or_gone now' ids s ->
  sweep now' (snd (for_of ids purge_account f s)) = sweep now' s.
Proof.
  revert f s. induction ids as [|uid ids IH]; intros f s Hready; [reflexivity|].
  assert (Hhead : forall k, sweep now' (purge_prefix k uid s) = sweep now' s).
  { intros k. destruct (Hready uid (or_introl eq_refl)) as [Hd|Hg].
    - now apply sweep_prefix_due.
    - now rewrite gone_prefix. }
  cbn [for_of]. unfold bind.
  destruct (purge_account_prefix uid f s) as [k Hk].
  destruct (purge_account uid f s) as [[[a| |] f1] s1] eqn:E; cbn [snd] in *.
  - assert (Hs1 : s1 = purged [uid] s).
    { pose proof (purge_account_Returned uid f s a f1) as H.
      rewrite E in H. now apply H. }
    rewrite IH.
    + rewrite Hk. apply Hhead.
    + rewrite Hs1. now apply due_or_gone_purged.
  - rewrite Hk. apply Hhead.
  - rewrite Hk. apply Hhead.
Qed.

(** X19.  A sweep of the reaper that stops before any of its writes is
    made good by the next one: the store a later sweep leaves after the
    interrupted one is the store it would have left without it.  No row
    of an account that was due is stranded by the interruption. *)
Theorem interrupted_purge_is_completed_by_the_next (now now' : Z) (f : fault)
    (s : db)
    (Hle : now <= now') :
  run_store (purgeDeletedAccounts now') (snd (purgeDeletedAccounts now f s))
  = run_store (purgeDeletedAccounts now') s.
Proof.
  unfold run_store. rewrite !purge_None. cbn [snd].
  unfold purgeDeletedAccounts at 1. rewrite bind_query.
  apply purge_loop_fault. intros id Hid. left.
  apply memZ_In in Hid. apply doomed_iff in Hid.
  destruct Hid as [u [Hin [Hd E]]]. apply doomed_iff. exists u.
  eauto using is_doomed_later.
Qed.

Lemma interrupted_purge_is_completed_by_the_next_witness :
  let s := mkDb [Users.mk 1 None 40 0 (Some 1000) (Some 2000);
                 Users.mk 2 (Some 1) 10 0 None None]
                [] [DailyTasks.mk 1 "1970-01-01" 7]
                [TaskCompletions.mk 1 7 10 "hello" 1]
                [Withdrawals.mk 1 5 "0700000000" "mpesa" "pending"]
                [ReferralRewards.mk 1 2] in
  withdrawals (snd (purgeDeletedAccounts 3000 (Some 1%nat) s))
  = [Withdrawals.mk 1 5 "0700000000" "mpesa" "pending"]
  /\ run_store (purgeDeletedAccounts 4000)
       (snd (purgeDeletedAccounts 3000 (Some 1%nat) s))
     = run_store (purgeDeletedAccounts 4000) s.
Proof.
  cbv zeta. split; [reflexivity|].
  apply interrupted_purge_is_completed_by_the_next. lia.
Defined.

(** ** Less than a shilling *)

Lemma lookup_credit_zero v uid s :
  lookup_user v (credit_balance uid (- 0) s) = lookup_user v s.
Proof.
  rewrite lookup_credit_balance.
  destruct (lookup_user v s) as [[i r b c d e]|]; trivial. simpl.
  destruct (i =? uid); trivial. unfold add_balance. simpl.
  now rewrite Z.add_0_r.
Qed.

(** X20.  A withdrawal of less than one shilling is accepted and moves
    nothing: for an amount above 0 and under 1 and a balance of at least
    1, the request is answered as a success, a pending request of amount
    0 is added to the table, and every account is as it was. *)
Theorem withdrawal_below_one_shilling_records_zero (uid : Z)
    (body : withdrawal_body) (s : db) (u : Users.row)
    (Huser : lookup_user uid s = Some u)
    (Hschema : schema_ok body = true)
    (Hsmall : (amount body < 1)%Q)
    (Hfunds : 1 <= Users.balance_ksh u) :
  let h := post_withdrawals uid body in
  run_outcome h s = Returned (Json tt)
  /\ withdrawals (run_store h s)
     = withdrawals s
       ++ [Withdrawals.mk uid 0 (phone body) (method body) "pending"]
  /\ (forall v, lookup_user v (run_store h s) = lookup_user v s)
  /\ balance_of uid (run_store h s) = Some (Users.balance_ksh u).
Proof.
  cbv zeta. unfold run_outcome, run_store.
  rewrite post_withdrawals_None, Hschema, Huser. cbn [negb].
  assert (Hpos : (0 < amount body)%Q).
  { unfold schema_ok in Hschema. apply andb_true_iff in Hschema.
    destruct Hschema as [Hs _]. apply andb_true_iff in Hs.
    destruct Hs as [Hs _]. apply negb_true_iff in Hs.
    destruct (Qlt_le_dec 0 (amount body)) as [H|H]; trivial.
    apply Qle_bool_iff in H. congruence. }
  assert (Hle : Qle_bool (amount body) (inject_Z (Users.balance_ksh u)) = true).
  { apply Qle_bool_iff. apply Qlt_le_weak.
    eapply Qlt_le_trans; [exact Hsmall|].
    change 1%Q with (inject_Z 1). now rewrite <- Zle_Qle. }
  rewrite Hle. cbn [negb fst snd].
  assert (Hfloor : Qfloor (amount body) = 0).
  { assert (0 <= Qfloor (amount body)).
    { change 0 with (Qfloor (inject_Z 0)). apply Qfloor_resp_le.
      now apply Qlt_le_weak. }
    assert (Qfloor (amount body) < 1).
    { rewrite Zlt_Qlt. eapply Qle_lt_trans; [apply Qfloor_le|exact Hsmall]. }
    lia. }
  rewrite Hfloor. split; [reflexivity|]. split; [reflexivity|].
  assert (Hl : forall v,
            lookup_user v
              (credit_balance uid (- 0)
                 (insert_withdrawal uid 0 (phone body) (method body) "pending" s))
            = lookup_user v s).
  { intros v. now rewrite lookup_credit_zero. }
  split; [exact Hl|]. unfold balance_of. now rewrite Hl, Huser.
Qed.

Lemma withdrawal_below_one_shilling_records_zero_witness :
  withdrawals (run_store (post_withdrawals 1 (mkWithdrawal (1 # 2) "0700000000"
                                                "mpesa")) Demo.funded_store)
  = [Withdrawals.mk 1 0 "0700000000" "mpesa" "pending"].
Proof.
  refine (proj1 (proj2 (withdrawal_below_one_shilling_records_zero 1
                          (mkWithdrawal (1 # 2) "0700000000" "mpesa")
                          Demo.funded_store (Users.mk 1 None 2 0 None None)
                          eq_refl eq_refl eq_refl _))).
  simpl. lia.
Defined.

(** ** One day for the assignment and for the limit *)

Lemma sql_date_is_Day t :
  Clock.sql_date (Clock.sql_datetime t) = Clock.Day t.
Proof.
  unfold Clock.sql_date, Clock.sql_datetime, Clock.Day, Clock.msPerDay.
  div_lia.
Qed.

(** X21.  The assignment and the daily limit cut the days at the same
    instants.  The key [dayUTC()] under which tasks are assigned and the
    [date(created_at) = date("now")] under which completions are counted
    both follow the UTC date: for instants whose year has four digits, two
    instants have the same key exactly when a record made at one counts
    towards the limit at the other. *)
Theorem limit_day_is_assignment_day (t1 t2 : Z)
    (H1 : Calendar.in_four_digit_years t1)
    (H2 : Calendar.in_four_digit_years t2) :
  Clock.dayUTC t1 = Clock.dayUTC t2
  <-> Clock.sql_date (Clock.sql_datetime t1)
      = Clock.sql_date (Clock.sql_datetime t2).
Proof.
  rewrite !sql_date_is_Day. rewrite <- CalendarFacts.utc_date_eq_iff. split.
  - now apply CalendarFacts.dayUTC_inj.
  - apply CalendarFacts.dayUTC_of_utc_date.
Qed.

Lemma limit_day_is_assignment_day_witness :
  Clock.dayUTC Demo.t1 = Clock.dayUTC Demo.t2
  <-> Clock.sql_date (Clock.sql_datetime Demo.t1)
      = Clock.sql_date (Clock.sql_datetime Demo.t2).
Proof.
  apply limit_day_is_assignment_day;
    unfold Calendar.in_four_digit_years, Demo.t1, Demo.t2; lia.
Defined.
